(** * connors-datafetch: timespan resolver, source registry, provider
      adapters and fetch orchestrator

    A shallow embedding of the Python sources

    - [connors_downloader/core/timespan.py]      (module [Timespan])
    - [connors_downloader/core/registry.py]      (module [Registry])
    - [connors_downloader/datasources/*.py],
      [connors_datafetch/datasources/*.py]       (module [Adapters])
    - [connors_downloader/config/manager.py],
      [connors_downloader/services/download_service.py] (modules [Config],
      [Service], [Hooked] and [Listing])
    - [connors_downloader/cli/downloader.py]     (module [Cli])

    Conventions of the embedding.

    - A Python [str] is a Rocq [string]; each character stands for one code
      point below 256, so [\d] is [0-9] and [str.isalnum] / [str.lower] are
      the Latin-1 restrictions of the Unicode predicates.
    - [Optional[str]] is [option string]; Python truthiness of such a value
      is [truthy].
    - An exception is a value of type [exn], an instance of [Exception]
      ([KeyboardInterrupt] and the like are left out); a call that may
      raise returns [exn + A] ([inl] = raised), or lives in the trace
      monad [M] where the observable effects of a call (log lines,
      progress notifications, adapter construction, upstream requests,
      file writes) are recorded.
    - A [datetime] is represented by its calendar date: every operation the
      sources apply to one ([- timedelta(days=n)], [strftime("%Y-%m-%d")],
      [.year]) ignores or preserves the time of day.
    - A [Path] is represented by the text [str] gives for it; the home
      directory and [CONNORS_HOME] are taken in that form, without a
      doubled or trailing '/'. A file name joined to a directory stays one
      component of the path only when it holds no '/': the properties of
      file names and paths are stated for such names. *)

From Stdlib Require Import ZArith List String Ascii Bool Lia.
From Stdlib Require Import Permutation Sorted QArith.
Import ListNotations.
Open Scope string_scope.
Open Scope Z_scope.
Set Warnings "-register-all".

(** ** Exceptions *)

Inductive exn_kind :=
| ValueError | RuntimeError | KeyError | OverflowError | TypeError | OtherError.

Record exn := Exn { exn_kind_of : exn_kind; exn_msg : string }.

(** [str(e)] of an exception built from one message argument. *)
Definition str_of_exn (e : exn) : string := exn_msg e.

Definition result (A : Type) : Type := (exn + A)%type.

Definition ok {A} (a : A) : result A := inr a.
Definition raise_ {A} (k : exn_kind) (m : string) : result A := inl (Exn k m).

Definition rbind {A B} (r : result A) (f : A -> result B) : result B :=
  match r with
  | inl e => inl e
  | inr a => f a
  end.

Declare Scope result_scope.
Delimit Scope result_scope with result.
Notation "x <-! c ; k" := (rbind c (fun x => k))
  (at level 61, c at next level, right associativity) : result_scope.
Notation "c ;;! k" := (rbind c (fun _ => k))
  (at level 61, right associativity) : result_scope.

(** ** Python strings *)

Module PyStr.

Definition code (c : ascii) : Z := Z.of_nat (nat_of_ascii c).

Definition is_digit (c : ascii) : bool :=
  (48 <=? code c) && (code c <=? 57).

Definition digit_val (c : ascii) : Z := code c - 48.

Definition in_range (lo hi : Z) (c : ascii) : bool :=
  (lo <=? code c) && (code c <=? hi).

(** [c.isalnum()] for a code point below 256: the ASCII letters and digits,
    the Latin-1 letters (categories Ll, Lu, Lo), and the characters with a
    numeric value (superscript digits and vulgar fractions). *)
Definition isalnum_char (c : ascii) : bool :=
  in_range 48 57 c || in_range 65 90 c || in_range 97 122 c
  || (code c =? 170) || (code c =? 178) || (code c =? 179)
  || (code c =? 181) || (code c =? 185) || (code c =? 186)
  || in_range 188 190 c
  || in_range 192 214 c || in_range 216 246 c || in_range 248 255 c.

Fixpoint all_chars (p : ascii -> bool) (s : string) : bool :=
  match s with
  | EmptyString => true
  | String c r => p c && all_chars p r
  end.

(** [s.isalnum()]: every character is alphanumeric and there is at least
    one character. *)
Definition isalnum (s : string) : bool :=
  match s with
  | EmptyString => false
  | _ => all_chars isalnum_char s
  end.

(** [s.replace(c, "")] for a one-character pattern. *)
Fixpoint remove_char (x : ascii) (s : string) : string :=
  match s with
  | EmptyString => EmptyString
  | String c r =>
      if Ascii.eqb c x then remove_char x r else String c (remove_char x r)
  end.

(** [s.replace(x, y)] for one-character pattern and replacement. *)
Fixpoint replace_char (x y : ascii) (s : string) : string :=
  match s with
  | EmptyString => EmptyString
  | String c r =>
      String (if Ascii.eqb c x then y else c) (replace_char x y r)
  end.

(** [c.lower()] below 256: A-Z and the upper-case Latin-1 letters
    (0xC0-0xDE without the multiplication sign) move up by 32. *)
Definition lower_char (c : ascii) : ascii :=
  if in_range 65 90 c
     || (in_range 192 222 c && negb (code c =? 215))
  then ascii_of_nat (nat_of_ascii c + 32)
  else c.

Fixpoint lower (s : string) : string :=
  match s with
  | EmptyString => EmptyString
  | String c r => String (lower_char c) (lower r)
  end.

(** [s.upper()] on the strings the sources apply it to, whose letters
    are ASCII. *)
Definition upper_char (c : ascii) : ascii :=
  if in_range 97 122 c then ascii_of_nat (nat_of_ascii c - 32) else c.

Fixpoint upper (s : string) : string :=
  match s with
  | EmptyString => EmptyString
  | String c r => String (upper_char c) (upper r)
  end.

Definition len (s : string) : Z := Z.of_nat (String.length s).

(** Python truthiness of a string. *)
Definition nonempty (s : string) : bool :=
  match s with
  | EmptyString => false
  | _ => true
  end.

(** Python truthiness of an [Optional[str]]. *)
Definition truthy (o : option string) : bool :=
  match o with
  | Some s => nonempty s
  | None => false
  end.

Fixpoint In_str (c : ascii) (s : string) : Prop :=
  match s with
  | EmptyString => False
  | String d r => d = c \/ In_str c r
  end.

Fixpoint join (sep : string) (l : list string) : string :=
  match l with
  | [] => ""
  | [x] => x
  | x :: r => x ++ sep ++ join sep r
  end.

Fixpoint mem (x : string) (l : list string) : bool :=
  match l with
  | [] => false
  | y :: r => String.eqb x y || mem x r
  end.

Definition digit_char (d : Z) : ascii := ascii_of_nat (Z.to_nat (48 + d)).

(** Decimal rendering of a non-negative integer on exactly [w] digits
    (the low-order [w] digits), most significant first. *)
Fixpoint digits_fixed (w : nat) (n : Z) : string :=
  match w with
  | O => ""
  | S w' => digits_fixed w' (n / 10) ++ String (digit_char (n mod 10)) ""
  end.

(** [str(n)] for an integer: as many digits as needed, at most [fuel]. *)
Fixpoint digits_nat (fuel : nat) (n : Z) : string :=
  match fuel with
  | O => ""
  | S f =>
      if n <? 10 then String (digit_char n) ""
      else digits_nat f (n / 10) ++ String (digit_char (n mod 10)) ""
  end.

Definition str_of_Z (n : Z) : string :=
  if n <? 0 then "-" ++ digits_nat (S (Z.to_nat (Z.log2 (- n)))) (- n)
  else digits_nat (S (Z.to_nat (Z.log2 n))) n.

(** The string prefix [s[:n]]. *)
Fixpoint take (n : nat) (s : string) : string :=
  match n, s with
  | O, _ => ""
  | _, EmptyString => ""
  | S k, String c r => String c (take k r)
  end.

Fixpoint endswith_rev (suffix_rev s_rev : list ascii) : bool :=
  match suffix_rev, s_rev with
  | [], _ => true
  | _ :: _, [] => false
  | a :: p, b :: q => Ascii.eqb a b && endswith_rev p q
  end.

Definition endswith (s suffix : string) : bool :=
  endswith_rev (rev (list_ascii_of_string suffix))
               (rev (list_ascii_of_string s)).

End PyStr.

(** ** The proleptic Gregorian calendar of Python's [datetime] *)

Module Calendar.

Record datetime := Date { year : Z; month : Z; day : Z }.

Definition is_leap (y : Z) : bool :=
  (y mod 4 =? 0) && (negb (y mod 100 =? 0) || (y mod 400 =? 0)).

Definition days_in_month (y m : Z) : Z :=
  if m =? 2 then (if is_leap y then 29 else 28)
  else if (m =? 4) || (m =? 6) || (m =? 9) || (m =? 11) then 30
  else 31.

(** Number of days in the year before the first day of month [m],
    leap day not counted: the table [_DAYS_BEFORE_MONTH]. *)
Definition days_before_month_tbl (m : Z) : Z :=
  match m with
  | 1 => 0 | 2 => 31 | 3 => 59 | 4 => 90 | 5 => 120 | 6 => 151
  | 7 => 181 | 8 => 212 | 9 => 243 | 10 => 273 | 11 => 304 | 12 => 334
  | _ => 0
  end.

Definition days_in_month_tbl (m : Z) : Z :=
  match m with
  | 2 => 28
  | 4 | 6 | 9 | 11 => 30
  | _ => 31
  end.

Definition days_before_year (y : Z) : Z :=
  let p := y - 1 in p * 365 + p / 4 - p / 100 + p / 400.

Definition days_before_month (y m : Z) : Z :=
  days_before_month_tbl m + (if (2 <? m) && is_leap y then 1 else 0).

Definition MINYEAR : Z := 1.
Definition MAXYEAR : Z := 9999.
Definition MAXORDINAL : Z := 3652059.

(** The check made by the [datetime(y, m, d)] constructor. *)
Definition valid_ymd (y m d : Z) : bool :=
  (MINYEAR <=? y) && (y <=? MAXYEAR) && (1 <=? m) && (m <=? 12)
  && (1 <=? d) && (d <=? days_in_month y m).

Definition valid (t : datetime) : bool :=
  valid_ymd (year t) (month t) (day t).

(** [t.toordinal()]: 0001-01-01 is day 1. *)
Definition toordinal (t : datetime) : Z :=
  days_before_year (year t) + days_before_month (year t) (month t) + day t.

(** The month and the day of the [n]-th day (from 0) of a year: the
    estimate [(n + 50) >> 5] of the month is corrected when it is one
    too large. *)
Definition month_day (leapyear : bool) (n : Z) : Z * Z :=
  let m := Z.shiftr (n + 50) 5 in
  let preceding :=
    days_before_month_tbl m + (if (2 <? m) && leapyear then 1 else 0) in
  if n <? preceding then
    let m' := m - 1 in
    let preceding' :=
      preceding
      - (days_in_month_tbl m' + (if (m' =? 2) && leapyear then 1 else 0)) in
    (m', n - preceding' + 1)
  else (m, n - preceding + 1).

(** [date.fromordinal(n)], following [_ord2ymd]. *)
Definition fromordinal (n0 : Z) : datetime :=
  let n := n0 - 1 in
  let n400 := n / 146097 in
  let n := n mod 146097 in
  let n100 := n / 36524 in
  let n := n mod 36524 in
  let n4 := n / 1461 in
  let n := n mod 1461 in
  let n1 := n / 365 in
  let n := n mod 365 in
  let y := n400 * 400 + 1 + n100 * 100 + n4 * 4 + n1 in
  if (n1 =? 4) || (n100 =? 4) then Date (y - 1) 12 31
  else
    let leapyear := (n1 =? 3) && (negb (n4 =? 24) || (n100 =? 3)) in
    let '(m, d) := month_day leapyear n in
    Date y m d.

(** [t - timedelta(days=n)]: the result must stay within
    [datetime.min .. datetime.max]. *)
Definition sub_days (t : datetime) (n : Z) : result datetime :=
  let o := toordinal t - n in
  if (0 <? o) && (o <=? MAXORDINAL) then ok (fromordinal o)
  else raise_ OverflowError "date value out of range".

(** [t.strftime("%Y-%m-%d")], with the year on four digits. *)
Definition strftime_ymd (t : datetime) : string :=
  PyStr.digits_fixed 4 (year t) ++ "-" ++ PyStr.digits_fixed 2 (month t)
  ++ "-" ++ PyStr.digits_fixed 2 (day t).

(** *** [datetime.strptime(s, "%Y-%m-%d")]

    The format compiles to the regular expression
    [(\d\d\d\d)-(1[0-2]|0[1-9]|[1-9])-(3[01]|[12]\d|0[1-9]|[1-9]| [1-9])],
    matched at the start of the string with ordered alternatives; text
    left over after the match, and a matched triple that is not a date,
    both raise [ValueError]. *)

Definition chars := list ascii.

Definition lit (c : ascii) (s : chars) : option chars :=
  match s with
  | d :: r => if Ascii.eqb c d then Some r else None
  | [] => None
  end.

Definition digit (s : chars) : option (Z * chars) :=
  match s with
  | d :: r => if PyStr.is_digit d then Some (PyStr.digit_val d, r) else None
  | [] => None
  end.

Definition digit_in (lo hi : Z) (s : chars) : option (Z * chars) :=
  match digit s with
  | Some (v, r) => if (lo <=? v) && (v <=? hi) then Some (v, r) else None
  | None => None
  end.

(** Two characters: a digit in [lo1..hi1], then a digit in [lo2..hi2]. *)
Definition two_digits (lo1 hi1 lo2 hi2 : Z) (s : chars) : option (Z * chars) :=
  match digit_in lo1 hi1 s with
  | Some (a, r) =>
      match digit_in lo2 hi2 r with
      | Some (b, r') => Some (10 * a + b, r')
      | None => None
      end
  | None => None
  end.

Definition year_field (s : chars) : option (Z * chars) :=
  match digit s with
  | Some (a, s1) =>
      match digit s1 with
      | Some (b, s2) =>
          match digit s2 with
          | Some (c, s3) =>
              match digit s3 with
              | Some (d, s4) => Some (1000 * a + 100 * b + 10 * c + d, s4)
              | None => None
              end
          | None => None
          end
      | None => None
      end
  | None => None
  end.

(** Ordered alternatives with backtracking into the continuation [k]. *)
Definition alt {R} (p : chars -> option (Z * chars))
           (k : Z -> chars -> option R) (s : chars) : option R :=
  match p s with
  | Some (v, r) => k v r
  | None => None
  end.

Definition orelse {R} (a b : option R) : option R :=
  match a with
  | Some x => Some x
  | None => b
  end.

Definition month_field {R} (k : Z -> chars -> option R) (s : chars) : option R :=
  orelse (alt (two_digits 1 1 0 2) k s)
    (orelse (alt (two_digits 0 0 1 9) k s)
            (alt (digit_in 1 9) k s)).

Definition day_field {R} (k : Z -> chars -> option R) (s : chars) : option R :=
  orelse (alt (two_digits 3 3 0 1) k s)
    (orelse (alt (two_digits 1 2 0 9) k s)
      (orelse (alt (two_digits 0 0 1 9) k s)
        (orelse (alt (digit_in 1 9) k s)
                (match lit " "%char s with
                 | Some r => alt (digit_in 1 9) k r
                 | None => None
                 end)))).

(** The regular-expression match: the three fields and the unmatched rest. *)
Definition regex_ymd (s : chars) : option (Z * Z * Z * chars) :=
  match year_field s with
  | Some (y, s1) =>
      match lit "-"%char s1 with
      | Some s2 =>
          month_field
            (fun m s3 =>
               match lit "-"%char s3 with
               | Some s4 => day_field (fun d s5 => Some (y, m, d, s5)) s4
               | None => None
               end) s2
      | None => None
      end
  | None => None
  end.

Definition strptime_ymd (s : string) : result datetime :=
  match regex_ymd (list_ascii_of_string s) with
  | None => raise_ ValueError "time data does not match format '%Y-%m-%d'"
  | Some (y, m, d, rest) =>
      match rest with
      | _ :: _ => raise_ ValueError "unconverted data remains"
      | [] =>
          if valid_ymd y m d then ok (Date y m d)
          else raise_ ValueError "date value out of range"
      end
  end.

End Calendar.

(** ** [core/timespan.py]: the timespan resolver *)

Module Timespan.
Import Calendar.
Local Open Scope result_scope.

(** A value of the [PREDEFINED_TIMESPANS] table: keyword arguments for
    [timedelta], or the marker ["year_to_date"]. *)
Inductive timespan_config :=
| Days (n : Z)
| Weeks (n : Z)
| YearToDate.

Definition PREDEFINED_TIMESPANS : list (string * timespan_config) :=
  [ ("1D", Days 1); ("5D", Days 5); ("10D", Days 10);
    ("1W", Weeks 1); ("2W", Weeks 2);
    ("1M", Days 30); ("3M", Days 90); ("6M", Days 180);
    ("YTD", YearToDate);
    ("1Y", Days 365); ("2Y", Days 730); ("3Y", Days 1095);
    ("5Y", Days 1825) ].

Fixpoint lookup {V} (k : string) (d : list (string * V)) : option V :=
  match d with
  | [] => None
  | (k', v) :: r => if String.eqb k k' then Some v else lookup k r
  end.

Definition keys {V} (d : list (string * V)) : list string := map fst d.

Definition get_available_timespans : list string :=
  keys PREDEFINED_TIMESPANS.

(** The [days] of the [timedelta] built from the keyword arguments. *)
Definition timedelta_days (c : timespan_config) : Z :=
  match c with
  | Days n => n
  | Weeks n => 7 * n
  | YearToDate => 0
  end.

(** [_validate_date_format]: any [ValueError] of [strptime] is re-raised
    with the resolver's own message. *)
Definition _validate_date_format (date_str : string) : result unit :=
  match strptime_ymd date_str with
  | inr _ => ok tt
  | inl _ =>
      raise_ ValueError
        ("Invalid date format '" ++ date_str
         ++ "'. Expected YYYY-MM-DD format.")
  end.

Definition or_default (o : option string) (d : string) : string :=
  if PyStr.truthy o then match o with Some s => s | None => d end else d.

(** [calculate_dates]; [now] is the value [datetime.now()] would return. *)
Definition calculate_dates (now : datetime)
           (timespan start_date end_date : option string)
           (end_date_override : option datetime)
  : result (string * string) :=
  let end_dt := match end_date_override with Some t => t | None => now end in
  match PyStr.truthy start_date, PyStr.truthy end_date with
  | true, true =>
      let s := or_default start_date "" in
      let e := or_default end_date "" in
      _validate_date_format s ;;!
      _validate_date_format e ;;!
      ok (s, e)
  | true, false =>
      let s := or_default start_date "" in
      _validate_date_format s ;;!
      ok (s, strftime_ymd end_dt)
  | false, true =>
      let e := or_default end_date "" in
      _validate_date_format e ;;!
      end_dt' <-! strptime_ymd e ;
      start_dt <-! sub_days end_dt' 365 ;
      ok (strftime_ymd start_dt, e)
  | false, false =>
      let timespan := or_default timespan "1Y" in
      match lookup timespan PREDEFINED_TIMESPANS with
      | None =>
          raise_ ValueError
            ("Invalid timespan '" ++ timespan ++ "'. Available options: "
             ++ PyStr.join ", " (keys PREDEFINED_TIMESPANS))
      | Some timespan_config =>
          if String.eqb timespan "YTD" then
            ok (strftime_ymd (Date (year end_dt) 1 1), strftime_ymd end_dt)
          else
            start_dt <-! sub_days end_dt (timedelta_days timespan_config) ;
            ok (strftime_ymd start_dt, strftime_ymd end_dt)
      end
  end.

Definition get_timespan_description (timespan : string) : string :=
  match lookup timespan
          [ ("1D", "1 Day"); ("5D", "5 Days"); ("10D", "10 Days");
            ("1W", "1 Week"); ("2W", "2 Weeks"); ("1M", "1 Month");
            ("3M", "3 Months"); ("6M", "6 Months"); ("YTD", "Year to Date");
            ("1Y", "1 Year"); ("2Y", "2 Years"); ("3Y", "3 Years");
            ("5Y", "5 Years") ] with
  | Some d => d
  | None => timespan
  end.

End Timespan.

(** ** Python dictionaries keyed by strings

    A [dict] keeps its keys in insertion order; assigning to a key that is
    present replaces the value in place. *)

Module Dict.

Definition dict (V : Type) : Type := list (string * V).

Fixpoint get {V} (k : string) (d : dict V) : option V :=
  match d with
  | [] => None
  | (k', v) :: r => if String.eqb k k' then Some v else get k r
  end.

Definition contains {V} (k : string) (d : dict V) : bool :=
  match get k d with
  | Some _ => true
  | None => false
  end.

(** [d[k] = v] *)
Fixpoint set {V} (k : string) (v : V) (d : dict V) : dict V :=
  match d with
  | [] => [(k, v)]
  | (k', v') :: r =>
      if String.eqb k k' then (k, v) :: r else (k', v') :: set k v r
  end.

(** [list(d.keys())] *)
Definition keys {V} (d : dict V) : list string := map fst d.

(** [repr] of a list of strings, as interpolated by an f-string, for
    strings that [repr] writes between single quotes as they are: without
    quote, backslash or unprintable character. *)
Definition repr_list (l : list string) : string :=
  "[" ++ PyStr.join ", " (map (fun k => "'" ++ k ++ "'") l) ++ "]".

End Dict.

(** ** [core/registry.py]: the source registry *)

Module Registry.
Import Dict.

Definition kwargs : Type := dict string.

Section WithInstances.

(** The type of the objects the registered classes construct. *)
Variable Instance : Type.

(** A registered class: calling it runs its constructor, which may
    raise; [_registry_name] is the attribute the decorator sets. *)
Record datasource_class := Class {
  class_name : string;
  construct : kwargs -> result Instance;
  _registry_name : option string
}.

Record DataSourceRegistry := Reg {
  _datasources : dict datasource_class
}.

(** [DataSourceRegistry()] *)
Definition empty : DataSourceRegistry := Reg [].

(** [register_datasource(name)(cls)]: the decorator stores the class
    under [name], tags it, and returns it. *)
Definition register_datasource (name : string) (cls : datasource_class)
           (self : DataSourceRegistry)
  : DataSourceRegistry * datasource_class :=
  let cls' := Class (class_name cls) (construct cls) (Some name) in
  (Reg (set name cls' (_datasources self)), cls').

Definition not_found (what name : string) (self : DataSourceRegistry)
  : exn :=
  Exn ValueError
      (what ++ " '" ++ name ++ "' not found. Available: "
       ++ repr_list (keys (_datasources self))).

Definition create_datasource (self : DataSourceRegistry) (name : string)
           (kw : kwargs) : result Instance :=
  match get name (_datasources self) with
  | None => inl (not_found "Datasource" name self)
  | Some cls => construct cls kw
  end.

Definition get_datasource (self : DataSourceRegistry) (name : string)
  : result datasource_class :=
  match get name (_datasources self) with
  | None => inl (not_found "DataSource" name self)
  | Some cls => ok cls
  end.

Definition list_datasources (self : DataSourceRegistry) : list string :=
  keys (_datasources self).

(** The registry after a sequence of decorated class definitions,
    executed in order on an empty registry. *)
Definition registered (regs : list (string * datasource_class))
  : DataSourceRegistry :=
  fold_left (fun r nc => fst (register_datasource (fst nc) (snd nc) r))
            regs empty.

End WithInstances.

Arguments Class {Instance}.
Arguments class_name {Instance}.
Arguments construct {Instance}.
Arguments _registry_name {Instance}.
Arguments Reg {Instance}.
Arguments _datasources {Instance}.
Arguments empty {Instance}.
Arguments register_datasource {Instance}.
Arguments create_datasource {Instance}.
Arguments get_datasource {Instance}.
Arguments list_datasources {Instance}.
Arguments registered {Instance}.

End Registry.

(** ** Effects: a trace of observable actions, with exceptions *)

Module Effects.

Inductive event :=
| EvLogError (msg : string)
| EvProgress (msg : string)
| EvCreate (name : string) (kw : Dict.dict string)
| EvFetch (symbol start end_ interval : string)
| EvHttpGet (url : string) (params : Dict.dict string)
| EvFetchOhlcv (symbol timeframe : string) (since limit : Z)
| EvEnsureDir (path : string)
| EvSave (path format : string).

Definition trace := list event.

(** A computation extends the trace and returns or raises. *)
Definition M (A : Type) : Type := trace -> result A * trace.

Definition ret {A} (a : A) : M A := fun tr => (inr a, tr).

Definition bind {A B} (c : M A) (f : A -> M B) : M B :=
  fun tr =>
    match c tr with
    | (inl e, tr') => (inl e, tr')
    | (inr a, tr') => f a tr'
    end.

Definition raise {A} (k : exn_kind) (m : string) : M A :=
  fun tr => (inl (Exn k m), tr).

Definition throw {A} (e : exn) : M A := fun tr => (inl e, tr).

Definition emit (e : event) : M unit := fun tr => (inr tt, (tr ++ [e])%list).

(** [try: c  except Exception as e: h e] *)
Definition try_except {A} (c : M A) (h : exn -> M A) : M A :=
  fun tr =>
    match c tr with
    | (inl e, tr') => h e tr'
    | (inr a, tr') => (inr a, tr')
    end.

Definition lift {A} (r : result A) : M A := fun tr => (r, tr).

Definition run {A} (c : M A) : result A * trace := c [].

(** No adapter was constructed and no adapter fetch was started. *)
Definition is_adapter_event (e : event) : bool :=
  match e with
  | EvCreate _ _ | EvFetch _ _ _ _ | EvHttpGet _ _ | EvFetchOhlcv _ _ _ _ =>
      true
  | _ => false
  end.

Definition is_upstream_event (e : event) : bool :=
  match e with
  | EvHttpGet _ _ | EvFetchOhlcv _ _ _ _ => true
  | _ => false
  end.

Definition no_adapter_activity (tr : trace) : Prop :=
  forallb (fun e => negb (is_adapter_event e)) tr = true.

Definition upstream_requests (tr : trace) : trace :=
  filter is_upstream_event tr.

End Effects.

Declare Scope eff_scope.
Delimit Scope eff_scope with eff.
Notation "x <- c ;; k" := (Effects.bind c (fun x => k))
  (at level 61, c at next level, right associativity) : eff_scope.
Notation "c ;; k" := (Effects.bind c (fun _ => k))
  (at level 61, right associativity) : eff_scope.

(** ** JSON values and data frames *)

Module Pandas.
Local Open Scope result_scope.

(** A decoded JSON document; an object is a [dict], its keys distinct. *)
Inductive json :=
| JNull
| JBool (b : bool)
| JNum (q : Q)
| JStr (s : string)
| JArr (l : list json)
| JObj (kv : Dict.dict json).

(** Python truthiness of a decoded JSON value. *)
Definition json_truthy (j : json) : bool :=
  match j with
  | JNull => false
  | JBool b => b
  | JNum q => negb (Qeq_bool q 0)
  | JStr s => PyStr.nonempty s
  | JArr [] => false
  | JArr (_ :: _) => true
  | JObj [] => false
  | JObj (_ :: _) => true
  end.

(** [data.get(key, default)]; only a JSON object has [.get]. *)
Definition json_get (data : json) (key : string) (default : json)
  : result json :=
  match data with
  | JObj kv =>
      match Dict.get key kv with
      | Some v => ok v
      | None => ok default
      end
  | _ => raise_ OtherError "object has no attribute 'get'"
  end.

(** [data[key]] on a JSON object; the text of a [KeyError] is the [repr]
    of the key, which in the sources is one of a few plain words. *)
Definition json_item (data : json) (key : string) : result json :=
  match data with
  | JObj kv =>
      match Dict.get key kv with
      | Some v => ok v
      | None => raise_ KeyError ("'" ++ key ++ "'")
      end
  | _ => raise_ TypeError "indices must be integers"
  end.

(** A cell of a frame; [None] is the missing value NaN. *)
Definition cell : Type := option json.

(** A [pandas.DataFrame]: column labels, the name of the index, the index
    (instants in milliseconds since the epoch) and one row of cells per
    index entry. *)
Record DataFrame := Frame {
  columns : list string;
  index_name : option string;
  index : list Z;
  cells : list (list cell)
}.

(** [df.empty] and [len(df)] *)
Definition empty (df : DataFrame) : bool :=
  match index df with
  | [] => true
  | _ => match columns df with [] => true | _ => false end
  end.

Definition len (df : DataFrame) : Z := Z.of_nat (List.length (index df)).

Fixpoint map_result {A B} (f : A -> result B) (l : list A)
  : result (list B) :=
  match l with
  | [] => ok []
  | x :: r =>
      y <-! f x ;
      ys <-! map_result f r ;
      ok (y :: ys)
  end.

(** The rows of a list of records. *)
Definition as_record (j : json) : result (Dict.dict json) :=
  match j with
  | JObj kv => ok kv
  | _ => raise_ ValueError "DataFrame constructor not properly called"
  end.

Definition records_of (j : json) : result (list (Dict.dict json)) :=
  match j with
  | JArr l => map_result as_record l
  | _ => raise_ ValueError "DataFrame constructor not properly called"
  end.

Fixpoint add_new (ks : list string) (seen : list string) : list string :=
  match ks with
  | [] => seen
  | k :: r =>
      if PyStr.mem k seen then add_new r seen
      else add_new r (seen ++ [k])%list
  end.

(** [pd.DataFrame(records)]: the columns are the keys of the records in
    order of first appearance; a record without a key has NaN there. The
    index is the default one and is replaced by every caller. *)
Definition from_records (records : list (Dict.dict json)) : DataFrame :=
  let cols :=
    fold_left (fun seen r => add_new (Dict.keys r) seen) records [] in
  Frame cols None (map (fun _ => 0) records)
        (map (fun r => map (fun c => Dict.get c r) cols) records).

Fixpoint position (c : string) (cols : list string) : option nat :=
  match cols with
  | [] => None
  | c' :: r =>
      if String.eqb c c' then Some O
      else match position c r with
           | Some n => Some (S n)
           | None => None
           end
  end.

(** [df[labels]]: a label that is not a column raises [KeyError]. *)
Definition select (df : DataFrame) (labels : list string)
  : result DataFrame :=
  ps <-! map_result
           (fun c => match position c (columns df) with
                     | Some n => ok n
                     | None => raise_ KeyError (c ++ " not in index")
                     end) labels ;
  ok (Frame labels (index_name df) (index df)
            (map (fun row => map (fun n => nth n row None) ps) (cells df))).

(** [df.columns = labels]: the number of labels must match. *)
Definition set_columns (df : DataFrame) (labels : list string)
  : result DataFrame :=
  if Nat.eqb (List.length labels) (List.length (columns df)) then
    ok (Frame labels (index_name df) (index df) (cells df))
  else raise_ ValueError "Length mismatch".

(** [df.index = idx]: the number of entries must match. *)
Definition set_index_values (df : DataFrame) (idx : list Z)
  : result DataFrame :=
  if Nat.eqb (List.length idx) (List.length (cells df)) then
    ok (Frame (columns df) (index_name df) idx (cells df))
  else raise_ ValueError "Length mismatch".

Definition set_index_name (df : DataFrame) (n : option string) : DataFrame :=
  Frame (columns df) n (index df) (cells df).

(** [df.columns.str.lower()] assigned back to [df.columns]. *)
Definition lower_columns (df : DataFrame) : DataFrame :=
  Frame (map PyStr.lower (columns df)) (index_name df) (index df) (cells df).

Definition MS_PER_DAY : Z := 86400000.

(** [index.normalize()]: every instant is moved back to midnight. *)
Definition normalize (idx : list Z) : list Z :=
  map (fun t => t - t mod MS_PER_DAY) idx.

(** The calendar date of an instant; 1970-01-01 has ordinal 719163. *)
Definition date_of (ms : Z) : Calendar.datetime :=
  Calendar.fromordinal (719163 + ms / MS_PER_DAY).

(** [ts.strftime("%Y-%m-%d")] *)
Definition strftime_ymd (ms : Z) : string :=
  Calendar.strftime_ymd (date_of ms).

(** [int(ts.timestamp())]: whole seconds, truncated towards zero. *)
Definition timestamp_s (ms : Z) : Z := Z.quot ms 1000.

Definition rows (df : DataFrame) : list (Z * list cell) :=
  combine (index df) (cells df).

Definition with_rows (df : DataFrame) (rs : list (Z * list cell))
  : DataFrame :=
  Frame (columns df) (index_name df) (map fst rs) (map snd rs).

(** The functions of the library whose behaviour the sources rely on and
    do not define:
    - [to_datetime s] is [pd.to_datetime(s)] as an instant, [None] when it
      raises;
    - [to_datetime_unit u v] is [pd.to_datetime(v, unit=...)] for a unit
      of [u] milliseconds;
    - [sort_index] is the row order of [df.sort_index()]. *)
Record api := Api {
  to_datetime : string -> option Z;
  to_datetime_unit : Z -> json -> option Z;
  sort_index : forall R : Type, list (Z * R) -> list (Z * R)
}.

Definition parse (pd : api) (s : string) : result Z :=
  match to_datetime pd s with
  | Some t => ok t
  | None => raise_ ValueError ("Unknown datetime string format: " ++ s)
  end.

Definition parse_unit (pd : api) (u : Z) (v : json) : result Z :=
  match to_datetime_unit pd u v with
  | Some t => ok t
  | None => raise_ ValueError "cannot convert input with unit"
  end.

(** What the sources need of [sort_index]: the rows are rearranged, and
    come out in ascending order of the index. *)
Definition sorts (pd : api) : Prop :=
  forall (R : Type) (l : list (Z * R)),
    Permutation l (sort_index pd R l)
    /\ Sorted (fun a b => fst a <= fst b) (sort_index pd R l).

(** An instance for examples: ISO dates at midnight UTC, integral epoch
    numbers, and an insertion sort that keeps rows with equal index values
    in their order. *)
Fixpoint insert_row {R} (x : Z * R) (l : list (Z * R)) : list (Z * R) :=
  match l with
  | [] => [x]
  | y :: r => if fst x <=? fst y then x :: y :: r else y :: insert_row x r
  end.

Fixpoint insertion_sort {R} (l : list (Z * R)) : list (Z * R) :=
  match l with
  | [] => []
  | x :: r => insert_row x (insertion_sort r)
  end.

Definition iso_instant (s : string) : option Z :=
  match Calendar.strptime_ymd s with
  | inr t => Some ((Calendar.toordinal t - 719163) * MS_PER_DAY)
  | inl _ => None
  end.

Definition integral_instant (u : Z) (v : json) : option Z :=
  match v with
  | JNum q => if (Zpos (Qden q) =? 1) then Some (Qnum q * u) else None
  | _ => None
  end.

Definition reference : api :=
  Api iso_instant integral_instant (fun R => @insertion_sort R).

End Pandas.

(** ** [datasources/*.py]: the provider adapters *)

Module Adapters.
Import Effects Pandas.
Local Open Scope eff_scope.

(** *** The HTTP client of the keyed REST adapters *)

(** [body] is the decoded JSON document, [None] when the text is not
    JSON and [response.json()] raises. *)
Record response := Response {
  status_code : Z;
  text : string;
  body : option json
}.

(** A [requests.Session]: the reply to a GET of a URL with query
    parameters, or the exception the transport raises. *)
Definition session : Type := string -> Dict.dict string -> result response.

Definition session_get (s : session) (url : string)
           (params : Dict.dict string) : M response :=
  emit (EvHttpGet url params) ;;
  lift (s url params).

Definition response_json (r : response) : result json :=
  match body r with
  | Some j => ok j
  | None => raise_ ValueError "Expecting value"
  end.

(** [os.getenv] *)
Definition environ : Type := string -> option string.

Definition OHLCV : list string := ["open"; "high"; "low"; "close"; "volume"].

(** The constructor shared by the three keyed adapters: the key is the
    parameter or, when that is [None], the environment variable. *)
Definition keyed_init (getenv : environ) (var message : string)
           (api_key : option string) : result string :=
  match api_key with
  | Some k => ok k
  | None =>
      match getenv var with
      | Some k =>
          if PyStr.nonempty k then ok k else raise_ ValueError message
      | None => raise_ ValueError message
      end
  end.

(** *** yfinance *)

(** The SDK call [yf.download(tickers, start, end, interval, ...)]: the
    frame it returns, or the exception it raises. *)
Definition yf_download : Type :=
  string -> string -> string -> string -> result DataFrame.

Definition yfinance_fetch (download : yf_download)
           (symbol start end_ interval : string) : M DataFrame :=
  df <- lift (download symbol start end_ interval) ;;
  let df := lower_columns df in
  let df :=
    if PyStr.truthy (index_name df)
    then set_index_name df (option_map PyStr.lower (index_name df))
    else df in
  ret df.

(** *** polygon *)

Definition polygon_interval_map : Dict.dict (string * Z) :=
  [ ("1d", ("day", 1)); ("1wk", ("week", 1)); ("1mo", ("month", 1)) ].

Definition polygon_init (getenv : environ) (api_key : option string)
  : result string :=
  keyed_init getenv "POLYGON_API_KEY"
    "Polygon API key is required. Please set the POLYGON_API_KEY environment variable or pass it as the api_key parameter."
    api_key.

Definition polygon_url (symbol : string) (multiplier : Z)
           (timespan s e : string) : string :=
  "https://api.polygon.io/v2/aggs/ticker/" ++ symbol ++ "/range/"
  ++ PyStr.str_of_Z multiplier ++ "/" ++ timespan ++ "/" ++ s ++ "/" ++ e.

Definition polygon_fetch (pd : api) (sess : session) (api_key : string)
           (symbol start end_ interval : string) : M DataFrame :=
  let '(timespan, multiplier) :=
    match Dict.get interval polygon_interval_map with
    | Some p => p
    | None => ("day", 1)
    end in
  s <- lift (parse pd start) ;;
  e <- lift (parse pd end_) ;;
  let url :=
    polygon_url symbol multiplier timespan (strftime_ymd s) (strftime_ymd e) in
  let params :=
    [ ("adjusted", "true"); ("sort", "asc"); ("limit", "50000");
      ("apiKey", api_key) ] in
  response <- session_get sess url params ;;
  if negb (status_code response =? 200) then
    raise RuntimeError
          ("polygon HTTP " ++ PyStr.str_of_Z (status_code response) ++ ": "
           ++ PyStr.take 200 (text response))
  else
    data <- lift (response_json response) ;;
    results <- lift (json_get data "results" (JArr [])) ;;
    if negb (json_truthy results) then
      raise RuntimeError "polygon returned no results"
    else
      records <- lift (records_of results) ;;
      df <- lift (select (from_records records) ["o"; "h"; "l"; "c"; "v"]) ;;
      df <- lift (set_columns df OHLCV) ;;
      ts <- lift (map_result (fun row => json_item (JObj row) "t") records) ;;
      idx <- lift (map_result (parse_unit pd 1) ts) ;;
      df <- lift (set_index_values df idx) ;;
      let df :=
        if String.eqb interval "1d"
        then Frame (columns df) (index_name df) (normalize (index df)) (cells df)
        else df in
      ret (set_index_name df (Some "date")).

(** *** finnhub *)

Definition finnhub_interval_map : Dict.dict string :=
  [ ("1d", "D"); ("1wk", "W"); ("1mo", "M") ].

Definition finnhub_init (getenv : environ) (api_key : option string)
  : result string :=
  keyed_init getenv "FINNHUB_API_KEY"
    "Finnhub API key is required. Please set the FINNHUB_API_KEY environment variable or pass it as the api_key parameter."
    api_key.

(** A column of the frame built from the arrays of the reply. *)
Definition as_array (j : json) : result (list json) :=
  match j with
  | JArr l => ok l
  | _ => raise_ ValueError "If using all scalar values, you must pass an index"
  end.

Fixpoint transpose (n : nat) (cols : list (list cell)) : list (list cell) :=
  match n with
  | O => []
  | S k =>
      map (fun c => hd None c) cols :: transpose k (map (@tl cell) cols)
  end.

(** [pd.DataFrame({label: array, ...})]: the arrays must have one
    length. *)
Definition from_arrays (labels : list string) (arrays : list (list json))
  : result DataFrame :=
  match arrays with
  | [] => ok (Frame labels None [] [])
  | a :: r =>
      let n := List.length a in
      if forallb (fun b => Nat.eqb (List.length b) n) r then
        ok (Frame labels None (map (fun _ => 0) a)
                  (transpose n (map (map (@Some json)) arrays)))
      else raise_ ValueError "All arrays must be of the same length"
  end.

Definition json_eq_str (j : json) (s : string) : bool :=
  match j with
  | JStr t => String.eqb t s
  | _ => false
  end.

Definition finnhub_fetch (pd : api) (sess : session) (api_key : string)
           (symbol start end_ interval : string) : M DataFrame :=
  let resolution :=
    match Dict.get interval finnhub_interval_map with
    | Some r => r
    | None => "D"
    end in
  s <- lift (parse pd start) ;;
  e <- lift (parse pd end_) ;;
  let start_ts := timestamp_s s in
  let end_ts := timestamp_s e in
  let url := "https://finnhub.io/api/v1/stock/candle" in
  let params :=
    [ ("symbol", symbol); ("resolution", resolution);
      ("from", PyStr.str_of_Z start_ts); ("to", PyStr.str_of_Z end_ts);
      ("token", api_key) ] in
  response <- session_get sess url params ;;
  if negb (status_code response =? 200) then
    raise RuntimeError
          ("Finnhub HTTP " ++ PyStr.str_of_Z (status_code response) ++ ": "
           ++ PyStr.take 200 (text response))
  else
    data <- lift (response_json response) ;;
    status <- lift (json_get data "s" JNull) ;;
    if json_eq_str status "no_data" then
      raise RuntimeError "Finnhub returned no data"
    else
      closes <- lift (json_get data "c" JNull) ;;
      if negb (json_truthy closes) then
        raise RuntimeError "Finnhub returned no results"
      else
        o <- lift (json_item data "o") ;;
        h <- lift (json_item data "h") ;;
        l <- lift (json_item data "l") ;;
        c <- lift (json_item data "c") ;;
        v <- lift (json_item data "v") ;;
        arrays <- lift (map_result as_array [o; h; l; c; v]) ;;
        df <- lift (from_arrays OHLCV arrays) ;;
        t <- lift (json_item data "t") ;;
        ts <- lift (as_array t) ;;
        idx <- lift (map_result (parse_unit pd 1000) ts) ;;
        df <- lift (set_index_values df idx) ;;
        let df :=
          if String.eqb interval "1d"
          then Frame (columns df) (index_name df) (normalize (index df))
                     (cells df)
          else df in
        ret (set_index_name df (Some "date")).

(** *** fmp *)

Definition fmp_interval_map : Dict.dict string :=
  [ ("1wk", "1week"); ("1mo", "1month") ].

Definition fmp_init (getenv : environ) (api_key : option string)
  : result string :=
  keyed_init getenv "FMP_API_KEY"
    "FinancialModelingPrep API key is required. Please set the FMP_API_KEY environment variable or pass it as the api_key parameter."
    api_key.

Definition as_date_string (j : json) : result string :=
  match j with
  | JStr s => ok s
  | _ => raise_ TypeError "not convertible to datetime"
  end.

Definition fmp_fetch (pd : api) (sess : session) (api_key : string)
           (symbol start end_ interval : string) : M DataFrame :=
  request <-
    (if String.eqb interval "1d" then
       s <- lift (parse pd start) ;;
       e <- lift (parse pd end_) ;;
       ret ("https://financialmodelingprep.com/api/v3/historical-price-full/"
              ++ symbol,
            [ ("from", strftime_ymd s); ("to", strftime_ymd e);
              ("apikey", api_key) ])
     else if PyStr.mem interval ["1wk"; "1mo"] then
       let timeseries :=
         match Dict.get interval fmp_interval_map with
         | Some t => t
         | None => ""
         end in
       s <- lift (parse pd start) ;;
       e <- lift (parse pd end_) ;;
       ret ("https://financialmodelingprep.com/api/v3/historical-chart/"
              ++ timeseries ++ "/" ++ symbol,
            [ ("from", strftime_ymd s); ("to", strftime_ymd e);
              ("apikey", api_key) ])
     else
       raise ValueError
             ("Unsupported interval: " ++ interval
              ++ ". Use '1d', '1wk', or '1mo'.")) ;;
  let '(url, params) := request in
  response <- session_get sess url params ;;
  if negb (status_code response =? 200) then
    raise RuntimeError
          ("FMP HTTP " ++ PyStr.str_of_Z (status_code response) ++ ": "
           ++ PyStr.take 200 (text response))
  else
    data <- lift (response_json response) ;;
    results <-
      (if String.eqb interval "1d"
       then lift (json_get data "historical" (JArr []))
       else ret (match data with JArr _ => data | _ => JArr [] end)) ;;
    if negb (json_truthy results) then
      raise RuntimeError "FMP returned no results"
    else
      records <- lift (records_of results) ;;
      df <- lift (select (from_records records) OHLCV) ;;
      df <- lift (set_columns df OHLCV) ;;
      ds <- lift (map_result (fun row => json_item (JObj row) "date") records) ;;
      ss <- lift (map_result as_date_string ds) ;;
      idx <- lift (map_result (parse pd) ss) ;;
      df <- lift (set_index_values df idx) ;;
      let df := set_index_name df (Some "date") in
      ret (with_rows df (sort_index pd _ (rows df))).

End Adapters.

(** ** [datasources/ccxt.py]: the exchange-aggregator adapter *)

Module CCXT.
Import Effects Pandas.
Local Open Scope eff_scope.

(** One row [[timestamp, open, high, low, close, volume]] of a page; the
    timestamp is in milliseconds since the epoch and is taken to lie in
    the range of instants the frame library represents. *)
Record candle := Candle {
  timestamp : Z;
  open_ : Q;
  high : Q;
  low : Q;
  close : Q;
  volume : Q
}.

(** What a call of [exchange.fetch_ohlcv] does: it returns a page, or
    raises [ccxt.NetworkError], [ccxt.ExchangeError] or something else. *)
Inductive ohlcv_reply :=
| Page (ohlcv : list candle)
| NetworkError (msg : string)
| ExchangeError (msg : string)
| OtherException (msg : string).

(** One request [(symbol, timeframe, since, limit)]. *)
Definition ohlcv_request : Type := (string * string * Z * Z)%type.

(** An exchange client. [timeframes] is [None] when the object has no
    such attribute, else the keys of the table: an attribute that is
    there is taken to hold a table. The reply to a request may depend on
    the requests made before it. *)
Record exchange := Exchange {
  timeframes : option (list string);
  fetch_ohlcv : list ohlcv_request -> ohlcv_request -> ohlcv_reply
}.

(** The [ccxt] module: the identifiers it knows and its client classes. *)
Record ccxt_module := Ccxt {
  exchanges : list string;
  exchange_class : string -> Dict.dict string -> exchange
}.

Record CCXTDataSource := Source {
  exchange_id : string;
  the_exchange : exchange
}.

Definition INTERVAL_MAP : Dict.dict string :=
  [ ("1m", "1m"); ("5m", "5m"); ("15m", "15m"); ("30m", "30m");
    ("1h", "1h"); ("2h", "2h"); ("4h", "4h"); ("6h", "6h");
    ("12h", "12h"); ("1d", "1d"); ("1w", "1w"); ("1M", "1M") ].

(** [sorted] on strings. *)
Fixpoint insert_str (x : string) (l : list string) : list string :=
  match l with
  | [] => [x]
  | y :: r => if String.leb x y then x :: y :: r else y :: insert_str x r
  end.

Definition sorted_str (l : list string) : list string :=
  fold_right insert_str [] l.

Definition init (ccxt : ccxt_module) (getenv : Adapters.environ)
           (exchange_arg : string) (api_key secret : option string)
  : result CCXTDataSource :=
  let exchange_id := PyStr.lower exchange_arg in
  if negb (PyStr.mem exchange_id (exchanges ccxt)) then
    raise_ ValueError
      ("Exchange '" ++ exchange_arg ++ "' not supported by CCXT. "
       ++ "Available exchanges (first 20): "
       ++ PyStr.join ", " (sorted_str (firstn 20 (exchanges ccxt)))
       ++ "... See https://github.com/ccxt/ccxt#supported-cryptocurrency-exchange-markets for full list.")
  else
    let config := [] in
    let config :=
      if PyStr.truthy api_key
      then Dict.set "apiKey" (match api_key with Some k => k | None => "" end)
                    config
      else if PyStr.truthy (getenv "CCXT_API_KEY")
      then Dict.set "apiKey"
                    (match getenv "CCXT_API_KEY" with Some k => k | None => "" end)
                    config
      else config in
    let config :=
      if PyStr.truthy secret
      then Dict.set "secret" (match secret with Some k => k | None => "" end)
                    config
      else if PyStr.truthy (getenv "CCXT_SECRET")
      then Dict.set "secret"
                    (match getenv "CCXT_SECRET" with Some k => k | None => "" end)
                    config
      else config in
    ok (Source exchange_id (exchange_class ccxt exchange_id config)).

Definition max_iterations : Z := 1000.

Definition as_request (e : event) : list ohlcv_request :=
  match e with
  | EvFetchOhlcv symbol timeframe since limit =>
      [(symbol, timeframe, since, limit)]
  | _ => []
  end.

(** The call [self.exchange.fetch_ohlcv(symbol, timeframe, since, limit)]. *)
Definition call_fetch_ohlcv (ex : exchange) (symbol timeframe : string)
           (since limit : Z) : M ohlcv_reply :=
  fun tr =>
    (inr (fetch_ohlcv ex (flat_map as_request tr)
                      (symbol, timeframe, since, limit)),
     (tr ++ [EvFetchOhlcv symbol timeframe since limit])%list).

(** The variables of the pagination loop. *)
Record loop_state := Loop {
  current_since : Z;
  iteration : Z;
  all_ohlcv : list candle
}.

(** How one pass through the loop body ends: at its last statement, or
    at a [break]. *)
Inductive pass :=
| Next (s : loop_state)
| Break (s : loop_state).

Definition loop_condition (until : Z) (s : loop_state) : bool :=
  (current_since s <? until) && (iteration s <? max_iterations).

Definition loop_body (self : CCXTDataSource) (symbol timeframe : string)
           (until : Z) (s : loop_state) : M pass :=
  reply <- call_fetch_ohlcv (the_exchange self) symbol timeframe
                            (current_since s) 1000 ;;
  match reply with
  | NetworkError msg =>
      raise RuntimeError
            ("Network error fetching data from " ++ exchange_id self ++ ": "
             ++ msg)
  | ExchangeError msg =>
      raise RuntimeError
            ("Exchange error from " ++ exchange_id self ++ ": " ++ msg
             ++ ". Check if symbol '" ++ symbol
             ++ "' is valid for this exchange.")
  | OtherException msg =>
      raise RuntimeError
            ("Unexpected error fetching data from " ++ exchange_id self
             ++ ": " ++ msg)
  | Page ohlcv =>
      match ohlcv with
      | [] => ret (Break s)
      | c0 :: _ =>
          let all := (all_ohlcv s ++ ohlcv)%list in
          let last_timestamp := timestamp (last ohlcv c0) in
          let since := last_timestamp + 1 in
          if since >=? until then ret (Break (Loop since (iteration s) all))
          else ret (Next (Loop since (iteration s + 1) all))
      end
  end.

(** The [while] loop, unrolled at most [fuel] times; [None] reports that
    the loop was still running when the fuel ran out. *)
Fixpoint while_loop (fuel : nat) (self : CCXTDataSource)
         (symbol timeframe : string) (until : Z) (s : loop_state)
  : M (option loop_state) :=
  if loop_condition until s then
    match fuel with
    | O => ret None
    | S fuel' =>
        p <- loop_body self symbol timeframe until s ;;
        match p with
        | Next s' => while_loop fuel' self symbol timeframe until s'
        | Break s' => ret (Some s')
        end
    end
  else ret (Some s).

Definition cell_of (q : Q) : cell := Some (JNum q).

Definition row_of (c : candle) : Z * list cell :=
  (timestamp c,
   [cell_of (open_ c); cell_of (high c); cell_of (low c);
    cell_of (close c); cell_of (volume c)]).

(** [df[(df.index >= start) & (df.index <= end)]] *)
Definition in_range {R} (start_ end_ : Z) (l : list (Z * R)) : list (Z * R) :=
  filter (fun r => (start_ <=? fst r) && (fst r <=? end_)) l.

(** [df[~df.index.duplicated(keep="first")]]: a row is dropped when its
    index value occurred in an earlier row. *)
Fixpoint drop_duplicated {R} (seen : list Z) (l : list (Z * R))
  : list (Z * R) :=
  match l with
  | [] => []
  | r :: rest =>
      if existsb (Z.eqb (fst r)) seen then drop_duplicated seen rest
      else r :: drop_duplicated (fst r :: seen) rest
  end.

(** The steps after the loop, on the rows of the frame. *)
Definition finish {R} (pd : api) (start_ end_ : Z) (l : list (Z * R))
  : list (Z * R) :=
  drop_duplicated [] (sort_index pd R (in_range start_ end_ l)).

Definition exhausted : string :=
  "Exceeded maximum iterations (" ++ PyStr.str_of_Z max_iterations
  ++ ") while fetching data. "
  ++ "This might indicate an issue with the date range or exchange response.".

Definition fetch (pd : api) (self : CCXTDataSource)
           (symbol start end_ interval : string) : M DataFrame :=
  match Dict.get interval INTERVAL_MAP with
  | None =>
      raise ValueError
            ("Interval '" ++ interval
             ++ "' not supported for CCXT datasource. "
             ++ "Supported intervals: "
             ++ PyStr.join ", " (sorted_str (Dict.keys INTERVAL_MAP)))
  | Some timeframe =>
      match timeframes (the_exchange self) with
      | Some tfs =>
          if negb (PyStr.mem timeframe tfs) then
            raise ValueError
                  ("Timeframe '" ++ timeframe ++ "' not supported by "
                   ++ exchange_id self ++ ". Available timeframes: "
                   ++ PyStr.join ", " (sorted_str tfs))
          else ret tt
      | None => ret tt
      end ;;
      start_dt <- lift (parse pd start) ;;
      end_dt <- lift (parse pd end_) ;;
      let since := start_dt in
      let until := end_dt in
      r <- while_loop (Z.to_nat max_iterations) self symbol timeframe until
                      (Loop since 0 []) ;;
      match r with
      | None => raise OtherError "the pagination loop is still running"
      | Some s =>
          if iteration s >=? max_iterations then raise RuntimeError exhausted
          else
            match all_ohlcv s with
            | [] =>
                raise RuntimeError
                      ("No data found for " ++ symbol ++ " on "
                       ++ exchange_id self ++ " between " ++ start ++ " and "
                       ++ end_)
            | _ :: _ =>
                let df :=
                  Frame Adapters.OHLCV (Some "date")
                        (map timestamp (all_ohlcv s))
                        (map (fun c => snd (row_of c)) (all_ohlcv s)) in
                let df := with_rows df (in_range start_dt end_dt (rows df)) in
                let df := lower_columns df in
                let df := with_rows df (sort_index pd _ (rows df)) in
                let df := with_rows df (drop_duplicated [] (rows df)) in
                ret df
            end
      end
  end.

Definition get_supported_timeframes (self : CCXTDataSource) : list string :=
  match timeframes (the_exchange self) with
  | Some tfs => tfs
  | None => ["1m"; "5m"; "15m"; "30m"; "1h"; "4h"; "1d"; "1w"]
  end.

End CCXT.

(** ** [config/manager.py]: market configurations *)

Module Config.

Record DownloadConfig := MkConfig {
  name : string;
  yf_ticker_suffix : string;
  market : string
}.

Definition download_configs : Dict.dict DownloadConfig :=
  [ ("brazil", MkConfig "brazil" ".SA" "brazil");
    ("australia", MkConfig "australia" ".AX" "australia");
    ("america", MkConfig "america" "" "america");
    ("canada", MkConfig "canada" ".TO" "canada");
    ("uk", MkConfig "uk" ".L" "uk");
    ("germany", MkConfig "germany" ".DE" "germany");
    ("japan", MkConfig "japan" ".T" "japan");
    ("hong_kong", MkConfig "hong_kong" ".HK" "hong_kong");
    ("india", MkConfig "india" ".NS" "india");
    ("crypto", MkConfig "crypto" "" "crypto") ].

Definition get_market_config (config_name : string) : result DownloadConfig :=
  match Dict.get config_name download_configs with
  | Some c => ok c
  | None =>
      raise_ ValueError
        ("Unknown download config: " ++ config_name ++ ". Available: "
         ++ Dict.repr_list (Dict.keys download_configs))
  end.

Definition list_configs : list string := Dict.keys download_configs.

Definition get_ticker_with_suffix (ticker config_name : string)
  : result string :=
  rbind (get_market_config config_name)
        (fun config =>
           if PyStr.nonempty (yf_ticker_suffix config)
              && negb (PyStr.endswith ticker (yf_ticker_suffix config))
           then ok (ticker ++ yf_ticker_suffix config)
           else ok ticker).

End Config.

(** ** [services/download_service.py]: the fetch orchestrator *)

Module Service.
Import Effects Pandas.
Local Open Scope eff_scope.

(** An adapter instance, as the orchestrator uses it. *)
Record datasource := Adapter {
  fetch : string -> string -> string -> string -> M DataFrame
}.

(** What the orchestrator takes from its surroundings: the clock, the
    environment, the frame library, the registry, the two helpers it
    inherits from [BaseService], and the file system.
    - [validate_required_params params required] is [None] when the
      inherited check passes and the exception it raises otherwise;
    - [ensure_directory_exists path] and [mkdir_parent path] are [None]
      when the directory exists afterwards;
    - [write_file path format df] is the result of writing the frame. *)
Record world := World {
  now : Calendar.datetime;
  getenv : string -> option string;
  home : string;
  pd : api;
  registry : Registry.DataSourceRegistry datasource;
  validate_required_params :
    Dict.dict (option string) -> list string -> option exn;
  ensure_directory_exists : string -> option exn;
  mkdir_parent : string -> option exn;
  write_file : string -> string -> DataFrame -> option exn
}.

Record DownloadResult := Result {
  ticker : string;
  datasource_name : string;
  market : option string;
  data : option DataFrame;
  file_path : option string;
  start_date : option string;
  end_date : option string;
  interval : string;
  success : bool;
  error : option string
}.

Definition logger_error (msg : string) : M unit := emit (EvLogError msg).

Definition perform (r : option exn) : M unit :=
  match r with
  | Some e => throw e
  | None => ret tt
  end.

(** [get_default_dates]: one year back from today, or the fixed fallback
    when that day does not exist. *)
Definition get_default_dates (w : world) : M (string * string) :=
  let end_ := now w in
  if Calendar.valid_ymd (Calendar.year end_ - 1) (Calendar.month end_)
                        (Calendar.day end_)
  then
    ret (Calendar.strftime_ymd
           (Calendar.Date (Calendar.year end_ - 1) (Calendar.month end_)
                          (Calendar.day end_)),
         Calendar.strftime_ymd end_)
  else
    logger_error
      ("Failed to calculate default dates: "
       ++ (if Calendar.year end_ - 1 <? Calendar.MINYEAR
           then "year 0 is out of range"
           else "day is out of range for month")) ;;
    ret ("2024-01-01", "2024-12-31").

Definition calculate_dates_from_timeframe (w : world)
           (timeframe start_date end_date : option string)
  : M (string * string) :=
  try_except
    (lift (Timespan.calculate_dates (now w) timeframe start_date end_date None))
    (fun e =>
       logger_error ("Failed to calculate dates from timeframe: "
                     ++ str_of_exn e) ;;
       get_default_dates w).

(** [validate_ticker]: [None] for a valid ticker, else the error text. *)
Definition validate_ticker (ticker : string) : option string :=
  if negb (PyStr.nonempty ticker) then Some "Ticker cannot be empty"
  else if negb (PyStr.isalnum
                  (PyStr.remove_char "/"
                     (PyStr.remove_char "-" (PyStr.remove_char "." ticker))))
  then Some "Ticker contains invalid characters"
  else if PyStr.len ticker >? 20
  then Some "Ticker too long (max 20 characters)"
  else None.

Definition _get_app_home (w : world) : string :=
  if PyStr.truthy (getenv w "CONNORS_HOME")
  then match getenv w "CONNORS_HOME" with Some h => h | None => "" end
  else home w ++ "/.connors".

Definition _timeframe_to_filename (timeframe : string) : string :=
  match Dict.get timeframe
          [ ("1D", "1day"); ("2D", "2days"); ("3D", "3days"); ("5D", "5days");
            ("1W", "1week"); ("2W", "2weeks"); ("3W", "3weeks");
            ("1M", "1month"); ("2M", "2months"); ("3M", "3months");
            ("6M", "6months"); ("1Y", "1year"); ("2Y", "2years");
            ("3Y", "3years"); ("5Y", "5years"); ("YTD", "ytd");
            ("MAX", "max") ] with
  | Some f => f
  | None => PyStr.lower timeframe
  end.

Definition opt_str (o : option string) : string :=
  match o with Some s => s | None => "None" end.

Definition datasets_dir (w : world) : string :=
  _get_app_home w ++ "/downloads/datasets".

(** [_get_output_path_with_format]: the directory and the file name. *)
Definition _get_output_path_with_format (w : world)
           (ticker datasource start end_ interval : string)
           (market : option string) (output_format : string)
           (exchange : option string) (include_datasource : bool)
           (timeframe : option string) : M (string * string) :=
  emit (EvEnsureDir (datasets_dir w)) ;;
  perform (ensure_directory_exists w (datasets_dir w)) ;;
  let safe_ticker :=
    PyStr.replace_char ":" "-"
      (PyStr.replace_char "\" "-" (PyStr.replace_char "/" "-" ticker)) in
  let extension := PyStr.lower output_format in
  let period_str :=
    if PyStr.truthy timeframe
    then _timeframe_to_filename (opt_str timeframe)
    else start ++ "_" ++ end_ in
  let tail := period_str ++ "_" ++ interval ++ "." ++ extension in
  let filename :=
    if String.eqb datasource "ccxt" && PyStr.truthy exchange then
      if include_datasource
      then safe_ticker ++ "_" ++ opt_str exchange ++ "_" ++ datasource
           ++ "_" ++ tail
      else safe_ticker ++ "_" ++ opt_str exchange ++ "_" ++ tail
    else if PyStr.truthy market
            && negb (String.eqb (opt_str market) "america") then
      if include_datasource
      then safe_ticker ++ "_" ++ opt_str market ++ "_" ++ datasource
           ++ "_" ++ tail
      else safe_ticker ++ "_" ++ opt_str market ++ "_" ++ tail
    else
      if include_datasource
      then safe_ticker ++ "_" ++ datasource ++ "_" ++ tail
      else safe_ticker ++ "_" ++ tail in
  ret (datasets_dir w, filename).

Definition _get_output_path (w : world)
           (ticker datasource start end_ interval : string)
           (market exchange : option string) (include_datasource : bool)
           (timeframe : option string) : M (string * string) :=
  _get_output_path_with_format w ticker datasource start end_ interval
                               market "csv" exchange include_datasource
                               timeframe.

(** The dictionary [preview_download] returns. *)
Record preview_info := Info {
  p_ticker : string;
  p_final_ticker : string;
  p_datasource : string;
  p_start : string;
  p_end : string;
  p_interval : string;
  p_market_info : option (string * string);
  p_output_path : string;
  p_filename : string
}.

Inductive preview :=
| Invalid (error : string)
| Valid (info : preview_info).

(** [if timeframe or not (start and end)]: the dates are resolved again. *)
Definition needs_dates (timeframe start end_ : option string) : bool :=
  PyStr.truthy timeframe
  || negb (PyStr.truthy start && PyStr.truthy end_).

Definition resolve_dates (w : world) (timeframe start end_ : option string)
  : M (string * string) :=
  if needs_dates timeframe start end_
  then calculate_dates_from_timeframe w timeframe start end_
  else ret (opt_str start, opt_str end_).

(** The calendar day of an instant: [ts.date()]. *)
Definition day_of (ms : Z) : Z := ms / MS_PER_DAY.

Definition preview_download (w : world) (datasource ticker : string)
           (start end_ : option string) (interval : string)
           (market timeframe : option string) : M preview :=
  try_except
    (dates <- resolve_dates w timeframe start end_ ;;
     let '(start, end_) := dates in
     perform (validate_required_params w
                [ ("datasource", Some datasource); ("ticker", Some ticker);
                  ("start", Some start); ("end", Some end_) ]
                ["datasource"; "ticker"; "start"; "end"]) ;;
     match validate_ticker ticker with
     | Some err => ret (Invalid err)
     | None =>
         let suffixed :=
           if PyStr.truthy market then
             match Config.get_market_config (opt_str market) with
             | inl _ => None
             | inr market_config =>
                 match Config.get_ticker_with_suffix ticker (opt_str market)
                 with
                 | inl _ => None
                 | inr final_ticker =>
                     Some (final_ticker,
                           Some (Config.name market_config, final_ticker))
                 end
             end
           else Some (ticker, None) in
         match suffixed with
         | None => ret (Invalid ("Invalid market: " ++ opt_str market))
         | Some (final_ticker, market_info) =>
             path <- _get_output_path w ticker datasource start end_ interval
                                      market None false timeframe ;;
             match to_datetime (pd w) start, to_datetime (pd w) end_ with
             | Some s, Some e =>
                 if day_of s >=? day_of e then
                   ret (Invalid "Start date must be before end date")
                 else
                   ret (Valid (Info ticker final_ticker datasource start end_
                                    interval market_info
                                    (fst path ++ "/" ++ snd path) (snd path)))
             | _, _ => ret (Invalid "Invalid date format (use YYYY-MM-DD)")
             end
         end
     end)
    (fun e => ret (Invalid (str_of_exn e))).

(** [if progress_callback: progress_callback(msg)]; the callback observes
    and returns. *)
Definition progress (progress_callback : bool) (msg : string) : M unit :=
  if progress_callback then emit (EvProgress msg) else ret tt.

(** The [except Exception as e] clause of [download_data], with the
    values the local variables [start] and [end] have when it runs. *)
Definition download_failed (datasource ticker : string)
           (start end_ : option string) (interval : string)
           (market : option string) (progress_callback : bool) (e : exn)
  : M DownloadResult :=
  logger_error ("Download failed: " ++ str_of_exn e) ;;
  progress progress_callback ("Error: " ++ str_of_exn e) ;;
  ret (Result ticker datasource market None None start end_ interval false
              (Some ("Download failed: " ++ str_of_exn e))).

(** The keyword arguments of the adapter constructor: the exchange, when
    one is given. *)
Definition constructor_kwargs (exchange : option string) : Dict.dict string :=
  if PyStr.truthy exchange then [("exchange", opt_str exchange)] else [].

(** The statements of the [try] block from the construction of the adapter
    on, for the preview [info]. *)
Definition create_fetch_save (w : world)
           (datasource ticker start end_ : string)
           (interval : string) (market output_file : option string)
           (output_format : string) (progress_callback : bool)
           (timeframe exchange : option string) (include_datasource : bool)
           (info : preview_info) : M DownloadResult :=
  progress progress_callback "Creating data source..." ;;
  let kwargs := constructor_kwargs exchange in
  emit (EvCreate datasource kwargs) ;;
  datasource_instance <-
    lift (Registry.create_datasource (registry w) datasource kwargs) ;;
  progress progress_callback
           ("Fetching data for " ++ p_final_ticker info ++ "...") ;;
  emit (EvFetch (p_final_ticker info) start end_ interval) ;;
  df <- fetch datasource_instance (p_final_ticker info) start end_ interval ;;
  (if empty df then
     raise ValueError
           ("No data found for " ++ p_final_ticker info
            ++ " in the specified date range")
   else ret tt) ;;
  progress progress_callback
           ("Retrieved " ++ PyStr.str_of_Z (len df) ++ " data points...") ;;
  output_path <-
    (if PyStr.truthy output_file then
       perform (mkdir_parent w (opt_str output_file)) ;;
       ret (opt_str output_file)
     else
       path <- _get_output_path_with_format
                 w ticker datasource start end_ interval market
                 output_format exchange include_datasource timeframe ;;
       perform (ensure_directory_exists w (fst path)) ;;
       ret (fst path ++ "/" ++ snd path)) ;;
  progress progress_callback
           ("Saving to " ++ PyStr.upper output_format ++ "...") ;;
  let df_export := lower_columns df in
  let df_export :=
    set_index_name df_export
      (if PyStr.truthy (index_name df_export)
       then option_map PyStr.lower (index_name df_export)
       else Some "date") in
  perform (write_file w output_path (PyStr.lower output_format) df_export) ;;
  emit (EvSave output_path (PyStr.lower output_format)) ;;
  progress progress_callback "Download completed!" ;;
  ret (Result ticker datasource market (Some df) (Some output_path)
              (Some start) (Some end_) interval true None).

(** The statements of the [try] block after the dates are resolved: the
    checks, then the construction, the fetch and the save. *)
Definition download_steps (w : world) (datasource ticker start end_ : string)
           (interval : string) (market output_file : option string)
           (output_format : string) (progress_callback : bool)
           (timeframe exchange : option string) (include_datasource : bool)
  : M DownloadResult :=
  (if negb (PyStr.mem (PyStr.lower output_format) ["csv"; "json"]) then
     raise ValueError
           ("Unsupported output format: " ++ output_format
            ++ ". Supported formats: csv, json")
   else ret tt) ;;
  progress progress_callback "Validating parameters..." ;;
  preview <- preview_download w datasource ticker (Some start) (Some end_)
                              interval market None ;;
  match preview with
  | Invalid err => raise ValueError err
  | Valid info =>
      create_fetch_save w datasource ticker start end_ interval market
                        output_file output_format progress_callback timeframe
                        exchange include_datasource info
  end.

(** [download_data]. The whole body is one [try] block; its handler
    reports the values of [start] and [end] at the time of the raise,
    which change once, when the first statement assigns them. *)
Definition download_data (w : world) (datasource ticker : string)
           (start end_ : option string) (interval : string)
           (market output_file : option string) (output_format : string)
           (progress_callback : bool) (timeframe exchange : option string)
           (include_datasource : bool) : M DownloadResult :=
  let failed := download_failed datasource ticker in
  first <-
    try_except
      (dates <-
         (if needs_dates timeframe start end_
          then
            d <- calculate_dates_from_timeframe w timeframe start end_ ;;
            ret (Some (fst d), Some (snd d))
          else ret (start, end_)) ;;
       ret (inr dates))
      (fun e =>
         r <- failed start end_ interval market progress_callback e ;;
         ret (inl r)) ;;
  match first with
  | inl r => ret r
  | inr (start, end_) =>
      try_except
        (download_steps w datasource ticker (opt_str start) (opt_str end_)
                        interval market output_file output_format
                        progress_callback timeframe exchange
                        include_datasource)
        (fun e =>
           failed start end_ interval market progress_callback e)
  end.

End Service.

(** ** [services/download_service.py]: a progress callback that may raise *)

(** [download_data] once more, with the progress callback as the caller
    gives it: any callable, which may raise. [Service.download_data] is
    the case of a callback that records the message and returns. *)
Module Hooked.
Import Effects Pandas Service.
Local Open Scope eff_scope.

(** What a call [progress_callback(msg)] does. *)
Definition callback : Type := string -> M unit.

(** The callback that records the message and returns. *)
Definition observing (progress_callback : bool) : option callback :=
  if progress_callback then Some (fun msg => emit (EvProgress msg)) else None.

(** [if progress_callback: progress_callback(msg)] *)
Definition progress (progress_callback : option callback) (msg : string)
  : M unit :=
  match progress_callback with
  | Some f => f msg
  | None => ret tt
  end.

(** The [except Exception as e] clause of [download_data], with the
    values the local variables [start] and [end] have when it runs. *)
Definition download_failed (datasource ticker : string)
           (start end_ : option string) (interval : string)
           (market : option string) (progress_callback : option callback)
           (e : exn)
  : M DownloadResult :=
  logger_error ("Download failed: " ++ str_of_exn e) ;;
  progress progress_callback ("Error: " ++ str_of_exn e) ;;
  ret (Result ticker datasource market None None start end_ interval false
              (Some ("Download failed: " ++ str_of_exn e))).

(** The statements of the [try] block from the construction of the adapter
    on, for the preview [info]. *)
Definition create_fetch_save (w : world)
           (datasource ticker start end_ : string)
           (interval : string) (market output_file : option string)
           (output_format : string) (progress_callback : option callback)
           (timeframe exchange : option string) (include_datasource : bool)
           (info : preview_info) : M DownloadResult :=
  progress progress_callback "Creating data source..." ;;
  let kwargs := constructor_kwargs exchange in
  emit (EvCreate datasource kwargs) ;;
  datasource_instance <-
    lift (Registry.create_datasource (registry w) datasource kwargs) ;;
  progress progress_callback
           ("Fetching data for " ++ p_final_ticker info ++ "...") ;;
  emit (EvFetch (p_final_ticker info) start end_ interval) ;;
  df <- fetch datasource_instance (p_final_ticker info) start end_ interval ;;
  (if empty df then
     raise ValueError
           ("No data found for " ++ p_final_ticker info
            ++ " in the specified date range")
   else ret tt) ;;
  progress progress_callback
           ("Retrieved " ++ PyStr.str_of_Z (len df) ++ " data points...") ;;
  output_path <-
    (if PyStr.truthy output_file then
       perform (mkdir_parent w (opt_str output_file)) ;;
       ret (opt_str output_file)
     else
       path <- _get_output_path_with_format
                 w ticker datasource start end_ interval market
                 output_format exchange include_datasource timeframe ;;
       perform (ensure_directory_exists w (fst path)) ;;
       ret (fst path ++ "/" ++ snd path)) ;;
  progress progress_callback
           ("Saving to " ++ PyStr.upper output_format ++ "...") ;;
  let df_export := lower_columns df in
  let df_export :=
    set_index_name df_export
      (if PyStr.truthy (index_name df_export)
       then option_map PyStr.lower (index_name df_export)
       else Some "date") in
  perform (write_file w output_path (PyStr.lower output_format) df_export) ;;
  emit (EvSave output_path (PyStr.lower output_format)) ;;
  progress progress_callback "Download completed!" ;;
  ret (Result ticker datasource market (Some df) (Some output_path)
              (Some start) (Some end_) interval true None).

(** The statements of the [try] block after the dates are resolved: the
    checks, then the construction, the fetch and the save. *)
Definition download_steps (w : world) (datasource ticker start end_ : string)
           (interval : string) (market output_file : option string)
           (output_format : string) (progress_callback : option callback)
           (timeframe exchange : option string) (include_datasource : bool)
  : M DownloadResult :=
  (if negb (PyStr.mem (PyStr.lower output_format) ["csv"; "json"]) then
     raise ValueError
           ("Unsupported output format: " ++ output_format
            ++ ". Supported formats: csv, json")
   else ret tt) ;;
  progress progress_callback "Validating parameters..." ;;
  preview <- preview_download w datasource ticker (Some start) (Some end_)
                              interval market None ;;
  match preview with
  | Invalid err => raise ValueError err
  | Valid info =>
      create_fetch_save w datasource ticker start end_ interval market
                        output_file output_format progress_callback timeframe
                        exchange include_datasource info
  end.

(** [download_data]. The whole body is one [try] block; its handler
    reports the values of [start] and [end] at the time of the raise,
    which change once, when the first statement assigns them. *)
Definition download_data (w : world) (datasource ticker : string)
           (start end_ : option string) (interval : string)
           (market output_file : option string) (output_format : string)
           (progress_callback : option callback)
           (timeframe exchange : option string)
           (include_datasource : bool) : M DownloadResult :=
  let failed := download_failed datasource ticker in
  first <-
    try_except
      (dates <-
         (if needs_dates timeframe start end_
          then
            d <- calculate_dates_from_timeframe w timeframe start end_ ;;
            ret (Some (fst d), Some (snd d))
          else ret (start, end_)) ;;
       ret (inr dates))
      (fun e =>
         r <- failed start end_ interval market progress_callback e ;;
         ret (inl r)) ;;
  match first with
  | inl r => ret r
  | inr (start, end_) =>
      try_except
        (download_steps w datasource ticker (opt_str start) (opt_str end_)
                        interval market output_file output_format
                        progress_callback timeframe exchange
                        include_datasource)
        (fun e =>
           failed start end_ interval market progress_callback e)
  end.

End Hooked.

(** ** [services/download_service.py]: the list of downloaded files *)

Module Listing.
Import Service.

(** [s.split(sep)] for a one-character separator: every occurrence
    splits, so the list has one part more than there are separators. *)
Fixpoint split (sep : ascii) (s : string) : list string :=
  match s with
  | EmptyString => [EmptyString]
  | String c r =>
      if Ascii.eqb c sep then EmptyString :: split sep r
      else match split sep r with
           | h :: t => String c h :: t
           | [] => [String c EmptyString]
           end
  end.

(** [name[:name.rfind('.')]], when the name holds a dot. *)
Fixpoint before_last_dot (name : string) : option string :=
  match name with
  | EmptyString => None
  | String c r =>
      match before_last_dot r with
      | Some p => Some (String c p)
      | None => if Ascii.eqb c "." then Some EmptyString else None
      end
  end.

(** [PurePath.stem]: the name without its last suffix; a dot at the
    first or at the last place begins no suffix. *)
Definition stem (name : string) : string :=
  match before_last_dot name with
  | Some p =>
      if PyStr.nonempty p && (PyStr.len p <? PyStr.len name - 1) then p
      else name
  | None => name
  end.

(** A file of the datasets directory: its name, and what [stat] gives for
    it -- the size and the time of modification, as the position of
    [datetime.fromtimestamp(st_mtime)] on the time line -- or [None]
    when [stat] raises. *)
Record dir_entry := Entry {
  e_name : string;
  e_stat : option (Z * Z)
}.

(** A dictionary of the returned list. *)
Record file_info := FileInfo {
  filename : string;
  path : string;
  fi_ticker : string;
  fi_market : option string;
  fi_datasource : string;
  fi_start_date : string;
  fi_end_date : string;
  fi_interval : string;
  size_bytes : Z;
  modified : Z
}.

(** [downloads_dir.glob("*.csv")] on the files of the directory. *)
Definition glob_csv (files : list dir_entry) : list dir_entry :=
  filter (fun f => PyStr.endswith (e_name f) ".csv") files.

(** [l[-3:]] *)
Definition last3 {A} (l : list A) : list A :=
  skipn (List.length l - 3) l.

(** The fields the name of a file is read as: ticker, market, datasource,
    start, end, interval; [None] when the name has fewer than five
    parts. *)
Definition parse_name (name_parts : list string)
  : option (string * option string * string * string * string * string) :=
  if (List.length name_parts <? 5)%nat then None
  else
    match last3 name_parts with
    | [file_start; file_end; file_interval] =>
        if (6 <=? List.length name_parts)%nat then
          match firstn 3 name_parts with
          | [file_ticker; file_market; file_datasource] =>
              Some (file_ticker, Some file_market, file_datasource,
                    file_start, file_end, file_interval)
          | _ => None
          end
        else
          match firstn 2 name_parts with
          | [file_ticker; file_datasource] =>
              Some (file_ticker, None, file_datasource,
                    file_start, file_end, file_interval)
          | _ => None
          end
    | _ => None
    end.

(** [if wanted and found != wanted: continue] *)
Definition filtered_out (wanted found : option string) : bool :=
  PyStr.truthy wanted
  && negb match wanted, found with
          | Some a, Some b => String.eqb a b
          | None, None => true
          | _, _ => false
          end.

(** One pass through the loop body: the dictionary appended, or [None]
    when the file is skipped. *)
Definition file_record (dir : string) (ticker datasource market : option string)
           (f : dir_entry) : option file_info :=
  match parse_name (split "_" (stem (e_name f))) with
  | None => None
  | Some (file_ticker, file_market, file_datasource,
          file_start, file_end, file_interval) =>
      if filtered_out ticker (Some file_ticker) then None
      else if filtered_out datasource (Some file_datasource) then None
      else if filtered_out market file_market then None
      else
        match e_stat f with
        | None => None
        | Some (size, mtime) =>
            Some (FileInfo (e_name f) (dir ++ "/" ++ e_name f) file_ticker
                           file_market file_datasource file_start file_end
                           file_interval size mtime)
        end
  end.

Fixpoint filter_map {A B} (f : A -> option B) (l : list A) : list B :=
  match l with
  | [] => []
  | x :: r =>
      match f x with
      | Some y => y :: filter_map f r
      | None => filter_map f r
      end
  end.

(** [files_info.sort(key=modified, reverse=True)]: descending, and
    stable -- dictionaries with equal keys keep their order. *)
Fixpoint insert_newest (x : file_info) (l : list file_info)
  : list file_info :=
  match l with
  | [] => [x]
  | y :: r =>
      if modified y >? modified x then y :: insert_newest x r
      else x :: y :: r
  end.

Definition sort_newest_first (l : list file_info) : list file_info :=
  fold_right insert_newest [] l.

(** [list_downloaded_files]; [files] is [None] when the datasets
    directory does not exist, else the files in it, in the order in which
    the directory is read. *)
Definition list_downloaded_files (w : world) (files : option (list dir_entry))
           (ticker datasource market : option string) : list file_info :=
  match files with
  | None => []
  | Some fs =>
      sort_newest_first
        (filter_map (file_record (datasets_dir w) ticker datasource market)
                    (glob_csv fs))
  end.

End Listing.

(** ** [cli/downloader.py]: the date check of the command line *)

Module Cli.

(** What an [argparse] type function does with an argument: it returns
    the converted value, or raises [argparse.ArgumentTypeError]. *)
Inductive converted :=
| Accepted (value : string)
| ArgumentTypeError (message : string).

Definition validate_date_format (date_str : string) : converted :=
  match Calendar.strptime_ymd date_str with
  | inr _ => Accepted date_str
  | inl _ =>
      ArgumentTypeError
        ("Date '" ++ date_str ++ "' must be in YYYY-MM-DD format")
  end.

End Cli.

(** * Properties *)

(** ** The calendar *)

Section CalendarFacts.
Import Calendar.

Lemma forallb_below (f : Z -> bool) (n : nat) :
  forallb f (map Z.of_nat (seq 0 n)) = true ->
  forall r, 0 <= r < Z.of_nat n -> f r = true.
Proof.
  intros H r Hr. rewrite forallb_forall in H. apply H.
  apply in_map_iff. exists (Z.to_nat r). split; [lia|].
  apply in_seq. lia.
Qed.

(** [month_day] is checked on each of the 365 day numbers it is used on,
    for both kinds of year. *)
Definition month_day_ok (leapyear : bool) (n : Z) : bool :=
  let '(m, d) := month_day leapyear n in
  (1 <=? m) && (m <=? 12) && (1 <=? d)
  && (d <=? (if m =? 2 then (if leapyear then 29 else 28)
             else if (m =? 4) || (m =? 6) || (m =? 9) || (m =? 11) then 30
             else 31))
  && (days_before_month_tbl m + (if (2 <? m) && leapyear then 1 else 0) + d
      =? n + 1).

Lemma month_day_spec (leapyear : bool) (n : Z) :
  0 <= n < 365 -> month_day_ok leapyear n = true.
Proof.
  intros Hn.
  apply (forallb_below (month_day_ok leapyear) 365); [|lia].
  destruct leapyear; vm_compute; reflexivity.
Qed.

Lemma days_before_year_cycles (a b c d : Z) :
  0 <= a -> 0 <= b <= 3 -> 0 <= c <= 24 -> 0 <= d <= 3 ->
  days_before_year (400 * a + 1 + 100 * b + 4 * c + d)
  = 146097 * a + 36524 * b + 1461 * c + 365 * d.
Proof.
  intros. unfold days_before_year. cbv zeta.
  Z.div_mod_to_equations. lia.
Qed.

Lemma is_leap_cycles (a b c d : Z) :
  0 <= a -> 0 <= b <= 3 -> 0 <= c <= 24 -> 0 <= d <= 3 ->
  is_leap (400 * a + 1 + 100 * b + 4 * c + d)
  = ((d =? 3) && (negb (c =? 24) || (b =? 3))).
Proof.
  intros. unfold is_leap. apply eq_true_iff_eq.
  rewrite !andb_true_iff, !orb_true_iff, !negb_true_iff, !Z.eqb_eq,
    !Z.eqb_neq.
  Z.div_mod_to_equations. lia.
Qed.

(** The last day of a leap year, reached when a 4-year or a 400-year
    cycle is complete. *)
Lemma last_day_of_cycle (y : Z) :
  1 <= y <= 9999 -> is_leap y = true ->
  valid (Date y 12 31) = true
  /\ toordinal (Date y 12 31) = days_before_year y + 366.
Proof.
  intros Hy L. unfold valid, valid_ymd, toordinal, days_before_month,
    days_in_month, MINYEAR, MAXYEAR. simpl. rewrite L. simpl.
  split; [|lia].
  rewrite !andb_true_iff, !Z.leb_le. lia.
Qed.

(** [fromordinal] inverts [toordinal] on the ordinals of
    [datetime.min .. datetime.max] and yields dates the constructor
    accepts. *)
Lemma fromordinal_spec (n : Z) :
  1 <= n <= MAXORDINAL ->
  valid (fromordinal n) = true /\ toordinal (fromordinal n) = n.
Proof.
  unfold MAXORDINAL. intros Hn. unfold fromordinal. cbv zeta.
  set (n' := n - 1).
  set (a := n' / 146097). set (r1 := n' mod 146097).
  set (b := r1 / 36524). set (r2 := r1 mod 36524).
  set (c := r2 / 1461). set (r3 := r2 mod 1461).
  set (d := r3 / 365). set (r4 := r3 mod 365).
  assert (Ha : n' = 146097 * a + r1 /\ 0 <= r1 < 146097 /\ 0 <= a <= 24).
  { subst a r1. Z.div_mod_to_equations. lia. }
  assert (Hb : r1 = 36524 * b + r2 /\ 0 <= r2 < 36524 /\ 0 <= b <= 4).
  { subst b r2. Z.div_mod_to_equations. lia. }
  assert (Hc : r2 = 1461 * c + r3 /\ 0 <= r3 < 1461 /\ 0 <= c <= 24).
  { subst c r3. Z.div_mod_to_equations. lia. }
  assert (Hd : r3 = 365 * d + r4 /\ 0 <= r4 < 365 /\ 0 <= d <= 4).
  { subst d r4. Z.div_mod_to_equations. lia. }
  clearbody a r1 b r2 c r3 d r4. subst n'.
  destruct Ha as (Ea & Hr1 & Ha), Hb as (Eb & Hr2 & Hb),
    Hc as (Ec & Hr3 & Hc), Hd as (Ed & Hr4 & Hd).
  destruct (Z.eqb_spec d 4) as [D4|D4]; simpl.
  - (* the last day of a 4-year cycle *)
    subst d. assert (r4 = 0) by lia. assert (c <= 23 \/ b = 3) by lia.
    assert (b <= 3) by lia.
    replace (a * 400 + 1 + b * 100 + c * 4 + 4 - 1)
      with (400 * a + 1 + 100 * b + 4 * c + 3) by lia.
    assert (L : is_leap (400 * a + 1 + 100 * b + 4 * c + 3) = true).
    { rewrite is_leap_cycles by lia. apply andb_true_iff. split; [reflexivity|].
      apply orb_true_iff. rewrite negb_true_iff, Z.eqb_neq, Z.eqb_eq. lia. }
    destruct (last_day_of_cycle (400 * a + 1 + 100 * b + 4 * c + 3))
      as [V O]; [lia|exact L|].
    split; [exact V|]. rewrite O, days_before_year_cycles by lia. lia.
  - destruct (Z.eqb_spec b 4) as [B4|B4]; simpl.
    + (* the last day of a 400-year cycle *)
      subst b. assert (r2 = 0 /\ c = 0 /\ r3 = 0 /\ d = 0 /\ r4 = 0)
        as (-> & -> & -> & -> & ->) by lia.
      replace (a * 400 + 1 + 4 * 100 + 0 * 4 + 0 - 1)
        with (400 * a + 1 + 100 * 3 + 4 * 24 + 3) by lia.
      assert (L : is_leap (400 * a + 1 + 100 * 3 + 4 * 24 + 3) = true).
      { rewrite is_leap_cycles by lia. reflexivity. }
      destruct (last_day_of_cycle (400 * a + 1 + 100 * 3 + 4 * 24 + 3))
        as [V O]; [lia|exact L|].
      split; [exact V|]. rewrite O, days_before_year_cycles by lia. lia.
    + (* any other day *)
      assert (Hd3 : 0 <= d <= 3) by lia. assert (Hb3 : 0 <= b <= 3) by lia.
      set (lp := (d =? 3) && (negb (c =? 24) || (b =? 3))).
      pose proof (month_day_spec lp r4 Hr4) as MD.
      unfold month_day_ok in MD.
      destruct (month_day lp r4) as [m dd].
      rewrite !andb_true_iff, !Z.leb_le, Z.eqb_eq in MD.
      destruct MD as ((((M1 & M2) & D1) & D2) & S).
      replace (a * 400 + 1 + b * 100 + c * 4 + d)
        with (400 * a + 1 + 100 * b + 4 * c + d) by lia.
      pose proof (is_leap_cycles a b c d ltac:(lia) Hb3 Hc Hd3) as L.
      fold lp in L.
      unfold valid, valid_ymd, toordinal, days_before_month, days_in_month,
        MINYEAR, MAXYEAR. cbn [year month day].
      rewrite L, days_before_year_cycles by lia.
      split; [|lia].
      rewrite !andb_true_iff, !Z.leb_le. repeat split; lia.
Qed.

End CalendarFacts.

Section CalendarBounds.
Import Calendar.

Lemma days_before_year_succ (y : Z) :
  days_before_year (y + 1)
  = days_before_year y + (if is_leap y then 366 else 365).
Proof.
  unfold days_before_year, is_leap. cbv zeta.
  replace (y + 1 - 1) with y by lia.
  destruct (Z.eqb_spec (y mod 4) 0) as [E4|E4];
    destruct (Z.eqb_spec (y mod 100) 0) as [E100|E100];
    destruct (Z.eqb_spec (y mod 400) 0) as [E400|E400]; simpl;
    Z.div_mod_to_equations; lia.
Qed.

Lemma day_of_year_bound (y m d : Z) :
  1 <= m <= 12 -> 1 <= d <= days_in_month y m ->
  1 <= days_before_month y m + d <= (if is_leap y then 366 else 365).
Proof.
  intros Hm Hd. unfold days_before_month, days_in_month in *.
  assert (C : m = 1 \/ m = 2 \/ m = 3 \/ m = 4 \/ m = 5 \/ m = 6 \/ m = 7
              \/ m = 8 \/ m = 9 \/ m = 10 \/ m = 11 \/ m = 12) by lia.
  clear Hm.
  destruct C as [->|[->|[->|[->|[->|[->|[->|[->|[->|[->|[->| ->]]]]]]]]]]];
    destruct (is_leap y); cbn -[Z.add Z.le] in Hd |- *; lia.
Qed.

(** The ordinal of a date the constructor accepts lies in
    [1 .. MAXORDINAL]. *)
Lemma toordinal_bounds (t : datetime) :
  valid t = true -> 1 <= toordinal t <= MAXORDINAL.
Proof.
  destruct t as [y m d]. unfold valid, valid_ymd, toordinal, MINYEAR,
    MAXYEAR, MAXORDINAL. cbn [year month day].
  rewrite !andb_true_iff, !Z.leb_le. intros (((((Y1 & Y2) & M1) & M2) & D1) & D2).
  pose proof (day_of_year_bound y m d ltac:(lia) ltac:(lia)) as B.
  pose proof (days_before_year_succ y) as S.
  assert (L : 0 <= days_before_year y).
  { unfold days_before_year. cbv zeta. Z.div_mod_to_equations. lia. }
  assert (U : days_before_year (y + 1) <= 3652059).
  { unfold days_before_year. cbv zeta. Z.div_mod_to_equations. lia. }
  destruct (is_leap y); lia.
Qed.

(** Subtracting [n] days gives the date [n] days earlier, when that date
    is not before [datetime.min]. *)
Lemma sub_days_spec (t : datetime) (n : Z) :
  valid t = true -> 0 <= n < toordinal t ->
  exists t', sub_days t n = ok t' /\ valid t' = true
             /\ toordinal t' = toordinal t - n.
Proof.
  intros V Hn. pose proof (toordinal_bounds t V) as B.
  unfold sub_days.
  assert (C : (0 <? toordinal t - n) && (toordinal t - n <=? MAXORDINAL) = true).
  { apply andb_true_iff. rewrite Z.ltb_lt, Z.leb_le. lia. }
  rewrite C. exists (fromordinal (toordinal t - n)).
  destruct (fromordinal_spec (toordinal t - n)) as [V' O']; [lia|].
  auto.
Qed.

(** Before [datetime.min] there is no date: the subtraction raises. *)
Lemma sub_days_overflow (t : datetime) (n : Z) :
  toordinal t <= n ->
  sub_days t n = raise_ OverflowError "date value out of range".
Proof.
  intros Hn. unfold sub_days.
  destruct (Z.ltb_spec 0 (toordinal t - n)); [lia|reflexivity].
Qed.

End CalendarBounds.

(** ** The timespan resolver *)

Section TimespanFacts.
Import Calendar Timespan.

(** A string [datetime.strptime(_, "%Y-%m-%d")] accepts. *)
Definition well_formed_date (s : string) : Prop :=
  exists t, strptime_ymd s = ok t.

Lemma well_formed_nonempty (s : string) :
  well_formed_date s -> PyStr.nonempty s = true.
Proof.
  intros [t H]. destruct s; [discriminate H|reflexivity].
Qed.

Lemma well_formed_validates (s : string) :
  well_formed_date s -> _validate_date_format s = ok tt.
Proof.
  intros [t H]. unfold _validate_date_format. rewrite H. reflexivity.
Qed.

Lemma validates_well_formed (s : string) :
  _validate_date_format s = ok tt -> well_formed_date s.
Proof.
  unfold _validate_date_format, well_formed_date.
  destruct (strptime_ymd s) as [e|t]; [discriminate|eauto].
Qed.

(** Rule 1 of the resolver. *)
Lemma calculate_dates_both (now : datetime) (timespan : option string)
      (override : option datetime) (start end_ : string) :
  well_formed_date start -> well_formed_date end_ ->
  calculate_dates now timespan (Some start) (Some end_) override
  = ok (start, end_).
Proof.
  intros Hs He. unfold calculate_dates.
  cbn [PyStr.truthy]. rewrite (well_formed_nonempty _ Hs),
    (well_formed_nonempty _ He).
  unfold or_default. cbn [PyStr.truthy].
  rewrite (well_formed_nonempty _ Hs), (well_formed_nonempty _ He).
  rewrite (well_formed_validates _ Hs), (well_formed_validates _ He).
  reflexivity.
Qed.

(** C7. For well-formed YYYY-MM-DD strings [start] and [end_], resolving
    with both given returns [(start, end_)] unchanged, whatever the
    timespan argument, the clock and the end override are; and resolving
    again the pair a resolution returned, under any other timespan, clock
    and override, returns that pair. *)
Theorem explicit_dates_returned_verbatim :
  forall (now : datetime) (timespan : option string)
         (override : option datetime) (start end_ : string),
    well_formed_date start -> well_formed_date end_ ->
    calculate_dates now timespan (Some start) (Some end_) override
    = ok (start, end_)
    /\ (forall (now' : datetime) (timespan' : option string)
               (override' : option datetime) (r : string * string),
           calculate_dates now timespan (Some start) (Some end_) override
           = ok r ->
           calculate_dates now' timespan' (Some (fst r)) (Some (snd r))
                           override'
           = ok r).
Proof.
  intros now timespan override start end_ Hs He. split.
  - apply calculate_dates_both; assumption.
  - intros now' timespan' override' r Hr.
    rewrite calculate_dates_both in Hr by assumption.
    injection Hr as <-. cbn [fst snd].
    apply calculate_dates_both; assumption.
Qed.

Lemma explicit_dates_returned_verbatim_witness :
  well_formed_date "2023-01-01" /\ well_formed_date "2023-12-31"
  /\ calculate_dates (Date 2025 3 1) (Some "6M") (Some "2023-01-01")
                     (Some "2023-12-31") None
     = ok ("2023-01-01", "2023-12-31").
Proof.
  assert (Hs : well_formed_date "2023-01-01") by (eexists; reflexivity).
  assert (He : well_formed_date "2023-12-31") by (eexists; reflexivity).
  split; [exact Hs|]. split; [exact He|].
  exact (proj1 (explicit_dates_returned_verbatim
                  (Date 2025 3 1) (Some "6M") None
                  "2023-01-01" "2023-12-31" Hs He)).
Defined.

(** C6, as amended. For every end date [E] on or after 0002-01-01,
    resolving the timespan "1Y" with end override [E] returns the
    formatted pair [(S, E)] where [S] is the date exactly 365 days before
    [E] -- a fixed subtraction of days, not the same day of the previous
    year; so the override 2024-06-15 gives ("2023-06-16", "2024-06-15"),
    one day after 2023-06-15, because 29 February 2024 lies between. *)
Theorem one_year_is_365_days_before_end :
  (forall (now E : datetime),
      valid E = true -> 365 < toordinal E ->
      exists S,
        calculate_dates now (Some "1Y") None None (Some E)
        = ok (strftime_ymd S, strftime_ymd E)
        /\ valid S = true
        /\ toordinal S = toordinal E - 365)
  /\ (forall now : datetime,
         calculate_dates now (Some "1Y") None None (Some (Date 2024 6 15))
         = ok ("2023-06-16", "2024-06-15"))
  /\ toordinal (Date 2023 6 15) = toordinal (Date 2024 6 15) - 366.
Proof.
  split; [|split; [intros; reflexivity|reflexivity]].
  intros now E V HE.
  destruct (sub_days_spec E 365 V ltac:(lia)) as (S & HS & VS & OS).
  exists S. split; [|auto].
  unfold calculate_dates. cbn. unfold timedelta_days.
  rewrite HS. reflexivity.
Qed.

Lemma one_year_is_365_days_before_end_witness :
  valid (Date 2024 6 15) = true /\ 365 < toordinal (Date 2024 6 15)
  /\ exists S,
      calculate_dates (Date 2025 3 1) (Some "1Y") None None
                      (Some (Date 2024 6 15))
      = ok (strftime_ymd S, strftime_ymd (Date 2024 6 15))
      /\ valid S = true
      /\ toordinal S = toordinal (Date 2024 6 15) - 365.
Proof.
  split; [reflexivity|]. split; [reflexivity|].
  apply (proj1 one_year_is_365_days_before_end (Date 2025 3 1)
               (Date 2024 6 15)); reflexivity.
Defined.

(** C6 as stated fails for the end dates of the year 1: 365 days before
    0001-06-15 there is no [datetime], and the resolver raises
    [OverflowError] instead of returning a pair. *)
Lemma one_year_before_year_one_raises :
  valid (Date 1 6 15) = true
  /\ calculate_dates (Date 2025 3 1) (Some "1Y") None None
                     (Some (Date 1 6 15))
     = raise_ OverflowError "date value out of range".
Proof. split; reflexivity. Qed.

End TimespanFacts.


(** ** The source registry *)

Section RegistryFacts.
Import Dict Registry.

Context {V : Type}.

Lemma get_set_same (k : string) (v : V) (d : dict V) :
  get k (set k v d) = Some v.
Proof.
  induction d as [|[k' v'] r IH]; simpl.
  - rewrite String.eqb_refl. reflexivity.
  - destruct (String.eqb k k') eqn:E; simpl.
    + rewrite String.eqb_refl. reflexivity.
    + rewrite E. exact IH.
Qed.

Lemma get_set_other (k k' : string) (v : V) (d : dict V) :
  k' <> k -> get k' (set k v d) = get k' d.
Proof.
  intros N. induction d as [|[k0 v0] r IH]; simpl.
  - destruct (String.eqb_spec k' k); [contradiction|reflexivity].
  - destruct (String.eqb_spec k k0) as [->|N0]; simpl.
    + destruct (String.eqb_spec k' k0); [contradiction|reflexivity].
    + destruct (String.eqb k' k0); [reflexivity|exact IH].
Qed.

(** Assigning to a key that is present leaves the keys as they are. *)
Lemma keys_set_present (k : string) (v : V) (d : dict V) :
  In k (keys d) -> keys (set k v d) = keys d.
Proof.
  induction d as [|[k' v'] r IH]; simpl; [contradiction|].
  intros [E|I].
  - subst k'. rewrite String.eqb_refl. reflexivity.
  - destruct (String.eqb_spec k k') as [->|N]; simpl; [reflexivity|].
    f_equal. apply IH. exact I.
Qed.

(** Assigning to a key that is absent appends it. *)
Lemma keys_set_absent (k : string) (v : V) (d : dict V) :
  ~ In k (keys d) -> keys (set k v d) = (keys d ++ [k])%list.
Proof.
  induction d as [|[k' v'] r IH]; simpl; [reflexivity|].
  intros N. destruct (String.eqb_spec k k') as [->|N'].
  - exfalso. apply N. left. reflexivity.
  - simpl. f_equal. apply IH. intros I. apply N. right. exact I.
Qed.

Lemma keys_set_NoDup (k : string) (v : V) (d : dict V) :
  NoDup (keys d) -> NoDup (keys (set k v d)).
Proof.
  intros ND. destruct (in_dec string_dec k (keys d)) as [I|N].
  - rewrite keys_set_present by exact I. exact ND.
  - rewrite keys_set_absent by exact N.
    apply NoDup_app; [exact ND|repeat constructor; intros []|].
    intros x Hx [<-|[]]. exact (N Hx).
Qed.

End RegistryFacts.

Section RegistryClaims.
Import Dict Registry.

Context {Instance : Type}.

(** The names of a registry built by registrations are distinct. *)
Lemma registered_NoDup (regs : list (string * datasource_class Instance)) :
  NoDup (list_datasources (registered regs)).
Proof.
  unfold registered, list_datasources.
  assert (G : forall r : DataSourceRegistry Instance,
             NoDup (keys (_datasources r)) ->
             NoDup (keys (_datasources
                            (fold_left
                               (fun r nc =>
                                  fst (register_datasource (fst nc) (snd nc) r))
                               regs r)))).
  { induction regs as [|[n c] rest IH]; intros r ND; simpl; [exact ND|].
    apply IH. simpl. apply keys_set_NoDup. exact ND. }
  apply G. constructor.
Qed.

(** C10. On a registry built by any sequence of registrations, registering
    a class under a name that is already registered returns normally (the
    decorator is a total function: no exception is modelled for it or
    needed); the later class replaces the earlier one, so that creating
    the name calls the constructor of the later class; and the list of
    names is unchanged, holding the name exactly once. *)
Theorem register_again_replaces :
  forall (regs : list (string * datasource_class Instance)) (name : string)
         (newer : datasource_class Instance) (kw : kwargs),
    In name (list_datasources (registered regs)) ->
    let after := fst (register_datasource name newer (registered regs)) in
    create_datasource after name kw = construct newer kw
    /\ list_datasources after = list_datasources (registered regs)
    /\ count_occ string_dec (list_datasources after) name = 1%nat.
Proof.
  intros regs name newer kw I after. subst after.
  unfold create_datasource, list_datasources, register_datasource in *.
  cbn [fst _datasources]. rewrite get_set_same. cbn [construct].
  rewrite keys_set_present by exact I.
  split; [reflexivity|]. split; [reflexivity|].
  apply NoDup_count_occ'; [apply registered_NoDup|exact I].
Qed.

End RegistryClaims.

Definition older_class : Registry.datasource_class string :=
  Registry.Class "Older" (fun _ => ok "an instance of Older") None.

Definition newer_class : Registry.datasource_class string :=
  Registry.Class "Newer" (fun _ => ok "an instance of Newer") None.

Lemma register_again_replaces_witness :
  In "polygon"
     (Registry.list_datasources
        (Registry.registered
           [("yfinance", older_class); ("polygon", older_class)]))
  /\ Registry.create_datasource
       (fst (Registry.register_datasource
               "polygon" newer_class
               (Registry.registered
                  [("yfinance", older_class); ("polygon", older_class)])))
       "polygon" []
     = ok "an instance of Newer".
Proof.
  split; [right; left; reflexivity|].
  apply (register_again_replaces
           [("yfinance", older_class); ("polygon", older_class)]
           "polygon" newer_class []).
  right; left; reflexivity.
Defined.


(** ** The pagination loop of the exchange-aggregator adapter *)

Section PaginationFacts.
Import Effects Pandas CCXT.

(** The number of [fetch_ohlcv] calls recorded in a trace. *)
Definition requests (tr : trace) : nat :=
  List.length (flat_map as_request tr).

(** The last call recorded in [tr] asked for the candles since the cursor
    of [s], and the exchange answered it with an empty page. *)
Definition last_page_empty (ex : exchange) (symbol timeframe : string)
           (s : loop_state) (tr : trace) : Prop :=
  exists hist,
    tr = (hist ++ [EvFetchOhlcv symbol timeframe (current_since s) 1000])%list
    /\ fetch_ohlcv ex (flat_map as_request hist)
                   (symbol, timeframe, current_since s, 1000)
       = Page [].

(** Whatever it is asked, the exchange answers with a page that is not
    empty and that ends before the target [until]. *)
Definition never_reaches (ex : exchange) (until : Z) : Prop :=
  forall hist req,
    exists c0 rest,
      fetch_ohlcv ex hist req = Page (c0 :: rest)
      /\ timestamp (last (c0 :: rest) c0) + 1 < until.

Lemma requests_snoc (tr : trace) (symbol timeframe : string) (since limit : Z) :
  requests (tr ++ [EvFetchOhlcv symbol timeframe since limit])%list
  = S (requests tr).
Proof.
  unfold requests. rewrite flat_map_app, length_app. simpl. lia.
Qed.

(** One pass through the loop body, by the reply of the exchange. *)
Lemma loop_body_run (self : CCXTDataSource) (symbol timeframe : string)
      (until : Z) (s : loop_state) (tr : trace) :
  loop_body self symbol timeframe until s tr
  = let tr' :=
      (tr ++ [EvFetchOhlcv symbol timeframe (current_since s) 1000])%list in
    match fetch_ohlcv (the_exchange self) (flat_map as_request tr)
                      (symbol, timeframe, current_since s, 1000) with
    | Page [] => (inr (Break s), tr')
    | Page (c0 :: rest) =>
        let since := timestamp (last (c0 :: rest) c0) + 1 in
        let all := (all_ohlcv s ++ c0 :: rest)%list in
        if since >=? until
        then (inr (Break (Loop since (iteration s) all)), tr')
        else (inr (Next (Loop since (iteration s + 1) all)), tr')
    | NetworkError msg =>
        (inl (Exn RuntimeError
                  ("Network error fetching data from " ++ exchange_id self
                   ++ ": " ++ msg)), tr')
    | ExchangeError msg =>
        (inl (Exn RuntimeError
                  ("Exchange error from " ++ exchange_id self ++ ": " ++ msg
                   ++ ". Check if symbol '" ++ symbol
                   ++ "' is valid for this exchange.")), tr')
    | OtherException msg =>
        (inl (Exn RuntimeError
                  ("Unexpected error fetching data from " ++ exchange_id self
                   ++ ": " ++ msg)), tr')
    end.
Proof.
  unfold loop_body, bind, call_fetch_ohlcv. cbv zeta.
  destruct (fetch_ohlcv (the_exchange self) (flat_map as_request tr)
                        (symbol, timeframe, current_since s, 1000))
    as [[|c0 rest]|msg|msg|msg]; try reflexivity.
  destruct (timestamp (last (c0 :: rest) c0) + 1 >=? until); reflexivity.
Qed.

(** Why the loop was left with the variables [s]. *)
Definition stopped (ex : exchange) (symbol timeframe : string) (until : Z)
           (s : loop_state) (tr : trace) : Prop :=
  until <= current_since s
  \/ iteration s = max_iterations
  \/ last_page_empty ex symbol timeframe s tr.

(** Fuel for the passes that the iteration cap still allows is enough. *)
Lemma while_loop_enough_fuel (self : CCXTDataSource)
      (symbol timeframe : string) (until : Z) (fuel : nat) :
  forall (s : loop_state) (tr : trace),
    0 <= iteration s <= max_iterations ->
    (Z.to_nat (max_iterations - iteration s) <= fuel)%nat ->
    exists r tr',
      while_loop fuel self symbol timeframe until s tr = (r, tr')
      /\ r <> inr None
      /\ (requests tr'
          <= requests tr + Z.to_nat (max_iterations - iteration s))%nat
      /\ (forall s', r = inr (Some s') ->
                     0 <= iteration s' <= max_iterations
                     /\ stopped (the_exchange self) symbol timeframe until
                                s' tr').
Proof.
  unfold max_iterations.
  induction fuel as [|fuel IH]; intros s tr Hi Hf.
  - assert (E : iteration s = 1000) by lia.
    simpl. unfold loop_condition, max_iterations. rewrite E.
    rewrite andb_false_r. eexists _, _. split; [reflexivity|].
    split; [discriminate|]. split; [lia|].
    intros s' [= <-]. split; [lia|]. right; left. exact E.
  - cbn [while_loop]. unfold loop_condition, max_iterations.
    destruct (Z.ltb_spec (current_since s) until) as [C|C]; cbn [andb].
    2:{ eexists _, _. split; [reflexivity|]. split; [discriminate|].
        split; [lia|]. intros s' [= <-]. split; [lia|]. left. lia. }
    destruct (Z.ltb_spec (iteration s) 1000) as [I|I].
    2:{ eexists _, _. split; [reflexivity|]. split; [discriminate|].
        split; [lia|]. intros s' [= <-]. split; [lia|]. right; left.
        unfold max_iterations. lia. }
    unfold bind at 1. rewrite loop_body_run. cbv zeta.
    set (tr1 := (tr ++ [EvFetchOhlcv symbol timeframe (current_since s) 1000])%list).
    assert (R1 : requests tr1 = S (requests tr)) by apply requests_snoc.
    destruct (fetch_ohlcv (the_exchange self) (flat_map as_request tr)
                          (symbol, timeframe, current_since s, 1000))
      as [[|c0 rest]|msg|msg|msg] eqn:Reply.
    + eexists _, _. split; [reflexivity|]. split; [discriminate|].
      split; [lia|]. intros s' [= <-]. split; [lia|]. right; right.
      exists tr. split; [reflexivity|exact Reply].
    + destruct (Z.geb_spec (timestamp (last (c0 :: rest) c0) + 1) until)
        as [G|G].
      * eexists _, _. split; [reflexivity|]. split; [discriminate|].
        split; [lia|]. intros s' [= <-].
        split; [cbn [iteration]; lia|]. left. exact G.
      * destruct (IH (Loop (timestamp (last (c0 :: rest) c0) + 1)
                           (iteration s + 1)
                           (all_ohlcv s ++ c0 :: rest)%list) tr1)
          as (r & tr' & E & N & Q & P);
          [cbn [iteration]; lia|cbn [iteration]; lia|].
        cbn [iteration] in Q.
        exists r, tr'. split; [exact E|]. split; [exact N|].
        split; [lia|exact P].
    + eexists _, _. split; [reflexivity|]. split; [discriminate|].
      split; [lia|]. discriminate.
    + eexists _, _. split; [reflexivity|]. split; [discriminate|].
      split; [lia|]. discriminate.
    + eexists _, _. split; [reflexivity|]. split; [discriminate|].
      split; [lia|]. discriminate.
Qed.

(** When the cursor never reaches the target, every pass ends at the last
    statement of the body, and the loop is left by the iteration cap. *)
Lemma while_loop_never_reaches (self : CCXTDataSource)
      (symbol timeframe : string) (until : Z) :
  never_reaches (the_exchange self) until ->
  forall (k : nat) (fuel : nat) (s : loop_state) (tr : trace),
    current_since s < until ->
    iteration s = max_iterations - Z.of_nat k ->
    (k <= fuel)%nat ->
    exists s' tr',
      while_loop fuel self symbol timeframe until s tr = (inr (Some s'), tr')
      /\ iteration s' = max_iterations
      /\ requests tr' = (requests tr + k)%nat.
Proof.
  intros H. unfold max_iterations.
  induction k as [|k IH]; intros fuel s tr C I F.
  - exists s, tr.
    assert (E : loop_condition until s = false).
    { unfold loop_condition, max_iterations.
      replace (iteration s <? 1000) with false
        by (symmetry; apply Z.ltb_ge; lia).
      apply andb_false_r. }
    destruct fuel; cbn [while_loop]; rewrite E;
      (split; [reflexivity|split; [lia|lia]]).
  - destruct fuel as [|fuel]; [lia|].
    cbn [while_loop].
    assert (E : loop_condition until s = true).
    { unfold loop_condition, max_iterations.
      apply andb_true_iff. rewrite !Z.ltb_lt. lia. }
    rewrite E. unfold bind at 1. rewrite loop_body_run. cbv zeta.
    destruct (H (flat_map as_request tr)
                (symbol, timeframe, current_since s, 1000))
      as (c0 & rest & Reply & Short).
    rewrite Reply.
    destruct (Z.geb_spec (timestamp (last (c0 :: rest) c0) + 1) until)
      as [G|G]; [lia|].
    destruct (IH fuel
                 (Loop (timestamp (last (c0 :: rest) c0) + 1)
                       (iteration s + 1) (all_ohlcv s ++ c0 :: rest)%list)
                 (tr ++ [EvFetchOhlcv symbol timeframe (current_since s) 1000])%list)
      as (s' & tr' & E' & I' & Q');
      [exact Short|cbn [iteration]; lia|lia|].
    exists s', tr'. split; [exact E'|]. split; [exact I'|].
    rewrite Q', requests_snoc. lia.
Qed.

(** The loop is left without a request when its condition fails: the
    cursor stands at or after the target, or the counter at the cap. *)
Lemma while_loop_left (self : CCXTDataSource) (symbol timeframe : string)
      (until : Z) (fuel : nat) (s : loop_state) (tr : trace) :
  until <= current_since s \/ max_iterations <= iteration s ->
  while_loop fuel self symbol timeframe until s tr = (inr (Some s), tr).
Proof.
  intros H.
  assert (E : loop_condition until s = false).
  { unfold loop_condition. apply andb_false_iff. rewrite !Z.ltb_ge. exact H. }
  destruct fuel; cbn [while_loop]; rewrite E; reflexivity.
Qed.

Lemma loop_condition_holds (until : Z) (s : loop_state) :
  current_since s < until -> iteration s < max_iterations ->
  loop_condition until s = true.
Proof.
  intros C I. unfold loop_condition. apply andb_true_iff.
  rewrite !Z.ltb_lt. split; assumption.
Qed.

(** An empty page ends the loop: no further request is made, and the
    variables stay as they were. *)
Lemma while_loop_empty_page (self : CCXTDataSource)
      (symbol timeframe : string) (until : Z) (fuel : nat) (s : loop_state)
      (tr : trace) :
  current_since s < until -> iteration s < max_iterations ->
  fetch_ohlcv (the_exchange self) (flat_map as_request tr)
              (symbol, timeframe, current_since s, 1000) = Page [] ->
  while_loop (S fuel) self symbol timeframe until s tr
  = (inr (Some s),
     (tr ++ [EvFetchOhlcv symbol timeframe (current_since s) 1000])%list).
Proof.
  intros C I Reply. cbn [while_loop].
  rewrite (loop_condition_holds until s C I).
  unfold bind at 1. rewrite loop_body_run. cbv zeta. rewrite Reply.
  reflexivity.
Qed.

(** A page with candles moves the cursor one millisecond past its last
    candle; the loop ends there when that reaches the target, and else
    goes on from there with the counter raised by one. *)
Lemma while_loop_page (self : CCXTDataSource) (symbol timeframe : string)
      (until : Z) (fuel : nat) (s : loop_state) (tr : trace)
      (c0 : candle) (rest : list candle) :
  current_since s < until -> iteration s < max_iterations ->
  fetch_ohlcv (the_exchange self) (flat_map as_request tr)
              (symbol, timeframe, current_since s, 1000)
  = Page (c0 :: rest) ->
  let cursor := timestamp (last (c0 :: rest) c0) + 1 in
  let all := (all_ohlcv s ++ c0 :: rest)%list in
  let tr1 :=
    (tr ++ [EvFetchOhlcv symbol timeframe (current_since s) 1000])%list in
  (until <= cursor ->
   while_loop (S fuel) self symbol timeframe until s tr
   = (inr (Some (Loop cursor (iteration s) all)), tr1))
  /\ (cursor < until ->
      while_loop (S fuel) self symbol timeframe until s tr
      = while_loop fuel self symbol timeframe until
                   (Loop cursor (iteration s + 1) all) tr1).
Proof.
  intros C I Reply cursor all tr1. subst cursor all tr1.
  split; intros H; cbn [while_loop];
    rewrite (loop_condition_holds until s C I);
    unfold bind at 1; rewrite loop_body_run; cbv zeta; rewrite Reply;
    destruct (Z.geb_spec (timestamp (last (c0 :: rest) c0) + 1) until)
      as [G|G]; try lia; reflexivity.
Qed.

End PaginationFacts.

Section FetchFacts.
Import Effects Pandas CCXT.

(** The exchange lists its timeframes and [timeframe] is not among them. *)
Definition timeframe_refused (self : CCXTDataSource) (timeframe : string)
  : bool :=
  match timeframes (the_exchange self) with
  | Some tfs => negb (PyStr.mem timeframe tfs)
  | None => false
  end.

(** The frame [fetch] returns for the accumulated candles [all]. *)
Definition frame_of (pd : api) (start_dt end_dt : Z) (all : list candle)
  : DataFrame :=
  let kept := finish pd start_dt end_dt (map row_of all) in
  Frame Adapters.OHLCV (Some "date") (map fst kept) (map snd kept).

Lemma combine_fst_snd {A B} (l : list (A * B)) :
  combine (map fst l) (map snd l) = l.
Proof.
  induction l as [|[a b] r IH]; simpl; [reflexivity|]. rewrite IH. reflexivity.
Qed.

Lemma rows_of_candles (all : list candle) :
  combine (map timestamp all) (map (fun c => snd (row_of c)) all)
  = map row_of all.
Proof.
  induction all as [|c r IH]; [reflexivity|].
  cbn [map combine]. rewrite IH. reflexivity.
Qed.

(** [fetch], once the interval is accepted and the dates are parsed: the
    loop runs, and its final variables decide the outcome. *)
Lemma fetch_run (pd : api) (self : CCXTDataSource)
      (symbol start end_ interval timeframe : string) (since until : Z)
      (tr : trace) :
  Dict.get interval INTERVAL_MAP = Some timeframe ->
  timeframe_refused self timeframe = false ->
  to_datetime pd start = Some since ->
  to_datetime pd end_ = Some until ->
  fetch pd self symbol start end_ interval tr
  = match while_loop (Z.to_nat max_iterations) self symbol timeframe until
                     (Loop since 0 []) tr with
    | (inl e, tr') => (inl e, tr')
    | (inr None, tr') =>
        (inl (Exn OtherError "the pagination loop is still running"), tr')
    | (inr (Some s), tr') =>
        if iteration s >=? max_iterations
        then (inl (Exn RuntimeError exhausted), tr')
        else
          match all_ohlcv s with
          | [] =>
              (inl (Exn RuntimeError
                        ("No data found for " ++ symbol ++ " on "
                         ++ exchange_id self ++ " between " ++ start
                         ++ " and " ++ end_)), tr')
          | _ :: _ => (inr (frame_of pd since until (all_ohlcv s)), tr')
          end
    end.
Proof.
  intros Hi Ht Hs He. unfold fetch. rewrite Hi.
  unfold timeframe_refused in Ht.
  assert (Check :
            (match timeframes (the_exchange self) with
             | Some tfs =>
                 if negb (PyStr.mem timeframe tfs)
                 then raise ValueError
                            ("Timeframe '" ++ timeframe ++ "' not supported by "
                             ++ exchange_id self ++ ". Available timeframes: "
                             ++ PyStr.join ", " (sorted_str tfs))
                 else ret tt
             | None => ret tt
             end) = ret tt).
  { destruct (timeframes (the_exchange self)); [rewrite Ht|]; reflexivity. }
  rewrite Check. unfold bind, ret, lift, parse. rewrite Hs, He. cbn [ok].
  destruct (while_loop (Z.to_nat max_iterations) self symbol timeframe until
                       (Loop since 0 []) tr) as [[e|[s|]] tr']; try reflexivity.
  destruct (iteration s >=? max_iterations); [reflexivity|].
  destruct (all_ohlcv s) as [|c r] eqn:A; [reflexivity|].
  rewrite <- A. unfold raise. f_equal. f_equal.
  unfold frame_of, finish, with_rows, lower_columns, rows.
  cbn [columns index_name index cells].
  rewrite rows_of_candles, !combine_fst_snd. reflexivity.
Qed.

(** C4. The pagination loop of the crypto adapter ends for every exchange,
    i.e. for every sequence of upstream pages and errors: started with the
    iteration counter at 0 and fuel for 1000 passes, it never runs out of
    fuel, and it makes at most 1000 requests. When it ends without an
    exception, the cursor has reached or passed the target end, or the
    last page came back empty, or the counter stands at the cap of 1000.
    [fetch] therefore always comes to a result; when the loop ends with
    the counter at the cap, [fetch] raises the exhaustion error; and this
    is what happens, after exactly 1000 requests, when every page leaves
    the cursor before the target end.

    How the loop stops, pass by pass. With the cursor at or after the
    target end, or the counter at the cap, the loop is left without a
    request. Otherwise one request is made at the cursor: an empty page
    ends the loop there, with the variables unchanged; a page with
    candles is appended and moves the cursor to the timestamp of its last
    candle plus one; the loop ends there when the new cursor has reached
    or passed the target end, and else goes on with the next request at
    the new cursor and the counter raised by one. For [fetch]: a first
    page that is empty gives the "No data found" error after that one
    request, and a first page that reaches the target end gives the frame
    of its candles after that one request. *)
Theorem pagination_terminates :
  (forall (self : CCXTDataSource) (symbol timeframe : string)
          (since until : Z) (tr : trace),
      exists r tr',
        while_loop (Z.to_nat max_iterations) self symbol timeframe until
                   (Loop since 0 []) tr = (r, tr')
        /\ r <> inr None
        /\ (requests tr' <= requests tr + 1000)%nat
        /\ (forall s, r = inr (Some s) ->
                      stopped (the_exchange self) symbol timeframe until s tr'))
  /\ (forall (pd : api) (self : CCXTDataSource)
             (symbol start end_ interval : string) (tr : trace),
         fst (fetch pd self symbol start end_ interval tr)
         <> inl (Exn OtherError "the pagination loop is still running"))
  /\ (forall (pd : api) (self : CCXTDataSource)
             (symbol start end_ interval timeframe : string) (since until : Z)
             (tr tr' : trace) (s : loop_state),
         Dict.get interval INTERVAL_MAP = Some timeframe ->
         timeframe_refused self timeframe = false ->
         to_datetime pd start = Some since ->
         to_datetime pd end_ = Some until ->
         while_loop (Z.to_nat max_iterations) self symbol timeframe until
                    (Loop since 0 []) tr = (inr (Some s), tr') ->
         iteration s = max_iterations ->
         fetch pd self symbol start end_ interval tr
         = (inl (Exn RuntimeError exhausted), tr'))
  /\ (forall (pd : api) (self : CCXTDataSource)
             (symbol start end_ interval timeframe : string) (since until : Z)
             (tr : trace),
         Dict.get interval INTERVAL_MAP = Some timeframe ->
         timeframe_refused self timeframe = false ->
         to_datetime pd start = Some since ->
         to_datetime pd end_ = Some until ->
         since < until ->
         never_reaches (the_exchange self) until ->
         exists tr',
           fetch pd self symbol start end_ interval tr
           = (inl (Exn RuntimeError exhausted), tr')
           /\ requests tr' = (requests tr + 1000)%nat)
  /\ (forall (self : CCXTDataSource) (symbol timeframe : string) (until : Z)
             (fuel : nat) (s : loop_state) (tr : trace),
         until <= current_since s \/ max_iterations <= iteration s ->
         while_loop fuel self symbol timeframe until s tr
         = (inr (Some s), tr))
  /\ (forall (self : CCXTDataSource) (symbol timeframe : string) (until : Z)
             (fuel : nat) (s : loop_state) (tr : trace),
         current_since s < until -> iteration s < max_iterations ->
         fetch_ohlcv (the_exchange self) (flat_map as_request tr)
                     (symbol, timeframe, current_since s, 1000) = Page [] ->
         while_loop (S fuel) self symbol timeframe until s tr
         = (inr (Some s),
            (tr ++ [EvFetchOhlcv symbol timeframe (current_since s) 1000])%list))
  /\ (forall (self : CCXTDataSource) (symbol timeframe : string) (until : Z)
             (fuel : nat) (s : loop_state) (tr : trace)
             (c0 : candle) (rest : list candle),
         current_since s < until -> iteration s < max_iterations ->
         fetch_ohlcv (the_exchange self) (flat_map as_request tr)
                     (symbol, timeframe, current_since s, 1000)
         = Page (c0 :: rest) ->
         let cursor := timestamp (last (c0 :: rest) c0) + 1 in
         let all := (all_ohlcv s ++ c0 :: rest)%list in
         let tr1 :=
           (tr ++ [EvFetchOhlcv symbol timeframe (current_since s) 1000])%list in
         (until <= cursor ->
          while_loop (S fuel) self symbol timeframe until s tr
          = (inr (Some (Loop cursor (iteration s) all)), tr1))
         /\ (cursor < until ->
             while_loop (S fuel) self symbol timeframe until s tr
             = while_loop fuel self symbol timeframe until
                          (Loop cursor (iteration s + 1) all) tr1))
  /\ (forall (pd : api) (self : CCXTDataSource)
             (symbol start end_ interval timeframe : string) (since until : Z)
             (tr : trace),
         Dict.get interval INTERVAL_MAP = Some timeframe ->
         timeframe_refused self timeframe = false ->
         to_datetime pd start = Some since ->
         to_datetime pd end_ = Some until ->
         since < until ->
         let tr1 := (tr ++ [EvFetchOhlcv symbol timeframe since 1000])%list in
         (fetch_ohlcv (the_exchange self) (flat_map as_request tr)
                      (symbol, timeframe, since, 1000) = Page [] ->
          fetch pd self symbol start end_ interval tr
          = (inl (Exn RuntimeError
                      ("No data found for " ++ symbol ++ " on "
                       ++ exchange_id self ++ " between " ++ start
                       ++ " and " ++ end_)), tr1))
         /\ (forall (c0 : candle) (rest : list candle),
                fetch_ohlcv (the_exchange self) (flat_map as_request tr)
                            (symbol, timeframe, since, 1000)
                = Page (c0 :: rest) ->
                until <= timestamp (last (c0 :: rest) c0) + 1 ->
                fetch pd self symbol start end_ interval tr
                = (inr (frame_of pd since until (c0 :: rest)), tr1))).
Proof.
  assert (A : forall (self : CCXTDataSource) (symbol timeframe : string)
                     (since until : Z) (tr : trace),
             exists r tr',
               while_loop (Z.to_nat max_iterations) self symbol timeframe until
                          (Loop since 0 []) tr = (r, tr')
               /\ r <> inr None
               /\ (requests tr' <= requests tr + 1000)%nat
               /\ (forall s, r = inr (Some s) ->
                             stopped (the_exchange self) symbol timeframe
                                     until s tr')).
  { intros self symbol timeframe since until tr.
    destruct (while_loop_enough_fuel self symbol timeframe until
                (Z.to_nat max_iterations) (Loop since 0 []) tr)
      as (r & tr' & E & N & Q & P).
    - cbn [iteration]. unfold max_iterations. lia.
    - cbn [iteration]. unfold max_iterations. lia.
    - exists r, tr'. split; [exact E|]. split; [exact N|].
      split; [cbn [iteration] in Q; unfold max_iterations in Q; lia|].
      intros s Hs. exact (proj2 (P s Hs)). }
  split; [exact A|]. split; [|split; [|split; [|split; [|split; [|split]]]]].
  - intros pd self symbol start end_ interval tr.
    destruct (Dict.get interval INTERVAL_MAP) as [timeframe|] eqn:Hi.
    2:{ unfold fetch. rewrite Hi. cbn. discriminate. }
    destruct (timeframe_refused self timeframe) eqn:Ht.
    { unfold fetch. rewrite Hi. unfold timeframe_refused in Ht.
      destruct (timeframes (the_exchange self)) as [tfs|]; [|discriminate].
      rewrite Ht. cbn. discriminate. }
    destruct (to_datetime pd start) as [since|] eqn:Hs.
    2:{ unfold fetch. rewrite Hi. unfold timeframe_refused in Ht.
        unfold bind, lift, parse. rewrite Hs.
        destruct (timeframes (the_exchange self)) as [tfs|];
          [rewrite Ht|]; cbn; discriminate. }
    destruct (to_datetime pd end_) as [until|] eqn:He.
    2:{ unfold fetch. rewrite Hi. unfold timeframe_refused in Ht.
        unfold bind, lift, parse. rewrite Hs, He.
        destruct (timeframes (the_exchange self)) as [tfs|];
          [rewrite Ht|]; cbn; discriminate. }
    rewrite (fetch_run pd self symbol start end_ interval timeframe since until
                       tr Hi Ht Hs He).
    destruct (A self symbol timeframe since until tr) as (r & tr' & E & N & _).
    rewrite E. destruct r as [e|[s|]]; [| |contradiction N; reflexivity].
    + cbn [fst]. intros [= K]. 
      (* an exception of the loop body is a RuntimeError *)
      revert E. subst e. clear. intros E. exfalso.
      revert E. generalize (Loop since 0 []). generalize tr.
      induction (Z.to_nat max_iterations) as [|fuel IH]; intros tr0 s0;
        cbn [while_loop]; destruct (loop_condition until s0);
        try discriminate.
      unfold bind at 1. rewrite loop_body_run. cbv zeta.
      destruct (fetch_ohlcv (the_exchange self) (flat_map as_request tr0)
                            (symbol, timeframe, current_since s0, 1000))
        as [[|c0 rest]|msg|msg|msg]; try discriminate.
      destruct (timestamp (last (c0 :: rest) c0) + 1 >=? until);
        [discriminate|]. apply IH.
    + destruct (iteration s >=? max_iterations); [cbn; discriminate|].
      destruct (all_ohlcv s); cbn; discriminate.
  - intros pd self symbol start end_ interval timeframe since until tr tr' s
           Hi Ht Hs He E I.
    rewrite (fetch_run pd self symbol start end_ interval timeframe since until
                       tr Hi Ht Hs He), E, I.
    reflexivity.
  - intros pd self symbol start end_ interval timeframe since until tr
           Hi Ht Hs He Lt Never.
    destruct (while_loop_never_reaches self symbol timeframe until Never
                1000%nat (Z.to_nat max_iterations) (Loop since 0 []) tr)
      as (s & tr' & E & I & Q).
    + exact Lt.
    + reflexivity.
    + unfold max_iterations. lia.
    + exists tr'. split; [|exact Q].
      rewrite (fetch_run pd self symbol start end_ interval timeframe since
                         until tr Hi Ht Hs He), E, I.
      reflexivity.
  - exact while_loop_left.
  - exact while_loop_empty_page.
  - exact while_loop_page.
  - intros pd self symbol start end_ interval timeframe since until tr
           Hi Ht Hs He Lt tr1.
    assert (I0 : iteration (Loop since 0 []) < max_iterations)
      by (cbn [iteration]; unfold max_iterations; lia).
    rewrite (fetch_run pd self symbol start end_ interval timeframe since until
                       tr Hi Ht Hs He).
    change (Z.to_nat max_iterations) with (S 999).
    split.
    + intros Reply.
      rewrite (while_loop_empty_page self symbol timeframe until 999
                 (Loop since 0 []) tr Lt I0 Reply).
      reflexivity.
    + intros c0 rest Reply G.
      rewrite (proj1 (while_loop_page self symbol timeframe until 999
                        (Loop since 0 []) tr c0 rest Lt I0 Reply) G).
      reflexivity.
Qed.

End FetchFacts.

(** ** Range filter, sort and de-duplication *)

Section SeriesFacts.
Import Effects Pandas CCXT.

Context {R : Type}.

Local Abbreviation key_le := (fun a b : Z * R => fst a <= fst b).
Local Abbreviation key_lt := (fun a b : Z * R => fst a < fst b).

Lemma seen_spec (k : Z) (seen : list Z) :
  existsb (Z.eqb k) seen = true <-> In k seen.
Proof.
  rewrite existsb_exists. split.
  - intros (x & I & E). apply Z.eqb_eq in E. subst x. exact I.
  - intros I. exists k. split; [exact I|apply Z.eqb_refl].
Qed.

(** A row that is kept was there, and its index value was not seen. *)
Lemma drop_duplicated_In (l : list (Z * R)) :
  forall seen r,
    In r (drop_duplicated seen l) -> In r l /\ ~ In (fst r) seen.
Proof.
  induction l as [|x rest IH]; intros seen r; simpl; [contradiction|].
  destruct (existsb (Z.eqb (fst x)) seen) eqn:E.
  - intros I. destruct (IH _ _ I) as [I' N]. auto.
  - intros [<-|I].
    + split; [auto|]. intros I. apply seen_spec in I. congruence.
    + destruct (IH _ _ I) as [I' N]. split; [auto|].
      intros K. apply N. right. exact K.
Qed.

(** Every index value that was not seen keeps a row. *)
Lemma drop_duplicated_complete (l : list (Z * R)) :
  forall seen r,
    In r l -> ~ In (fst r) seen ->
    exists r', In r' (drop_duplicated seen l) /\ fst r' = fst r.
Proof.
  induction l as [|x rest IH]; intros seen r; simpl; [contradiction|].
  intros I N. destruct (existsb (Z.eqb (fst x)) seen) eqn:E.
  - destruct I as [->|I]; [apply seen_spec in E; contradiction|].
    apply IH; assumption.
  - destruct (Z.eq_dec (fst x) (fst r)) as [Q|Q].
    + exists x. split; [left; reflexivity|exact Q].
    + destruct I as [->|I]; [contradiction Q; reflexivity|].
      destruct (IH (fst x :: seen) r I) as (r' & I' & E').
      * intros [K|K]; [exact (Q K)|exact (N K)].
      * exists r'. split; [right; exact I'|exact E'].
Qed.

(** The row kept for an index value is the first row with that value. *)
Lemma drop_duplicated_first (l : list (Z * R)) :
  forall seen r,
    In r (drop_duplicated seen l) ->
    find (fun x => fst x =? fst r) l = Some r.
Proof.
  induction l as [|x rest IH]; intros seen r; simpl; [contradiction|].
  destruct (existsb (Z.eqb (fst x)) seen) eqn:E.
  - intros I. destruct (drop_duplicated_In _ _ _ I) as [_ N].
    destruct (Z.eqb_spec (fst x) (fst r)) as [Q|Q].
    + apply seen_spec in E. rewrite Q in E. contradiction.
    + exact (IH _ _ I).
  - intros [<-|I].
    + rewrite Z.eqb_refl. reflexivity.
    + destruct (drop_duplicated_In _ _ _ I) as [_ N].
      destruct (Z.eqb_spec (fst x) (fst r)) as [Q|Q].
      * exfalso. apply N. left. exact Q.
      * exact (IH _ _ I).
Qed.

(** Dropping the duplicates of an ascending frame leaves a strictly
    ascending one. *)
Lemma drop_duplicated_strict (l : list (Z * R)) :
  StronglySorted key_le l ->
  forall seen, StronglySorted key_lt (drop_duplicated seen l).
Proof.
  induction 1 as [|x rest S IH F]; intros seen; simpl; [constructor|].
  destruct (existsb (Z.eqb (fst x)) seen); [apply IH|].
  constructor; [apply IH|].
  apply Forall_forall. intros r I.
  destruct (drop_duplicated_In _ _ _ I) as [I' N].
  rewrite Forall_forall in F. specialize (F r I').
  assert (fst x <> fst r) by (intros Q; apply N; left; exact Q).
  simpl in F. lia.
Qed.

Lemma key_le_transitive : Relations_1.Transitive key_le.
Proof. intros a b c. simpl. lia. Qed.

Lemma in_range_In (start_ end_ : Z) (l : list (Z * R)) (r : Z * R) :
  In r (in_range start_ end_ l) <-> In r l /\ start_ <= fst r <= end_.
Proof.
  unfold in_range. rewrite filter_In, andb_true_iff, !Z.leb_le. tauto.
Qed.

Lemma strict_index (l : list (Z * R)) :
  StronglySorted key_lt l -> StronglySorted Z.lt (map fst l).
Proof.
  induction 1 as [|x rest S IH F]; simpl; constructor; [exact IH|].
  apply Forall_forall. intros k I. apply in_map_iff in I.
  destruct I as (r & <- & I). rewrite Forall_forall in F. exact (F r I).
Qed.

(** What [finish] leaves of the rows [l], for any [sort_index] that
    sorts. *)
Lemma finish_spec (pd : api) (start_ end_ : Z) (l : list (Z * R)) :
  sorts pd ->
  let kept := finish pd start_ end_ l in
  StronglySorted Z.lt (map fst kept)
  /\ (forall r, In r kept -> In r l /\ start_ <= fst r <= end_)
  /\ (forall r, In r l -> start_ <= fst r <= end_ ->
                exists r', In r' kept /\ fst r' = fst r)
  /\ (forall r, In r kept ->
                find (fun x => fst x =? fst r)
                     (sort_index pd R (in_range start_ end_ l))
                = Some r).
Proof.
  intros Hsort kept. subst kept. unfold finish.
  destruct (Hsort R (in_range start_ end_ l)) as [P S].
  apply (Sorted_StronglySorted key_le_transitive) in S.
  split; [apply strict_index, drop_duplicated_strict; exact S|].
  split; [|split].
  - intros r I. destruct (drop_duplicated_In _ _ _ I) as [I' _].
    apply (Permutation_in _ (Permutation_sym P)) in I'.
    apply in_range_In in I'. exact I'.
  - intros r I B.
    apply drop_duplicated_complete; [|intros []].
    apply (Permutation_in _ P). apply in_range_In. auto.
  - intros r I. exact (drop_duplicated_first _ _ _ I).
Qed.

(** A [sort_index] that leaves rows with equal index values in their
    order. *)
Definition stable (pd : api) : Prop :=
  forall (T : Type) (l : list (Z * T)) (k : Z),
    filter (fun x => fst x =? k) (sort_index pd T l)
    = filter (fun x => fst x =? k) l.

Lemma find_filter {A} (p : A -> bool) (l : list A) :
  find p l = hd_error (filter p l).
Proof.
  induction l as [|x r IH]; simpl; [reflexivity|].
  destruct (p x); [reflexivity|exact IH].
Qed.

Lemma filter_in_range (start_ end_ k : Z) (l : list (Z * R)) :
  start_ <= k <= end_ ->
  filter (fun x => fst x =? k) (in_range start_ end_ l)
  = filter (fun x => fst x =? k) l.
Proof.
  intros B. unfold in_range. induction l as [|x r IH]; simpl; [reflexivity|].
  destruct (Z.eqb_spec (fst x) k) as [E|E].
  - assert (I : (start_ <=? fst x) && (fst x <=? end_) = true).
    { apply andb_true_iff. rewrite !Z.leb_le. lia. }
    rewrite I. simpl. destruct (Z.eqb_spec (fst x) k); [|contradiction].
    rewrite IH. reflexivity.
  - destruct ((start_ <=? fst x) && (fst x <=? end_)); simpl;
      [destruct (Z.eqb_spec (fst x) k); [contradiction|]|]; exact IH.
Qed.

(** With a stable sort, the row kept for a timestamp is the first row with
    that timestamp among the rows given. *)
Lemma finish_first_stable (pd : api) (start_ end_ : Z) (l : list (Z * R)) :
  sorts pd -> stable pd ->
  forall r, In r (finish pd start_ end_ l) ->
            find (fun x => fst x =? fst r) l = Some r.
Proof.
  intros Hsort Hstable r I.
  destruct (finish_spec pd start_ end_ l Hsort) as (_ & S2 & _ & S4).
  rewrite <- (S4 r I), !find_filter, Hstable.
  rewrite filter_in_range; [reflexivity|]. exact (proj2 (S2 r I)).
Qed.

End SeriesFacts.

Section SortFacts.
Import Pandas.

Context {R : Type}.

Lemma insert_row_perm (x : Z * R) (l : list (Z * R)) :
  Permutation (x :: l) (insert_row x l).
Proof.
  induction l as [|y r IH]; simpl; [apply Permutation_refl|].
  destruct (fst x <=? fst y); [apply Permutation_refl|].
  eapply Permutation_trans; [apply perm_swap|].
  apply perm_skip. exact IH.
Qed.

Lemma insert_row_sorted (x : Z * R) (l : list (Z * R)) :
  Sorted (fun a b => fst a <= fst b) l ->
  Sorted (fun a b => fst a <= fst b) (insert_row x l).
Proof.
  induction 1 as [|y r S IH H]; simpl.
  - repeat constructor.
  - destruct (Z.leb_spec (fst x) (fst y)) as [L|L].
    + constructor; [constructor; assumption|]. constructor. simpl. lia.
    + constructor; [exact IH|].
      destruct r as [|z r']; simpl.
      * constructor. simpl. lia.
      * destruct (Z.leb_spec (fst x) (fst z)); constructor; simpl;
          [lia|]. inversion H. assumption.
Qed.

End SortFacts.

(** The sort of the reference instance sorts. *)
Lemma reference_sorts : Pandas.sorts Pandas.reference.
Proof.
  intros T l. simpl. induction l as [|x r [P S]]; simpl.
  - split; constructor.
  - split.
    + eapply Permutation_trans; [apply perm_skip; exact P|].
      apply insert_row_perm.
    + apply insert_row_sorted. exact S.
Qed.

Lemma insert_row_filter {T} (k : Z) (x : Z * T) (l : list (Z * T)) :
  filter (fun y => fst y =? k) (Pandas.insert_row x l)
  = filter (fun y => fst y =? k) (x :: l).
Proof.
  induction l as [|y r IH]; [reflexivity|].
  cbn [Pandas.insert_row]. destruct (Z.leb_spec (fst x) (fst y)) as [L|L];
    [reflexivity|].
  cbn [filter] in *. rewrite IH.
  destruct (Z.eqb_spec (fst x) k) as [E|E]; [|reflexivity].
  destruct (Z.eqb_spec (fst y) k) as [E'|E']; [lia|reflexivity].
Qed.

(** The sort of the reference instance is stable. *)
Lemma reference_stable : stable Pandas.reference.
Proof.
  intros T l k. simpl. induction l as [|x r IH]; [reflexivity|].
  cbn [Pandas.insertion_sort]. rewrite insert_row_filter.
  cbn [filter]. rewrite IH. reflexivity.
Qed.

Section SeriesClaim.
Import Effects Pandas CCXT.

(** C5. Whenever the crypto adapter returns a frame, the loop has ended
    with some accumulated list of candles (the pages it received, one after
    the other), and the rows of the frame are exactly the candles of that
    list whose timestamps lie between the start and the end instant, both
    included: every row is such a candle, every such timestamp has a row;
    the index is strictly ascending, so no timestamp occurs twice; and the
    row kept for a timestamp is the first one with that timestamp in the
    sorted frame. This holds for any [sort_index] that sorts; when the sort
    is also stable, the row kept is the first candle with that timestamp in
    the accumulated list. *)
Theorem fetched_series_filtered_sorted_deduplicated :
  forall (pd : api) (self : CCXTDataSource)
         (symbol start end_ interval : string) (since until : Z)
         (tr tr' : trace) (df : DataFrame),
    sorts pd ->
    to_datetime pd start = Some since ->
    to_datetime pd end_ = Some until ->
    fetch pd self symbol start end_ interval tr = (inr df, tr') ->
    exists (timeframe : string) (s : loop_state),
      while_loop (Z.to_nat max_iterations) self symbol timeframe until
                 (Loop since 0 []) tr = (inr (Some s), tr')
      /\ StronglySorted Z.lt (index df)
      /\ (forall r, In r (rows df) ->
                    exists c, In c (all_ohlcv s) /\ r = row_of c
                              /\ since <= timestamp c <= until)
      /\ (forall c, In c (all_ohlcv s) -> since <= timestamp c <= until ->
                    exists r, In r (rows df) /\ fst r = timestamp c)
      /\ (forall r, In r (rows df) ->
                    find (fun x => fst x =? fst r)
                         (sort_index pd _
                            (in_range since until (map row_of (all_ohlcv s))))
                    = Some r)
      /\ (stable pd ->
          forall r, In r (rows df) ->
                    find (fun x => fst x =? fst r) (map row_of (all_ohlcv s))
                    = Some r).
Proof.
  intros pd self symbol start end_ interval since until tr tr' df
         Hsort Hs He Hf.
  destruct (Dict.get interval INTERVAL_MAP) as [timeframe|] eqn:Hi.
  2:{ unfold fetch in Hf. rewrite Hi in Hf. discriminate Hf. }
  destruct (timeframe_refused self timeframe) eqn:Ht.
  { unfold fetch in Hf. rewrite Hi in Hf. unfold timeframe_refused in Ht.
    destruct (timeframes (the_exchange self)) as [tfs|]; [|discriminate].
    rewrite Ht in Hf. discriminate Hf. }
  rewrite (fetch_run pd self symbol start end_ interval timeframe since until
                     tr Hi Ht Hs He) in Hf.
  destruct (while_loop (Z.to_nat max_iterations) self symbol timeframe until
                       (Loop since 0 []) tr) as [[e|[s|]] tr0] eqn:W;
    try discriminate Hf.
  destruct (iteration s >=? max_iterations); [discriminate Hf|].
  destruct (all_ohlcv s) as [|c0 rest] eqn:A; [discriminate Hf|].
  rewrite <- A in *. injection Hf as <- <-.
  exists timeframe, s. split; [exact W|].
  destruct (finish_spec pd since until (map row_of (all_ohlcv s)) Hsort)
    as (S1 & S2 & S3 & S4).
  assert (Rows : rows (frame_of pd since until (all_ohlcv s))
                 = finish pd since until (map row_of (all_ohlcv s))).
  { unfold frame_of, rows. cbn [index cells]. apply combine_fst_snd. }
  rewrite Rows. split; [exact S1|]. split; [|split].
  - intros r I. destruct (S2 r I) as [I' B].
    apply in_map_iff in I'. destruct I' as (c & <- & Ic).
    exists c. auto.
  - intros c I B. apply (S3 (row_of c)); [|exact B].
    apply in_map. exact I.
  - split; [exact S4|].
    intros Hstable r I.
    apply (finish_first_stable pd since until _ Hsort Hstable r I).
Qed.

End SeriesClaim.

(** Two pages and then an empty one: a candle before the range and the
    first of January, then the first of January again and the second. *)
Definition dec31 : CCXT.candle := CCXT.Candle 1703980800000 41000 41500 40800 41300 100.
Definition jan01 : CCXT.candle := CCXT.Candle 1704067200000 42000 42500 41800 42300 (1005 # 10).
Definition jan01_again : CCXT.candle := CCXT.Candle 1704067200000 42100 42600 41900 42400 (1015 # 10).
Definition jan02 : CCXT.candle := CCXT.Candle 1704153600000 42300 42800 42100 42600 (953 # 10).

Definition paged_exchange : CCXT.exchange :=
  CCXT.Exchange
    (Some ["1h"; "1d"])
    (fun hist _ =>
       nth (List.length hist)
           [CCXT.Page [dec31; jan01]; CCXT.Page [jan01_again; jan02]]
           (CCXT.Page [])).

(** An exchange that answers every request with the same candle. *)
Definition stuck_exchange : CCXT.exchange :=
  CCXT.Exchange None (fun _ _ => CCXT.Page [jan01]).

Lemma fetched_series_filtered_sorted_deduplicated_witness :
  Pandas.sorts Pandas.reference
  /\ exists df tr',
      CCXT.fetch Pandas.reference (CCXT.Source "binance" paged_exchange)
                 "BTC/USDT" "2024-01-01" "2024-01-03" "1d" []
      = (inr df, tr')
      /\ Pandas.rows df = [CCXT.row_of jan01; CCXT.row_of jan02]
      /\ requests tr' = 3%nat
      /\ StronglySorted Z.lt (Pandas.index df).
Proof.
  split; [exact reference_sorts|].
  eexists _, _. split; [vm_compute; reflexivity|].
  split; [reflexivity|]. split; [reflexivity|].
  destruct (fetched_series_filtered_sorted_deduplicated
              Pandas.reference (CCXT.Source "binance" paged_exchange)
              "BTC/USDT" "2024-01-01" "2024-01-03" "1d"
              1704067200000 1704240000000 [] _ _
              reference_sorts eq_refl eq_refl eq_refl)
    as (timeframe & s & _ & Sorted_index & _).
  exact Sorted_index.
Defined.

(** An exchange that has no candles. *)
Definition bare_exchange : CCXT.exchange :=
  CCXT.Exchange None (fun _ _ => CCXT.Page []).

Lemma pagination_terminates_witness :
  Dict.get "1d" CCXT.INTERVAL_MAP = Some "1d"
  /\ 1704067200000 < 1704412800000
  /\ never_reaches stuck_exchange 1704412800000
  /\ (exists tr',
         CCXT.fetch Pandas.reference (CCXT.Source "binance" stuck_exchange)
                    "BTC/USDT" "2024-01-01" "2024-01-05" "1d" []
         = (inl (Exn RuntimeError CCXT.exhausted), tr')
         /\ requests tr' = 1000%nat)
  /\ CCXT.fetch Pandas.reference (CCXT.Source "binance" bare_exchange)
                "BTC/USDT" "2024-01-01" "2024-01-05" "1d" []
     = (inl (Exn RuntimeError
                 "No data found for BTC/USDT on binance between 2024-01-01 and 2024-01-05"),
        [Effects.EvFetchOhlcv "BTC/USDT" "1d" 1704067200000 1000]).
Proof.
  assert (Never : never_reaches stuck_exchange 1704412800000).
  { intros hist req. exists jan01, []. split; [reflexivity|]. simpl. lia. }
  split; [reflexivity|]. split; [lia|]. split; [exact Never|]. split.
  - apply (proj1 (proj2 (proj2 (proj2 pagination_terminates)))
                 Pandas.reference (CCXT.Source "binance" stuck_exchange)
                 "BTC/USDT" "2024-01-01" "2024-01-05" "1d" "1d"
                 1704067200000 1704412800000 []);
      [reflexivity|reflexivity|reflexivity|reflexivity|lia|exact Never].
  - pose proof (proj2 (proj2 (proj2 (proj2 (proj2 (proj2 (proj2
                  pagination_terminates))))))
                  Pandas.reference (CCXT.Source "binance" bare_exchange)
                  "BTC/USDT" "2024-01-01" "2024-01-05" "1d" "1d"
                  1704067200000 1704412800000 []
                  eq_refl eq_refl eq_refl eq_refl ltac:(lia)) as H.
    cbv zeta in H. destruct H as [Empty _]. apply Empty. reflexivity.
Defined.

(** ** The trace monad *)

Section EffectsFacts.
Import Effects.

Context {A B : Type}.

Lemma bind_inr (c : M A) (f : A -> M B) (tr tr' : trace) (b : B) :
  bind c f tr = (inr b, tr') ->
  exists a tr1, c tr = (inr a, tr1) /\ f a tr1 = (inr b, tr').
Proof.
  unfold bind. destruct (c tr) as [[e|a] tr1]; [discriminate|].
  intros H. exists a, tr1. auto.
Qed.

Lemma bind_inl (c : M A) (f : A -> M B) (tr tr' : trace) (e : exn) :
  bind c f tr = (inl e, tr') ->
  c tr = (inl e, tr')
  \/ exists a tr1, c tr = (inr a, tr1) /\ f a tr1 = (inl e, tr').
Proof.
  unfold bind. destruct (c tr) as [[e0|a] tr1].
  - intros [= -> ->]. left. reflexivity.
  - intros H. right. exists a, tr1. auto.
Qed.

Lemma lift_inr (r : result A) (tr tr' : trace) (a : A) :
  lift r tr = (inr a, tr') -> r = inr a /\ tr' = tr.
Proof. unfold lift. intros [= -> ->]. auto. Qed.

Lemma ret_inr (x a : A) (tr tr' : trace) :
  ret x tr = (inr a, tr') -> a = x /\ tr' = tr.
Proof. unfold ret. intros [= -> ->]. auto. Qed.

Lemma bind_run (c : M A) (f : A -> M B) (tr tr1 : trace) (a : A) :
  c tr = (inr a, tr1) -> bind c f tr = f a tr1.
Proof. unfold bind. intros ->. reflexivity. Qed.

Lemma bind_raise (c : M A) (f : A -> M B) (tr tr1 : trace) (e : exn) :
  c tr = (inl e, tr1) -> bind c f tr = (inl e, tr1).
Proof. unfold bind. intros ->. reflexivity. Qed.

End EffectsFacts.

(** Inversion of a run that returned: one hypothesis per step. *)
Ltac monad_inv H :=
  repeat
    match type of H with
    | Effects.bind _ _ _ = (inr _, _) =>
        let a := fresh "a" in
        let tr1 := fresh "tr" in
        let Hstep := fresh "Step" in
        apply bind_inr in H; destruct H as (a & tr1 & Hstep & H);
        try (apply lift_inr in Hstep; destruct Hstep as [Hstep ->])
    | Effects.lift _ _ = (inr _, _) =>
        let E := fresh "E" in
        apply lift_inr in H; destruct H as [H E]; subst
    | Effects.ret _ _ = (inr _, _) =>
        let E := fresh "E" in
        apply ret_inr in H; destruct H as [H E]; subst
    | Effects.raise _ _ _ = (inr _, _) => discriminate H
    | (if ?b then _ else _) _ = (inr _, _) =>
        let C := fresh "C" in destruct b eqn:C
    end.

(** ** The shape of the frames the adapters return *)

Section FrameFacts.
Import Effects Pandas Adapters.

Lemma set_columns_inr (df df' : DataFrame) (labels : list string) :
  set_columns df labels = inr df' -> columns df' = labels.
Proof.
  unfold set_columns.
  destruct (Nat.eqb (List.length labels) (List.length (columns df)));
    [|discriminate].
  intros [= <-]. reflexivity.
Qed.

Lemma set_index_values_inr (df df' : DataFrame) (idx : list Z) :
  set_index_values df idx = inr df' ->
  columns df' = columns df /\ index df' = idx /\ cells df' = cells df.
Proof.
  unfold set_index_values.
  destruct (Nat.eqb (List.length idx) (List.length (cells df)));
    [|discriminate].
  intros [= <-]. auto.
Qed.

Lemma from_arrays_inr (df : DataFrame) (labels : list string)
      (arrays : list (list json)) :
  from_arrays labels arrays = inr df -> columns df = labels.
Proof.
  unfold from_arrays. destruct arrays as [|a r]; [intros [= <-]; reflexivity|].
  destruct (forallb _ r); [|discriminate].
  intros [= <-]. reflexivity.
Qed.

(** A frame polygon returns has the five columns and the index name. *)
Lemma polygon_shape (pd : api) (sess : session)
      (api_key symbol start end_ interval : string) (tr tr' : trace)
      (df : DataFrame) :
  polygon_fetch pd sess api_key symbol start end_ interval tr = (inr df, tr') ->
  columns df = OHLCV /\ index_name df = Some "date".
Proof.
  unfold polygon_fetch.
  destruct (match Dict.get interval polygon_interval_map with
            | Some p => p
            | None => ("day", 1)
            end) as [timespan multiplier].
  intros H. monad_inv H.
  apply set_columns_inr in Step6.
  apply set_index_values_inr in Step9. destruct Step9 as (K & _ & _).
  destruct (String.eqb interval "1d"); cbn [columns index_name set_index_name];
    split; try reflexivity; congruence.
Qed.

(** A frame finnhub returns has the five columns and the index name. *)
Lemma finnhub_shape (pd : api) (sess : session)
      (api_key symbol start end_ interval : string) (tr tr' : trace)
      (df : DataFrame) :
  finnhub_fetch pd sess api_key symbol start end_ interval tr = (inr df, tr') ->
  columns df = OHLCV /\ index_name df = Some "date".
Proof.
  unfold finnhub_fetch. intros H. monad_inv H.
  match goal with
  | K : from_arrays _ _ = inr _ |- _ => apply from_arrays_inr in K
  end.
  match goal with
  | K : set_index_values _ _ = inr _ |- _ =>
      apply set_index_values_inr in K; destruct K as (K & _ & _)
  end.
  destruct (String.eqb interval "1d"); cbn [columns index_name set_index_name];
    split; try reflexivity; congruence.
Qed.

(** A frame fmp returns has the five columns and the index name. *)
Lemma fmp_shape (pd : api) (sess : session)
      (api_key symbol start end_ interval : string) (tr tr' : trace)
      (df : DataFrame) :
  fmp_fetch pd sess api_key symbol start end_ interval tr = (inr df, tr') ->
  columns df = OHLCV /\ index_name df = Some "date".
Proof.
  unfold fmp_fetch. intros H.
  apply bind_inr in H. destruct H as ([url params] & tr0 & _ & H).
  monad_inv H.
  match goal with
  | K : set_columns _ _ = inr _ |- _ => apply set_columns_inr in K
  end.
  match goal with
  | K : set_index_values _ _ = inr _ |- _ =>
      apply set_index_values_inr in K; destruct K as (K & _ & _)
  end.
  cbn [columns index_name set_index_name with_rows].
  split; [congruence|reflexivity].
Qed.

(** A frame the crypto adapter returns has the five columns and the index
    name. *)
Lemma ccxt_shape (pd : api) (self : CCXT.CCXTDataSource)
      (symbol start end_ interval : string) (tr tr' : trace)
      (df : DataFrame) :
  CCXT.fetch pd self symbol start end_ interval tr = (inr df, tr') ->
  columns df = OHLCV /\ index_name df = Some "date".
Proof.
  unfold CCXT.fetch.
  destruct (Dict.get interval CCXT.INTERVAL_MAP) as [timeframe|];
    [|discriminate].
  intros H. monad_inv H.
  destruct a2 as [s|]; [|discriminate H].
  destruct (CCXT.iteration s >=? CCXT.max_iterations); [discriminate H|].
  destruct (CCXT.all_ohlcv s); [discriminate H|].
  apply ret_inr in H. destruct H as [-> _].
  split; reflexivity.
Qed.

(** The frame yfinance returns is the frame of the SDK with its column
    labels, and its index name when it has one, in lower case. *)
Lemma yfinance_shape (download : yf_download)
      (symbol start end_ interval : string) (tr tr' : trace) (df : DataFrame) :
  yfinance_fetch download symbol start end_ interval tr = (inr df, tr') ->
  exists upstream,
    download symbol start end_ interval = inr upstream
    /\ columns df = map PyStr.lower (columns upstream)
    /\ index_name df = option_map PyStr.lower (index_name upstream)
    /\ index df = index upstream
    /\ cells df = cells upstream.
Proof.
  unfold yfinance_fetch. intros H. monad_inv H.
  exists a. split; [assumption|].
  unfold lower_columns, set_index_name, PyStr.truthy. cbn [index_name].
  destruct (index_name a) as [[|c n]|]; cbn; auto.
Qed.

End FrameFacts.

(** A reply of polygon with one bar; the fields come in the order of the
    upstream, not of the frame. *)
Definition polygon_reply : Adapters.response :=
  Adapters.Response 200 ""
    (Some (Pandas.JObj
             [ ("ticker", Pandas.JStr "AAPL");
               ("results",
                Pandas.JArr
                  [Pandas.JObj
                     [ ("v", Pandas.JNum 82488700);
                       ("vw", Pandas.JNum (1860 # 10));
                       ("o", Pandas.JNum (18715 # 100));
                       ("c", Pandas.JNum (18564 # 100));
                       ("h", Pandas.JNum (18844 # 100));
                       ("l", Pandas.JNum (18373 # 100));
                       ("t", Pandas.JNum 1704171600000);
                       ("n", Pandas.JNum 1008871) ]]) ])).

Definition polygon_session : Adapters.session := fun _ _ => ok polygon_reply.

(** A frame as the Yahoo SDK returns it: capitalised labels in
    alphabetical order, and an index called "Date". *)
Definition yahoo_frame : Pandas.DataFrame :=
  Pandas.Frame
    ["Close"; "High"; "Low"; "Open"; "Volume"] (Some "Date")
    [1704153600000]
    [[ Some (Pandas.JNum (18564 # 100)); Some (Pandas.JNum (18844 # 100));
       Some (Pandas.JNum (18373 # 100)); Some (Pandas.JNum (18715 # 100));
       Some (Pandas.JNum 82488700) ]].

Definition yahoo_sdk : Adapters.yf_download := fun _ _ _ _ => ok yahoo_frame.

Section ShapeClaim.
Import Effects Pandas Adapters.

(** C2, as amended. Every frame that the polygon, finnhub, fmp and crypto
    adapters return has exactly the columns open, high, low, close, volume,
    in lower case and in that order, and the index name "date", whatever
    the names, the case and the order of the upstream fields are. The
    yfinance adapter returns the frame of the SDK with its column labels
    put in lower case, in the order of the SDK, and with its index name
    put in lower case when it has one. *)
Theorem adapter_frames_shape :
  (forall (pd : api) (sess : session)
          (api_key symbol start end_ interval : string) (tr tr' : trace)
          (df : DataFrame),
      polygon_fetch pd sess api_key symbol start end_ interval tr
      = (inr df, tr') ->
      columns df = OHLCV /\ index_name df = Some "date")
  /\ (forall (pd : api) (sess : session)
             (api_key symbol start end_ interval : string) (tr tr' : trace)
             (df : DataFrame),
         finnhub_fetch pd sess api_key symbol start end_ interval tr
         = (inr df, tr') ->
         columns df = OHLCV /\ index_name df = Some "date")
  /\ (forall (pd : api) (sess : session)
             (api_key symbol start end_ interval : string) (tr tr' : trace)
             (df : DataFrame),
         fmp_fetch pd sess api_key symbol start end_ interval tr
         = (inr df, tr') ->
         columns df = OHLCV /\ index_name df = Some "date")
  /\ (forall (pd : api) (self : CCXT.CCXTDataSource)
             (symbol start end_ interval : string) (tr tr' : trace)
             (df : DataFrame),
         CCXT.fetch pd self symbol start end_ interval tr = (inr df, tr') ->
         columns df = OHLCV /\ index_name df = Some "date")
  /\ (forall (download : yf_download)
             (symbol start end_ interval : string) (tr tr' : trace)
             (df : DataFrame),
         yfinance_fetch download symbol start end_ interval tr
         = (inr df, tr') ->
         exists upstream,
           download symbol start end_ interval = inr upstream
           /\ columns df = map PyStr.lower (columns upstream)
           /\ index_name df = option_map PyStr.lower (index_name upstream)
           /\ index df = index upstream
           /\ cells df = cells upstream).
Proof.
  split; [exact polygon_shape|]. split; [exact finnhub_shape|].
  split; [exact fmp_shape|]. split; [exact ccxt_shape|].
  exact yfinance_shape.
Qed.

End ShapeClaim.

Lemma adapter_frames_shape_witness :
  exists df tr',
    Adapters.polygon_fetch Pandas.reference polygon_session "KEY" "AAPL"
                           "2024-01-02" "2024-01-03" "1d" []
    = (inr df, tr')
    /\ Pandas.columns df = ["open"; "high"; "low"; "close"; "volume"]
    /\ Pandas.index_name df = Some "date".
Proof.
  eexists _, _. split; [vm_compute; reflexivity|].
  eapply (proj1 adapter_frames_shape
                Pandas.reference polygon_session "KEY" "AAPL"
                "2024-01-02" "2024-01-03" "1d" []).
  vm_compute. reflexivity.
Defined.

(** C2 as stated fails for the yfinance adapter: the labels Close, High,
    Low, Open, Volume of the SDK come back as close, high, low, open,
    volume, in the order of the SDK. *)
Lemma yfinance_keeps_upstream_order :
  exists df,
    Adapters.yfinance_fetch yahoo_sdk "AAPL" "2024-01-02" "2024-01-03" "1d" []
    = (inr df, [])
    /\ Pandas.columns df = ["close"; "high"; "low"; "open"; "volume"]
    /\ Pandas.columns df <> ["open"; "high"; "low"; "close"; "volume"].
Proof.
  eexists. split; [reflexivity|]. split; [reflexivity|]. discriminate.
Qed.

(** ** Intervals outside an adapter's vocabulary *)

Section IntervalFacts.
Import Effects Pandas Adapters.



Lemma get_absent {V} (k : string) (d : Dict.dict V) :
  ~ In k (Dict.keys d) -> Dict.get k d = None.
Proof.
  induction d as [|[k' v] r IH]; simpl; [reflexivity|].
  intros N. destruct (String.eqb_spec k k') as [->|Q].
  - exfalso. apply N. left. reflexivity.
  - apply IH. intros I. apply N. right. exact I.
Qed.








End IntervalFacts.



(** ** The orchestrator *)

Section RunSpec.
Import Effects Service.

(** Every run of [c] extends the trace by events that are not adapter
    activity, and its outcome satisfies [P]. *)
Definition run_spec {A} (c : M A) (P : result A -> Prop) : Prop :=
  forall tr,
    exists r ev,
      c tr = (r, (tr ++ ev)%list) /\ no_adapter_activity ev /\ P r.

Lemma quiet_nil : no_adapter_activity [].
Proof. reflexivity. Qed.

Lemma quiet_app (a b : trace) :
  no_adapter_activity a -> no_adapter_activity b ->
  no_adapter_activity (a ++ b)%list.
Proof.
  unfold no_adapter_activity. rewrite forallb_app. intros -> ->. reflexivity.
Qed.

Lemma quiet_not_in (ev : trace) (e : event) :
  no_adapter_activity ev -> is_adapter_event e = true -> ~ In e ev.
Proof.
  unfold no_adapter_activity. rewrite forallb_forall. intros Q A I.
  specialize (Q e I). rewrite A in Q. discriminate Q.
Qed.

Context {A B : Type}.

Lemma spec_ret (a : A) (P : result A -> Prop) :
  P (inr a) -> run_spec (ret a) P.
Proof.
  intros H tr. exists (inr a), []. rewrite app_nil_r.
  split; [reflexivity|]. split; [apply quiet_nil|exact H].
Qed.

Lemma spec_throw (e : exn) (P : result A -> Prop) :
  P (inl e) -> run_spec (throw e) P.
Proof.
  intros H tr. exists (inl e), []. rewrite app_nil_r.
  split; [reflexivity|]. split; [apply quiet_nil|exact H].
Qed.

Lemma spec_raise (k : exn_kind) (m : string) (P : result A -> Prop) :
  P (inl (Exn k m)) -> run_spec (raise k m) P.
Proof. apply spec_throw. Qed.

Lemma spec_lift (r : result A) (P : result A -> Prop) :
  P r -> run_spec (lift r) P.
Proof.
  intros H tr. exists r, []. rewrite app_nil_r.
  split; [reflexivity|]. split; [apply quiet_nil|exact H].
Qed.

Lemma spec_weaken (c : M A) (P Q : result A -> Prop) :
  run_spec c P -> (forall r, P r -> Q r) -> run_spec c Q.
Proof.
  intros H W tr. destruct (H tr) as (r & ev & E & Qt & Pr).
  exists r, ev. auto.
Qed.

Lemma spec_bind (c : M A) (f : A -> M B) (P : result A -> Prop)
      (Q : result B -> Prop) :
  run_spec c P ->
  (forall e, P (inl e) -> Q (inl e)) ->
  (forall a, P (inr a) -> run_spec (f a) Q) ->
  run_spec (bind c f) Q.
Proof.
  intros Hc He Hf tr. destruct (Hc tr) as (r & ev & E & Qt & Pr).
  unfold bind. rewrite E. destruct r as [e|a].
  - exists (inl e), ev. auto.
  - destruct (Hf a Pr (tr ++ ev)%list) as (r' & ev' & E' & Qt' & Qr).
    exists r', (ev ++ ev')%list. rewrite app_assoc.
    split; [exact E'|]. split; [apply quiet_app; assumption|exact Qr].
Qed.

Lemma spec_try (c : M A) (h : exn -> M A) (P Q : result A -> Prop) :
  run_spec c P ->
  (forall a, P (inr a) -> Q (inr a)) ->
  (forall e, P (inl e) -> run_spec (h e) Q) ->
  run_spec (try_except c h) Q.
Proof.
  intros Hc Ha Hh tr. destruct (Hc tr) as (r & ev & E & Qt & Pr).
  unfold try_except. rewrite E. destruct r as [e|a].
  - destruct (Hh e Pr (tr ++ ev)%list) as (r' & ev' & E' & Qt' & Qr).
    exists r', (ev ++ ev')%list. rewrite app_assoc.
    split; [exact E'|]. split; [apply quiet_app; assumption|exact Qr].
  - exists (inr a), ev. auto.
Qed.

End RunSpec.

Section RunSpecUnit.
Import Effects Service.

Lemma spec_emit (e : event) (P : result unit -> Prop) :
  is_adapter_event e = false -> P (inr tt) -> run_spec (emit e) P.
Proof.
  intros N H tr. exists (inr tt), [e].
  split; [reflexivity|]. split; [|exact H].
  unfold no_adapter_activity. simpl. rewrite N. reflexivity.
Qed.

Lemma spec_perform (o : option exn) (P : result unit -> Prop) :
  (forall e, o = Some e -> P (inl e)) -> (o = None -> P (inr tt)) ->
  run_spec (perform o) P.
Proof.
  intros He Hn. destruct o as [e|]; simpl.
  - apply spec_throw. apply He. reflexivity.
  - apply spec_ret. apply Hn. reflexivity.
Qed.

Lemma spec_progress (cb : bool) (msg : string) (P : result unit -> Prop) :
  P (inr tt) -> run_spec (progress cb msg) P.
Proof.
  intros H. unfold progress. destruct cb.
  - apply spec_emit; [reflexivity|exact H].
  - apply spec_ret. exact H.
Qed.

Lemma spec_logger_error (msg : string) (P : result unit -> Prop) :
  P (inr tt) -> run_spec (logger_error msg) P.
Proof. intros H. apply spec_emit; [reflexivity|exact H]. Qed.

End RunSpecUnit.

Section DateResolution.
Import Effects Service.

Definition returns {A} (P : A -> Prop) (r : result A) : Prop :=
  exists a, r = inr a /\ P a.

(** The default dates are always delivered. *)
Lemma get_default_dates_spec (w : world) :
  run_spec (get_default_dates w) (returns (fun _ => True)).
Proof.
  unfold get_default_dates.
  destruct (Calendar.valid_ymd _ _ _).
  - apply spec_ret. eexists. eauto.
  - eapply spec_bind.
    + apply spec_logger_error with (P := fun r => r = inr tt). reflexivity.
    + intros e [=].
    + intros _ _. apply spec_ret. eexists. eauto.
Qed.

(** The resolver never fails for the orchestrator: what it raises is
    logged, and the default dates stand in. *)
Lemma calculate_dates_from_timeframe_spec (w : world)
      (timeframe start end_ : option string) :
  run_spec (calculate_dates_from_timeframe w timeframe start end_)
           (returns (fun d =>
                       forall d0,
                         Timespan.calculate_dates (now w) timeframe start end_
                                                  None = inr d0 ->
                         d = d0)).
Proof.
  unfold calculate_dates_from_timeframe.
  eapply spec_try.
  - apply spec_lift with (P := fun r =>
      r = Timespan.calculate_dates (now w) timeframe start end_ None).
    reflexivity.
  - intros a E. exists a. split; [reflexivity|]. intros d0 E0.
    rewrite E0 in E. injection E as ->. reflexivity.
  - intros e E. eapply spec_bind.
    + apply spec_logger_error with (P := fun r => r = inr tt). reflexivity.
    + intros e' [=].
    + intros _ _. eapply spec_weaken; [apply get_default_dates_spec|].
      intros r (d & -> & _). exists d. split; [reflexivity|].
      intros d0 E0. rewrite E0 in E. discriminate E.
Qed.

(** Explicit dates: both are given, and a timeframe comes with them only
    when they are in the form the resolver validates. *)
Definition explicit_dates (timeframe : option string) (start end_ : string)
  : Prop :=
  PyStr.nonempty start = true /\ PyStr.nonempty end_ = true
  /\ (PyStr.truthy timeframe = false
      \/ (well_formed_date start /\ well_formed_date end_)).

(** Explicit dates are resolved to themselves. *)
Lemma resolve_dates_explicit (w : world) (timeframe : option string)
      (start end_ : string) :
  explicit_dates timeframe start end_ ->
  run_spec (resolve_dates w timeframe (Some start) (Some end_))
           (returns (fun d => d = (start, end_))).
Proof.
  intros (Hs & He & Ht). unfold resolve_dates, needs_dates.
  cbn [PyStr.truthy]. rewrite Hs, He. cbn [andb negb].
  rewrite orb_false_r.
  destruct (PyStr.truthy timeframe) eqn:T.
  - destruct Ht as [Ht|[Ws We]]; [discriminate Ht|].
    eapply spec_weaken; [apply calculate_dates_from_timeframe_spec|].
    intros r (d & -> & Hd). exists d. split; [reflexivity|].
    apply Hd. apply calculate_dates_both; assumption.
  - apply spec_ret. eexists. split; reflexivity.
Qed.

Lemma resolve_dates_spec (w : world) (timeframe start end_ : option string) :
  run_spec (resolve_dates w timeframe start end_) (returns (fun _ => True)).
Proof.
  unfold resolve_dates. destruct (needs_dates timeframe start end_).
  - eapply spec_weaken; [apply calculate_dates_from_timeframe_spec|].
    intros r (d & -> & _). exists d. auto.
  - apply spec_ret. eexists. eauto.
Qed.

End DateResolution.

Section TickerFacts.
Import Service.

(** The characters a symbol may hold: alphanumeric ones and the three
    separators. *)
Definition symbol_char (c : ascii) : bool :=
  PyStr.isalnum_char c
  || Ascii.eqb c "." || Ascii.eqb c "-" || Ascii.eqb c "/".

(** An empty symbol, one with a character outside the alphanumeric ones
    and the separators, or one of more than 20 characters. *)
Definition malformed_symbol (t : string) : Prop :=
  t = ""
  \/ (exists c, PyStr.In_str c t /\ symbol_char c = false)
  \/ 20 < PyStr.len t.

Lemma remove_char_keeps (x c : ascii) (t : string) :
  PyStr.In_str c t -> Ascii.eqb c x = false ->
  PyStr.In_str c (PyStr.remove_char x t).
Proof.
  intros I N. induction t as [|d r IH]; simpl in *; [contradiction|].
  destruct I as [->|I].
  - rewrite N. simpl. left. reflexivity.
  - destruct (Ascii.eqb d x); [apply IH; exact I|].
    simpl. right. apply IH. exact I.
Qed.

Lemma isalnum_all (c : ascii) (s : string) :
  PyStr.In_str c s -> PyStr.isalnum_char c = false -> PyStr.isalnum s = false.
Proof.
  intros I N.
  assert (F : PyStr.all_chars PyStr.isalnum_char s = false).
  { induction s as [|d r IH]; simpl in *; [contradiction|].
    destruct I as [->|I]; [rewrite N; reflexivity|].
    rewrite (IH I). apply andb_false_r. }
  unfold PyStr.isalnum. destruct s; [reflexivity|exact F].
Qed.

(** A malformed symbol does not pass [validate_ticker]. *)
Lemma malformed_rejected (t : string) :
  malformed_symbol t -> exists err, validate_ticker t = Some err.
Proof.
  unfold validate_ticker. intros [->|[(c & I & N)|L]].
  - eexists. reflexivity.
  - destruct (PyStr.nonempty t); [|eexists; reflexivity].
    unfold symbol_char in N. apply orb_false_iff in N. destruct N as [N N3].
    apply orb_false_iff in N. destruct N as [N N2].
    apply orb_false_iff in N. destruct N as [N0 N1].
    rewrite (isalnum_all c).
    + eexists. reflexivity.
    + repeat apply remove_char_keeps; assumption.
    + exact N0.
  - destruct (negb (PyStr.nonempty t)); [eexists; reflexivity|].
    destruct (negb (PyStr.isalnum _)); [eexists; reflexivity|].
    destruct (Z.gtb_spec (PyStr.len t) 20); [eexists; reflexivity|lia].
Qed.

End TickerFacts.

Section PreviewFacts.
Import Effects Pandas Service.

(** The checks [preview_download] makes before it compares the dates. *)
Definition earlier_checks_pass (w : world) (datasource ticker : string)
           (start end_ : string) (market : option string) : Prop :=
  validate_required_params w
    [ ("datasource", Some datasource); ("ticker", Some ticker);
      ("start", Some start); ("end", Some end_) ]
    ["datasource"; "ticker"; "start"; "end"] = None
  /\ validate_ticker ticker = None
  /\ (PyStr.truthy market = true ->
      exists c, Config.get_market_config (opt_str market) = inr c)
  /\ ensure_directory_exists w (datasets_dir w) = None.

Lemma get_output_path_quiet (w : world)
      (ticker datasource start end_ interval : string)
      (market exchange : option string) (output_format : string)
      (include_datasource : bool) (timeframe : option string)
      (P : result (string * string) -> Prop) :
  (forall e, ensure_directory_exists w (datasets_dir w) = Some e ->
             P (inl e)) ->
  (ensure_directory_exists w (datasets_dir w) = None ->
   forall path, P (inr path)) ->
  run_spec (_get_output_path_with_format
              w ticker datasource start end_ interval market output_format
              exchange include_datasource timeframe) P.
Proof.
  intros He Hn. unfold _get_output_path_with_format.
  eapply spec_bind.
  - apply spec_emit with (P := fun r => r = inr tt); reflexivity.
  - intros e [=].
  - intros _ _. eapply spec_bind.
    + apply spec_perform
        with (P := fun r =>
                     match r with
                     | inl e => ensure_directory_exists w (datasets_dir w)
                                = Some e
                     | inr _ => ensure_directory_exists w (datasets_dir w)
                                = None
                     end); auto.
    + intros e E. apply He. exact E.
    + intros u E. apply spec_ret. apply Hn. exact E.
Qed.

(** What the body of [preview_download] comes to, for given resolved
    dates, in terms of the checks. *)
Definition preview_outcome (w : world) (datasource ticker : string)
           (start end_ : string) (market : option string)
           (r : result preview) : Prop :=
  match r with
  | inl _ => ~ earlier_checks_pass w datasource ticker start end_ market
  | inr (Invalid msg) =>
      earlier_checks_pass w datasource ticker start end_ market ->
      match to_datetime (pd w) start, to_datetime (pd w) end_ with
      | Some s, Some e =>
          day_of e <= day_of s /\ msg = "Start date must be before end date"
      | _, _ => msg = "Invalid date format (use YYYY-MM-DD)"
      end
  | inr (Valid info) =>
      earlier_checks_pass w datasource ticker start end_ market
      /\ p_start info = start /\ p_end info = end_
      /\ exists s e,
          to_datetime (pd w) start = Some s
          /\ to_datetime (pd w) end_ = Some e
          /\ day_of s < day_of e
  end.

Lemma market_suffix_fails (ticker : string) (market : option string) :
  (if PyStr.truthy market then
     match Config.get_market_config (opt_str market) with
     | inl _ => None
     | inr market_config =>
         match Config.get_ticker_with_suffix ticker (opt_str market) with
         | inl _ => None
         | inr final_ticker =>
             Some (final_ticker,
                   Some (Config.name market_config, final_ticker))
         end
     end
   else Some (ticker, None)) = None ->
  ~ (PyStr.truthy market = true ->
     exists c, Config.get_market_config (opt_str market) = inr c).
Proof.
  intros H K. destruct (PyStr.truthy market); [|discriminate H].
  destruct (K eq_refl) as [c E].
  unfold Config.get_ticker_with_suffix in H. rewrite E in H. cbn [rbind] in H.
  destruct (PyStr.nonempty (Config.yf_ticker_suffix c)
            && negb (PyStr.endswith ticker (Config.yf_ticker_suffix c)));
    discriminate H.
Qed.

(** The steps of [preview_download] after the dates are resolved. *)
Lemma preview_checks_spec (w : world) (datasource ticker : string)
      (start end_ interval : string) (market timeframe : option string) :
  run_spec
    (perform (validate_required_params w
                [ ("datasource", Some datasource); ("ticker", Some ticker);
                  ("start", Some start); ("end", Some end_) ]
                ["datasource"; "ticker"; "start"; "end"]) ;;
     match validate_ticker ticker with
     | Some err => ret (Invalid err)
     | None =>
         let suffixed :=
           if PyStr.truthy market then
             match Config.get_market_config (opt_str market) with
             | inl _ => None
             | inr market_config =>
                 match Config.get_ticker_with_suffix ticker (opt_str market)
                 with
                 | inl _ => None
                 | inr final_ticker =>
                     Some (final_ticker,
                           Some (Config.name market_config, final_ticker))
                 end
             end
           else Some (ticker, None) in
         match suffixed with
         | None => ret (Invalid ("Invalid market: " ++ opt_str market))
         | Some (final_ticker, market_info) =>
             path <- _get_output_path w ticker datasource start end_ interval
                                      market None false timeframe ;;
             match to_datetime (pd w) start, to_datetime (pd w) end_ with
             | Some s, Some e =>
                 if day_of s >=? day_of e then
                   ret (Invalid "Start date must be before end date")
                 else
                   ret (Valid (Info ticker final_ticker datasource start end_
                                    interval market_info
                                    (fst path ++ "/" ++ snd path) (snd path)))
             | _, _ => ret (Invalid "Invalid date format (use YYYY-MM-DD)")
             end
         end
     end)%eff
    (preview_outcome w datasource ticker start end_ market).
Proof.
  eapply spec_bind.
  - apply spec_perform
      with (P := fun r =>
                   match r with
                   | inl _ =>
                       validate_required_params w
                         [ ("datasource", Some datasource);
                           ("ticker", Some ticker);
                           ("start", Some start); ("end", Some end_) ]
                         ["datasource"; "ticker"; "start"; "end"] <> None
                   | inr _ =>
                       validate_required_params w
                         [ ("datasource", Some datasource);
                           ("ticker", Some ticker);
                           ("start", Some start); ("end", Some end_) ]
                         ["datasource"; "ticker"; "start"; "end"] = None
                   end).
    + intros e ->. discriminate.
    + auto.
  - intros e N. cbn. intros (C & _). exact (N C).
  - intros u V. cbv beta iota in V.
    destruct (validate_ticker ticker) as [err|] eqn:T.
    { apply spec_ret. cbn. intros (_ & C & _). congruence. }
    cbv zeta.
    match goal with
    | |- run_spec (match ?sfx with _ => _ end) _ => destruct sfx as [[final info]|] eqn:S
    end.
    2:{ apply spec_ret. cbn. intros (_ & _ & C & _).
        exfalso. exact (market_suffix_fails _ _ S C). }
    eapply spec_bind.
    + unfold _get_output_path.
      apply get_output_path_quiet
        with (P := fun r =>
                     match r with
                     | inl _ => ensure_directory_exists w (datasets_dir w)
                                <> None
                     | inr _ => ensure_directory_exists w (datasets_dir w)
                                = None
                     end).
      * intros e ->. discriminate.
      * auto.
    + intros e N. cbn. intros (_ & _ & _ & C). exact (N C).
    + intros path D. cbv beta iota in D.
      assert (Checks : earlier_checks_pass w datasource ticker start end_ market).
      { split; [exact V|]. split; [exact T|]. split; [|exact D].
        intros Tm. rewrite Tm in S.
        destruct (Config.get_market_config (opt_str market)) as [e|c];
          [discriminate S|]. eauto. }
      destruct (to_datetime (pd w) start) as [s|] eqn:Ps;
        [|apply spec_ret; cbn; rewrite Ps; reflexivity].
      destruct (to_datetime (pd w) end_) as [e|] eqn:Pe;
        [|apply spec_ret; cbn; rewrite Ps, Pe; reflexivity].
      destruct (Z.geb_spec (day_of s) (day_of e)) as [G|G].
      * apply spec_ret. cbn. rewrite Ps, Pe. intros _. split; [lia|reflexivity].
      * apply spec_ret. cbn. split; [exact Checks|].
        split; [reflexivity|]. split; [reflexivity|]. eauto.
Qed.

End PreviewFacts.

Section OrchestratorFacts.
Import Effects Pandas Service.

(** [preview_download] always returns its dictionary: whatever its body
    raises becomes an invalid preview. *)
Lemma preview_download_spec (w : world) (datasource ticker : string)
      (start end_ : option string) (interval : string)
      (market timeframe : option string) (R : string * string -> Prop) :
  run_spec (resolve_dates w timeframe start end_) (returns R) ->
  run_spec (preview_download w datasource ticker start end_ interval market
                             timeframe)
           (returns (fun p =>
                       exists s e,
                         R (s, e)
                         /\ preview_outcome w datasource ticker s e market
                                            (inr p))).
Proof.
  intros HR. unfold preview_download.
  eapply spec_try
    with (P := fun r =>
                 exists s e,
                   R (s, e)
                   /\ preview_outcome w datasource ticker s e market r).
  - eapply spec_bind.
    + exact HR.
    + intros e (d & [=] & _).
    + intros [s e] (d & [= <-] & Rd).
      eapply spec_weaken; [apply preview_checks_spec|].
      intros r O. exists s, e. auto.
  - intros p (s & e & Rd & O). exists p. split; [reflexivity|]. eauto.
  - intros ex (s & e & Rd & O). apply spec_ret.
    eexists. split; [reflexivity|]. exists s, e. split; [exact Rd|].
    cbn in *. intros C. contradiction.
Qed.

(** The output format is one of those the orchestrator writes. *)
Definition format_ok (output_format : string) : Prop :=
  PyStr.mem (PyStr.lower output_format) ["csv"; "json"] = true.

(** When the preview is invalid, the steps end by raising, before the
    adapter is constructed. *)
Lemma download_steps_rejected (w : world) (datasource ticker start end_ : string)
      (interval : string) (market output_file : option string)
      (output_format : string) (progress_callback : bool)
      (timeframe exchange : option string) (include_datasource : bool)
      (G : string -> Prop) :
  run_spec (preview_download w datasource ticker (Some start) (Some end_)
                             interval market None)
           (returns (fun p => exists msg, p = Invalid msg /\ G msg)) ->
  run_spec (download_steps w datasource ticker start end_ interval market
                           output_file output_format progress_callback
                           timeframe exchange include_datasource)
           (fun r => exists ex,
                       r = inl ex
                       /\ exn_kind_of ex = ValueError
                       /\ (format_ok output_format -> G (exn_msg ex))).
Proof.
  intros HP. unfold download_steps, format_ok.
  destruct (PyStr.mem (PyStr.lower output_format) ["csv"; "json"]);
    cbn [negb].
  2:{ eapply spec_bind.
      - apply spec_raise
          with (P := fun r : result unit =>
                       exists ex, r = inl ex /\ exn_kind_of ex = ValueError).
        eexists. split; reflexivity.
      - intros e (ex & [= <-] & K). exists e. split; [reflexivity|].
        split; [exact K|discriminate].
      - intros a (ex & [=] & _). }
  eapply spec_bind.
  - apply spec_ret with (P := fun r => r = inr tt). reflexivity.
  - intros e [=].
  - intros _ _. eapply spec_bind.
    + apply spec_progress with (P := fun r => r = inr tt). reflexivity.
    + intros e [=].
    + intros _ _. eapply spec_bind.
      * exact HP.
      * intros e (p & [=] & _).
      * intros p (p' & [= <-] & msg & -> & Gm).
        apply spec_raise. eexists. split; [reflexivity|].
        split; [reflexivity|]. intros _. exact Gm.
Qed.

(** The first statement of [download_data] delivers both dates. *)
Lemma download_dates_spec (w : world) (timeframe start end_ : option string)
      (R : string * string -> Prop) :
  run_spec (resolve_dates w timeframe start end_) (returns R) ->
  run_spec
    (if needs_dates timeframe start end_
     then
       d <- calculate_dates_from_timeframe w timeframe start end_ ;;
       ret (Some (fst d), Some (snd d))
     else ret (start, end_))%eff
    (returns (fun d => exists s e, d = (Some s, Some e) /\ R (s, e))).
Proof.
  unfold resolve_dates. intros HR.
  destruct (needs_dates timeframe start end_) eqn:N.
  - eapply spec_bind.
    + exact HR.
    + intros e (d & [=] & _).
    + intros [s e] (d & [= <-] & Rd). apply spec_ret.
      eexists. split; [reflexivity|]. exists s, e. auto.
  - unfold needs_dates in N. apply orb_false_iff in N. destruct N as [_ N].
    apply negb_false_iff, andb_true_iff in N. destruct N as [Ns Ne].
    destruct start as [s|]; [|discriminate Ns].
    destruct end_ as [e|]; [|discriminate Ne].
    intros tr. destruct (HR tr) as (r & ev & E & Q & (d & -> & Rd)).
    unfold ret in E. injection E as <- E. 
    exists (inr (Some s, Some e)), []. rewrite app_nil_r.
    split; [reflexivity|]. split; [apply quiet_nil|].
    eexists. split; [reflexivity|]. exists s, e. auto.
Qed.

(** The result [download_data] returns when it fails. *)
Definition failed_result (ex : exn -> Prop) (res : DownloadResult) : Prop :=
  success res = false /\ data res = None /\ file_path res = None
  /\ exists e, error res = Some ("Download failed: " ++ exn_msg e) /\ ex e.

Lemma download_failed_spec (datasource ticker : string)
      (start end_ : option string) (interval : string)
      (market : option string) (progress_callback : bool) (e : exn)
      (ex : exn -> Prop) :
  ex e ->
  run_spec (download_failed datasource ticker start end_ interval market
                            progress_callback e)
           (returns (failed_result ex)).
Proof.
  intros He. unfold download_failed.
  eapply spec_bind.
  - apply spec_logger_error with (P := fun r => r = inr tt). reflexivity.
  - intros e0 [=].
  - intros _ _. eapply spec_bind.
    + apply spec_progress with (P := fun r => r = inr tt). reflexivity.
    + intros e0 [=].
    + intros _ _. apply spec_ret. eexists. split; [reflexivity|].
      unfold failed_result. cbn. repeat split. exists e. auto.
Qed.

(** When the steps raise for all the dates the resolution may deliver,
    [download_data] returns a failed result, and no adapter has been
    constructed. *)
Lemma download_data_rejected (w : world) (datasource ticker : string)
      (start end_ : option string) (interval : string)
      (market output_file : option string) (output_format : string)
      (progress_callback : bool) (timeframe exchange : option string)
      (include_datasource : bool) (R : string * string -> Prop)
      (ex : exn -> Prop) :
  run_spec (resolve_dates w timeframe start end_) (returns R) ->
  (forall s e,
      R (s, e) ->
      run_spec (download_steps w datasource ticker s e interval market
                               output_file output_format progress_callback
                               timeframe exchange include_datasource)
               (fun r => exists e0, r = inl e0 /\ ex e0)) ->
  run_spec (download_data w datasource ticker start end_ interval market
                          output_file output_format progress_callback
                          timeframe exchange include_datasource)
           (returns (failed_result ex)).
Proof.
  intros HR HS. unfold download_data. cbv zeta.
  eapply spec_bind
    with (P := returns (fun first =>
                          exists s e, first = inr (Some s, Some e)
                                      /\ R (s, e))).
  - eapply spec_try
      with (P := returns (fun first =>
                            exists s e, first = inr (Some s, Some e)
                                        /\ R (s, e))).
    + eapply spec_bind.
      * apply download_dates_spec. exact HR.
      * intros e (d & [=] & _).
      * intros d (d' & [= <-] & s & e & -> & Rd). apply spec_ret.
        eexists. split; [reflexivity|]. exists s, e. auto.
    + auto.
    + intros e (d & [=] & _).
  - intros e (d & [=] & _).
  - intros first (f & [= <-] & s & e & -> & Rd).
    eapply spec_try.
    + cbn [opt_str]. apply (HS s e Rd).
    + intros a (e0 & [=] & _).
    + intros e0 (e1 & [= <-] & He). apply download_failed_spec. exact He.
Qed.

End OrchestratorFacts.

(** An adapter for examples: it returns one daily bar. *)
Definition demo_adapter : Service.datasource :=
  Service.Adapter
    (fun _ _ _ _ =>
       Effects.ret
         (Pandas.Frame
            ["open"; "high"; "low"; "close"; "volume"] (Some "date")
            [1704153600000]
            [[ Some (Pandas.JNum (18715 # 100)); Some (Pandas.JNum (18844 # 100));
               Some (Pandas.JNum (18373 # 100)); Some (Pandas.JNum (18564 # 100));
               Some (Pandas.JNum 82488700) ]])).

(** A check of required parameters for examples: every required name must
    have a value that is not empty. *)
Definition require_params (params : Dict.dict (option string))
           (required : list string) : option exn :=
  match filter (fun k =>
                  negb (PyStr.truthy
                          (match Dict.get k params with
                           | Some v => v
                           | None => None
                           end))) required with
  | [] => None
  | missing =>
      Some (Exn ValueError
                ("Missing required parameters: " ++ PyStr.join ", " missing))
  end.

(** A world for examples: it is the first of March 2025, the directories
    can be made and the files written, and one adapter is registered. *)
Definition demo_world : Service.world :=
  Service.World
    (Calendar.Date 2025 3 1) (fun _ => None) "/home/user" Pandas.reference
    (Registry.registered
       [("demo", Registry.Class "DemoDataSource" (fun _ => ok demo_adapter) None)])
    require_params (fun _ => None) (fun _ => None) (fun _ _ _ => None).

Section SymbolClaim.
Import Effects Pandas Service.

(** C8. For every call of [download_data] whose symbol is empty, holds a
    character outside the alphanumeric ones and '.', '-', '/', or is
    longer than 20 characters, whatever the other arguments and the world
    are: the call returns a failed result that reports a [ValueError], and
    in the events of the call there is no adapter construction, no adapter
    fetch and no upstream request. *)
Theorem malformed_symbol_rejected_before_adapter :
  forall (w : world) (datasource ticker : string)
         (start end_ : option string) (interval : string)
         (market output_file : option string) (output_format : string)
         (progress_callback : bool) (timeframe exchange : option string)
         (include_datasource : bool) (tr : trace),
    malformed_symbol ticker ->
    exists res ev,
      download_data w datasource ticker start end_ interval market
                    output_file output_format progress_callback timeframe
                    exchange include_datasource tr
      = (inr res, (tr ++ ev)%list)
      /\ no_adapter_activity ev
      /\ success res = false
      /\ data res = None
      /\ exists e,
          error res = Some ("Download failed: " ++ exn_msg e)
          /\ exn_kind_of e = ValueError.
Proof.
  intros w datasource ticker start end_ interval market output_file
         output_format progress_callback timeframe exchange include_datasource
         tr Bad.
  destruct (malformed_rejected ticker Bad) as [err Herr].
  destruct (download_data_rejected
              w datasource ticker start end_ interval market output_file
              output_format progress_callback timeframe exchange
              include_datasource (fun _ => True)
              (fun e => exn_kind_of e = ValueError)
              (resolve_dates_spec w timeframe start end_)) with (tr := tr)
    as (r & ev & E & Q & (res & -> & F)).
  - intros s e _.
    eapply spec_weaken.
    + apply download_steps_rejected with (G := fun _ => True).
      eapply spec_weaken.
      * apply preview_download_spec with (R := fun _ => True).
        apply resolve_dates_spec.
      * intros r (p & -> & s' & e' & _ & O). exists p. split; [reflexivity|].
        destruct p as [msg|info]; [eauto|].
        cbn in O. destruct O as ((_ & T & _) & _). congruence.
    + intros r (ex & -> & K & _). eauto.
  - destruct F as (F1 & F2 & F3 & e & F4 & F5).
    exists res, ev. split; [exact E|]. split; [exact Q|]. eauto 6.
Qed.

End SymbolClaim.

Lemma malformed_symbol_rejected_before_adapter_witness :
  malformed_symbol ""
  /\ exists res ev,
      Service.download_data demo_world "demo" "" (Some "2024-01-01")
                            (Some "2024-01-05") "1d" None None "csv" true
                            None None false []
      = (inr res, ev)
      /\ Effects.no_adapter_activity ev
      /\ Service.success res = false.
Proof.
  assert (Bad : malformed_symbol "") by (left; reflexivity).
  split; [exact Bad|].
  destruct (malformed_symbol_rejected_before_adapter
              demo_world "demo" "" (Some "2024-01-01") (Some "2024-01-05")
              "1d" None None "csv" true None None false [] Bad)
    as (res & ev & E & Q & S & _).
  exists res, ev. auto.
Defined.

Section DateRangeClaim.
Import Effects Pandas Service.

(** With the dates resolved to [start] and [end_], parsed, and the first
    not before the second, the preview is invalid; it gives the message of
    the date comparison when the earlier checks pass. *)
Lemma preview_reversed (w : world) (datasource ticker start end_ : string)
      (interval : string) (market timeframe : option string) (s e : Z) :
  explicit_dates timeframe start end_ ->
  to_datetime (pd w) start = Some s ->
  to_datetime (pd w) end_ = Some e ->
  day_of e <= day_of s ->
  run_spec (preview_download w datasource ticker (Some start) (Some end_)
                             interval market timeframe)
           (returns (fun p =>
                       exists msg,
                         p = Invalid msg
                         /\ (earlier_checks_pass w datasource ticker start end_
                                                 market ->
                             msg = "Start date must be before end date"))).
Proof.
  intros X Ps Pe Le.
  eapply spec_weaken.
  - apply preview_download_spec with (R := fun d => d = (start, end_)).
    apply resolve_dates_explicit. exact X.
  - intros r (p & -> & s' & e' & [= -> ->] & O). exists p.
    split; [reflexivity|]. destruct p as [msg|info]; cbn in O.
    + exists msg. split; [reflexivity|]. intros C.
      specialize (O C). rewrite Ps, Pe in O. exact (proj2 O).
    + destruct O as (_ & _ & _ & s0 & e0 & Ps0 & Pe0 & Lt).
      rewrite Ps in Ps0. rewrite Pe in Pe0.
      injection Ps0 as <-. injection Pe0 as <-. lia.
Qed.

(** C9, as amended. For every preview or download call with explicit
    start and end dates -- both given, and given as YYYY-MM-DD strings when
    a timeframe comes with them -- whose start is on or after the end as
    calendar dates: the preview is invalid and the download returns a
    failed result, and in the events of the call there is no adapter
    construction, no adapter fetch and no upstream request; when the
    checks made before the date comparison pass (for the download, also
    the check of the output format), the error is "Start date must be
    before end date" (with the prefix "Download failed: " in the result of
    the download). A range of a single day, start equal to end, is such a
    range. *)
Theorem reversed_range_rejected :
  forall (w : world) (datasource ticker start end_ : string)
         (interval : string) (market output_file : option string)
         (output_format : string) (progress_callback : bool)
         (timeframe exchange : option string) (include_datasource : bool)
         (s e : Z) (tr : trace),
    explicit_dates timeframe start end_ ->
    to_datetime (pd w) start = Some s ->
    to_datetime (pd w) end_ = Some e ->
    day_of e <= day_of s ->
    (exists msg ev,
        preview_download w datasource ticker (Some start) (Some end_)
                         interval market timeframe tr
        = (inr (Invalid msg), (tr ++ ev)%list)
        /\ no_adapter_activity ev
        /\ (earlier_checks_pass w datasource ticker start end_ market ->
            msg = "Start date must be before end date"))
    /\ (exists res ev,
           download_data w datasource ticker (Some start) (Some end_)
                         interval market output_file output_format
                         progress_callback timeframe exchange
                         include_datasource tr
           = (inr res, (tr ++ ev)%list)
           /\ no_adapter_activity ev
           /\ success res = false
           /\ data res = None
           /\ exists ex,
               error res = Some ("Download failed: " ++ exn_msg ex)
               /\ (format_ok output_format ->
                   earlier_checks_pass w datasource ticker start end_ market ->
                   exn_msg ex = "Start date must be before end date")).
Proof.
  intros w datasource ticker start end_ interval market output_file
         output_format progress_callback timeframe exchange include_datasource
         s e tr X Ps Pe Le.
  split.
  - destruct (preview_reversed w datasource ticker start end_ interval market
                               timeframe s e X Ps Pe Le tr)
      as (r & ev & E & Q & (p & -> & msg & -> & G)).
    exists msg, ev. auto.
  - assert (X0 : explicit_dates None start end_).
    { destruct X as (Ns & Ne & _). split; [exact Ns|]. split; [exact Ne|].
      left. reflexivity. }
    destruct (download_data_rejected
                w datasource ticker (Some start) (Some end_) interval market
                output_file output_format progress_callback timeframe exchange
                include_datasource (fun d => d = (start, end_))
                (fun ex =>
                   format_ok output_format ->
                   earlier_checks_pass w datasource ticker start end_ market ->
                   exn_msg ex = "Start date must be before end date")
                (resolve_dates_explicit w timeframe start end_ X))
      with (tr := tr) as (r & ev & E & Q & (res & -> & F)).
    + intros s' e' [= -> ->].
      eapply spec_weaken.
      * apply download_steps_rejected
          with (G := fun msg =>
                       earlier_checks_pass w datasource ticker start end_
                                           market ->
                       msg = "Start date must be before end date").
        apply (preview_reversed w datasource ticker start end_ interval market
                                None s e X0 Ps Pe Le).
      * intros r (ex & -> & _ & G). exists ex. auto.
    + destruct F as (F1 & F2 & _ & ex & F4 & F5).
      exists res, ev. split; [exact E|]. split; [exact Q|]. eauto 6.
Qed.

End DateRangeClaim.

Lemma reversed_range_rejected_witness :
  explicit_dates None "2024-06-01" "2024-06-01"
  /\ Service.day_of 1717200000000 <= Service.day_of 1717200000000
  /\ exists msg ev,
      Service.preview_download demo_world "demo" "AAPL" (Some "2024-06-01")
                               (Some "2024-06-01") "1d" None None []
      = (inr (Service.Invalid msg), ev)
      /\ Effects.no_adapter_activity ev.
Proof.
  assert (X : explicit_dates None "2024-06-01" "2024-06-01").
  { split; [reflexivity|]. split; [reflexivity|]. left. reflexivity. }
  split; [exact X|]. split; [lia|].
  destruct (proj1 (reversed_range_rejected
                     demo_world "demo" "AAPL" "2024-06-01" "2024-06-01" "1d"
                     None None "csv" true None None false
                     1717200000000 1717200000000 []
                     X eq_refl eq_refl ltac:(lia)))
    as (msg & ev & E & Q & _).
  exists msg, ev. auto.
Defined.

(** C9 as stated fails when an earlier check fails: the error is then the
    one of that check. *)
Lemma reversed_range_with_bad_symbol :
  Service.preview_download demo_world "demo" "AAPL@#$" (Some "2024-06-01")
                           (Some "2024-06-01") "1d" None None []
  = (inr (Service.Invalid "Ticker contains invalid characters"), []).
Proof. reflexivity. Qed.

Section ExceptionFacts.
Import Effects Pandas Service.

(** The dates [get_default_dates] returns. *)
Definition default_dates (w : world) : string * string :=
  if Calendar.valid_ymd (Calendar.year (now w) - 1) (Calendar.month (now w))
                        (Calendar.day (now w))
  then (Calendar.strftime_ymd
          (Calendar.Date (Calendar.year (now w) - 1) (Calendar.month (now w))
                         (Calendar.day (now w))),
        Calendar.strftime_ymd (now w))
  else ("2024-01-01", "2024-12-31").

(** The values of [start] and [end] after the first statement of
    [download_data], and the trace then. *)
Definition assign_dates (w : world) (timeframe start end_ : option string)
           (tr : trace) : (option string * option string) * trace :=
  if needs_dates timeframe start end_ then
    match calculate_dates_from_timeframe w timeframe start end_ tr with
    | (inr d, tr') => ((Some (fst d), Some (snd d)), tr')
    | (inl _, tr') => ((start, end_), tr')
    end
  else ((start, end_), tr).

Lemma get_default_dates_run (w : world) (tr : trace) :
  exists tr', get_default_dates w tr = (inr (default_dates w), tr').
Proof.
  unfold get_default_dates, default_dates.
  destruct (Calendar.valid_ymd _ _ _); eexists; reflexivity.
Qed.

(** The resolution of the orchestrator returns what the resolver returns,
    and the default dates when the resolver raises. *)
Lemma calculate_dates_from_timeframe_run (w : world)
      (timeframe start end_ : option string) (tr : trace) :
  exists tr',
    calculate_dates_from_timeframe w timeframe start end_ tr
    = (inr (match Timespan.calculate_dates (now w) timeframe start end_ None
            with
            | inr d => d
            | inl _ => default_dates w
            end), tr').
Proof.
  unfold calculate_dates_from_timeframe, try_except, lift.
  destruct (Timespan.calculate_dates (now w) timeframe start end_ None)
    as [e|d].
  - unfold bind, logger_error, emit.
    destruct (get_default_dates_run
                w (tr ++ [EvLogError
                            ("Failed to calculate dates from timeframe: "
                             ++ str_of_exn e)])%list) as [tr' E].
    rewrite E. eexists. reflexivity.
  - eexists. reflexivity.
Qed.

Lemma download_failed_run (datasource ticker : string)
      (start end_ : option string) (interval : string)
      (market : option string) (progress_callback : bool) (e : exn)
      (tr : trace) :
  exists tr',
    download_failed datasource ticker start end_ interval market
                    progress_callback e tr
    = (inr (Result ticker datasource market None None start end_ interval
                   false (Some ("Download failed: " ++ exn_msg e))), tr').
Proof.
  unfold download_failed, bind, logger_error, progress, emit, ret.
  destruct progress_callback; eexists; reflexivity.
Qed.

(** [download_data] is its steps under the handler, run with the dates
    the first statement assigns. *)
Lemma download_data_unfold (w : world) (datasource ticker : string)
      (start end_ : option string) (interval : string)
      (market output_file : option string) (output_format : string)
      (progress_callback : bool) (timeframe exchange : option string)
      (include_datasource : bool) (tr : trace) :
  download_data w datasource ticker start end_ interval market output_file
                output_format progress_callback timeframe exchange
                include_datasource tr
  = let '(dates, tr1) := assign_dates w timeframe start end_ tr in
    try_except
      (download_steps w datasource ticker (opt_str (fst dates))
                      (opt_str (snd dates)) interval market output_file
                      output_format progress_callback timeframe exchange
                      include_datasource)
      (download_failed datasource ticker (fst dates) (snd dates) interval
                       market progress_callback)
      tr1.
Proof.
  unfold download_data, assign_dates. cbv zeta.
  destruct (needs_dates timeframe start end_).
  - destruct (calculate_dates_from_timeframe_run w timeframe start end_ tr)
      as [tr' E].
    unfold bind at 1. unfold try_except at 1. unfold bind at 1.
    unfold bind at 1. rewrite E. reflexivity.
  - reflexivity.
Qed.

(** A result that [download_steps] returns is a success. *)
Lemma download_steps_success (w : world) (datasource ticker start end_ : string)
      (interval : string) (market output_file : option string)
      (output_format : string) (progress_callback : bool)
      (timeframe exchange : option string) (include_datasource : bool)
      (tr tr' : trace) (res : DownloadResult) :
  download_steps w datasource ticker start end_ interval market output_file
                 output_format progress_callback timeframe exchange
                 include_datasource tr = (inr res, tr') ->
  success res = true /\ error res = None /\ data res <> None.
Proof.
  unfold download_steps. intros H.
  apply bind_inr in H. destruct H as (u1 & t1 & _ & H).
  apply bind_inr in H. destruct H as (u2 & t2 & _ & H).
  apply bind_inr in H. destruct H as (p & t3 & _ & H).
  destruct p as [msg|info]; [discriminate H|].
  unfold create_fetch_save in H.
  repeat (apply bind_inr in H;
          let a := fresh "a" in
          let t := fresh "t" in
          destruct H as (a & t & _ & H)).
  apply ret_inr in H. destruct H as [-> _].
  cbn. repeat split. discriminate.
Qed.

End ExceptionFacts.

(** ** The callback and the handler *)

Section CallbackFacts.
Import Effects Pandas Service.

(** The callback, when there is one, returns from every call. *)
Definition returns_normally (progress_callback : option Hooked.callback)
  : Prop :=
  forall f, progress_callback = Some f ->
            forall msg tr, exists tr', f msg tr = (inr tt, tr').

Lemma observing_returns (progress_callback : bool) :
  returns_normally (Hooked.observing progress_callback).
Proof.
  intros f E msg tr. destruct progress_callback; [|discriminate E].
  injection E as <-. eexists. reflexivity.
Qed.

Lemma hooked_progress_run (cb : option Hooked.callback) (msg : string)
      (tr : trace) :
  returns_normally cb ->
  exists tr', Hooked.progress cb msg tr = (inr tt, tr').
Proof.
  intros R. destruct cb as [f|]; [exact (R f eq_refl msg tr)|].
  eexists. reflexivity.
Qed.

(** With a callback that records the message and returns, this is the
    [download_data] of [Service]. *)
Lemma hooked_observing (w : world) (datasource ticker : string)
      (start end_ : option string) (interval : string)
      (market output_file : option string) (output_format : string)
      (progress_callback : bool) (timeframe exchange : option string)
      (include_datasource : bool) :
  Hooked.download_data w datasource ticker start end_ interval market
                       output_file output_format
                       (Hooked.observing progress_callback) timeframe
                       exchange include_datasource
  = download_data w datasource ticker start end_ interval market output_file
                  output_format progress_callback timeframe exchange
                  include_datasource.
Proof. destruct progress_callback; reflexivity. Qed.

(** The handler: the error is logged, the callback is called with it, and
    the failed result is returned when that call returns. *)
Lemma hooked_download_failed_run (datasource ticker : string)
      (start end_ : option string) (interval : string)
      (market : option string) (cb : option Hooked.callback) (e : exn)
      (tr : trace) :
  Hooked.download_failed datasource ticker start end_ interval market cb e tr
  = match Hooked.progress
            cb ("Error: " ++ exn_msg e)
            (tr ++ [EvLogError ("Download failed: " ++ exn_msg e)])%list with
    | (inl e', tr') => (inl e', tr')
    | (inr _, tr') =>
        (inr (Result ticker datasource market None None start end_ interval
                     false (Some ("Download failed: " ++ exn_msg e))), tr')
    end.
Proof.
  unfold Hooked.download_failed, bind, logger_error, emit, ret, str_of_exn.
  destruct (Hooked.progress cb ("Error: " ++ exn_msg e)
              (tr ++ [EvLogError ("Download failed: " ++ exn_msg e)])%list)
    as [[e'|[]] tr']; reflexivity.
Qed.

Lemma hooked_download_failed_returns (datasource ticker : string)
      (start end_ : option string) (interval : string)
      (market : option string) (cb : option Hooked.callback) (e : exn)
      (tr : trace) :
  returns_normally cb ->
  exists tr',
    Hooked.download_failed datasource ticker start end_ interval market cb e
                           tr
    = (inr (Result ticker datasource market None None start end_ interval
                   false (Some ("Download failed: " ++ exn_msg e))), tr').
Proof.
  intros R. rewrite hooked_download_failed_run.
  destruct (hooked_progress_run
              cb ("Error: " ++ exn_msg e)
              (tr ++ [EvLogError ("Download failed: " ++ exn_msg e)])%list R)
    as [tr' ->].
  eexists. reflexivity.
Qed.

(** [download_data] is its steps under the handler, run with the dates
    the first statement assigns. *)
Lemma hooked_download_data_unfold (w : world) (datasource ticker : string)
      (start end_ : option string) (interval : string)
      (market output_file : option string) (output_format : string)
      (cb : option Hooked.callback) (timeframe exchange : option string)
      (include_datasource : bool) (tr : trace) :
  Hooked.download_data w datasource ticker start end_ interval market
                       output_file output_format cb timeframe exchange
                       include_datasource tr
  = let '(dates, tr1) := assign_dates w timeframe start end_ tr in
    try_except
      (Hooked.download_steps w datasource ticker (opt_str (fst dates))
                             (opt_str (snd dates)) interval market
                             output_file output_format cb timeframe exchange
                             include_datasource)
      (Hooked.download_failed datasource ticker (fst dates) (snd dates)
                              interval market cb)
      tr1.
Proof.
  unfold Hooked.download_data, assign_dates. cbv zeta.
  destruct (needs_dates timeframe start end_).
  - destruct (calculate_dates_from_timeframe_run w timeframe start end_ tr)
      as [tr' E].
    unfold bind at 1. unfold try_except at 1. unfold bind at 1.
    unfold bind at 1. rewrite E. reflexivity.
  - reflexivity.
Qed.

(** A result that the steps return is a success, with the dates they were
    run with. *)
Lemma hooked_download_steps_success (w : world)
      (datasource ticker start end_ : string) (interval : string)
      (market output_file : option string) (output_format : string)
      (cb : option Hooked.callback) (timeframe exchange : option string)
      (include_datasource : bool) (tr tr' : trace) (res : DownloadResult) :
  Hooked.download_steps w datasource ticker start end_ interval market
                        output_file output_format cb timeframe exchange
                        include_datasource tr = (inr res, tr') ->
  success res = true /\ error res = None /\ data res <> None
  /\ start_date res = Some start /\ end_date res = Some end_.
Proof.
  unfold Hooked.download_steps. intros H.
  apply bind_inr in H. destruct H as (u1 & t1 & _ & H).
  apply bind_inr in H. destruct H as (u2 & t2 & _ & H).
  apply bind_inr in H. destruct H as (p & t3 & _ & H).
  destruct p as [msg|info]; [discriminate H|].
  unfold Hooked.create_fetch_save in H.
  repeat (apply bind_inr in H;
          let a := fresh "a" in
          let t := fresh "t" in
          destruct H as (a & t & _ & H)).
  apply ret_inr in H. destruct H as [-> _].
  cbn. split; [reflexivity|]. split; [reflexivity|].
  split; [discriminate|]. split; reflexivity.
Qed.

(** What a call of [download_data] comes to: a result, or the exception
    that the callback raised when the handler called it. *)
Lemma hooked_download_data_outcome (w : world) (datasource ticker : string)
      (start end_ : option string) (interval : string)
      (market output_file : option string) (output_format : string)
      (cb : option Hooked.callback) (timeframe exchange : option string)
      (include_datasource : bool) (tr : trace) :
  exists r tr',
    Hooked.download_data w datasource ticker start end_ interval market
                         output_file output_format cb timeframe exchange
                         include_datasource tr = (r, tr')
    /\ match r with
       | inr res =>
           (success res = false -> failed_result (fun _ => True) res)
           /\ (success res = true -> error res = None /\ data res <> None)
       | inl e =>
           exists f e0 t,
             cb = Some f
             /\ f ("Error: " ++ exn_msg e0)
                  (t ++ [EvLogError ("Download failed: " ++ exn_msg e0)])%list
                = (inl e, tr')
       end.
Proof.
  rewrite hooked_download_data_unfold.
  destruct (assign_dates w timeframe start end_ tr) as [dates tr1].
  unfold try_except.
  destruct (Hooked.download_steps
              w datasource ticker (opt_str (fst dates)) (opt_str (snd dates))
              interval market output_file output_format cb timeframe exchange
              include_datasource tr1) as [[e|res] tr2] eqn:S.
  - rewrite hooked_download_failed_run.
    destruct (Hooked.progress
                cb ("Error: " ++ exn_msg e)
                (tr2 ++ [EvLogError ("Download failed: " ++ exn_msg e)])%list)
      as [[e'|u] tr3] eqn:P.
    + eexists _, _. split; [reflexivity|].
      destruct cb as [f|]; [|discriminate P].
      exists f, e, tr2. split; [reflexivity|exact P].
    + eexists _, _. split; [reflexivity|]. split.
      * intros _. unfold failed_result. cbn.
        split; [reflexivity|]. split; [reflexivity|]. split; [reflexivity|].
        exists e. split; [reflexivity|exact I].
      * cbn. discriminate.
  - destruct (hooked_download_steps_success _ _ _ _ _ _ _ _ _ _ _ _ _ _ _ _ S)
      as (S1 & S2 & S3 & _).
    eexists _, _. split; [reflexivity|]. split.
    + rewrite S1. discriminate.
    + auto.
Qed.

End CallbackFacts.

Section ExceptionClaim.
Import Effects Pandas Service.

(** The call passes every check, up to the construction of the adapter. *)
Definition passes_checks (w : world) (datasource ticker start end_ : string)
           (market : option string) (output_format : string)
           (timeframe : option string) : Prop :=
  format_ok output_format
  /\ explicit_dates timeframe start end_
  /\ earlier_checks_pass w datasource ticker start end_ market
  /\ exists s e,
      to_datetime (pd w) start = Some s
      /\ to_datetime (pd w) end_ = Some e
      /\ day_of s < day_of e.

Lemma progress_run (cb : bool) (msg : string) (tr : trace) :
  exists tr', progress cb msg tr = (inr tt, tr').
Proof. unfold progress. destruct cb; eexists; reflexivity. Qed.

(** A call that passes the checks comes to the construction of the
    adapter, under the handler of [download_data]. *)
Lemma hooked_download_data_reaches (w : world)
      (datasource ticker start end_ : string)
      (interval : string) (market output_file : option string)
      (output_format : string) (cb : option Hooked.callback)
      (timeframe exchange : option string) (include_datasource : bool)
      (tr : trace) :
  returns_normally cb ->
  passes_checks w datasource ticker start end_ market output_format
                timeframe ->
  exists info tr1,
    Hooked.download_data w datasource ticker (Some start) (Some end_)
                         interval market output_file output_format cb
                         timeframe exchange include_datasource tr
    = try_except
        (Hooked.create_fetch_save w datasource ticker start end_ interval
                                  market output_file output_format cb
                                  timeframe exchange include_datasource info)
        (Hooked.download_failed datasource ticker (Some start) (Some end_)
                                interval market cb)
        tr1.
Proof.
  intros Ret (Fmt & X & Checks & s & e & Ps & Pe & Lt).
  rewrite hooked_download_data_unfold.
  assert (A : exists tr0,
             assign_dates w timeframe (Some start) (Some end_) tr
             = ((Some start, Some end_), tr0)).
  { unfold assign_dates. destruct (needs_dates timeframe (Some start)
                                               (Some end_)) eqn:N.
    - destruct (calculate_dates_from_timeframe_run
                  w timeframe (Some start) (Some end_) tr) as [tr0 E].
      rewrite E. destruct X as (Ns & Ne & [T|[Ws We]]).
      + unfold needs_dates in N. cbn [PyStr.truthy] in N.
        rewrite T, Ns, Ne in N. discriminate N.
      + rewrite (calculate_dates_both (now w) timeframe None start end_ Ws We).
        exists tr0. reflexivity.
    - eexists. reflexivity. }
  destruct A as [tr0 ->]. cbn [fst snd opt_str].
  assert (X0 : explicit_dates None start end_).
  { destruct X as (Ns & Ne & _). split; [exact Ns|]. split; [exact Ne|].
    left. reflexivity. }
  unfold Hooked.download_steps. unfold format_ok in Fmt. rewrite Fmt.
  cbn [negb].
  unfold try_except at 1. unfold bind at 1. unfold ret at 1.
  unfold bind at 1.
  destruct (hooked_progress_run cb "Validating parameters..." tr0 Ret)
    as [tr1 Pr].
  rewrite Pr. unfold bind at 1.
  destruct (preview_download_spec
              w datasource ticker (Some start) (Some end_) interval market
              None (fun d => d = (start, end_))
              (resolve_dates_explicit w None start end_ X0) tr1)
    as (r & ev & E & _ & (p & -> & s' & e' & [= -> ->] & O)).
  rewrite E. destruct p as [msg|info]; cbn in O.
  - specialize (O Checks). rewrite Ps, Pe in O. lia.
  - exists info, (tr1 ++ ev)%list. reflexivity.
Qed.

(** C3, as amended. A call of [download_data] comes to a result, or to an
    exception that the progress callback raised when the handler called
    it with the "Error: ..." message: nothing else leaves the call. So a
    call without a callback, or with one that returns from every call,
    returns a result. A result with [success = false] has no data and no
    file path, and its error is "Download failed: " followed by the
    message of the exception that was caught.

    For a callback that returns and a call that passes the checks made
    before the adapter is constructed: an exception the registry raises,
    and an exception the adapter's fetch raises, are reported in this
    way, with their own message. An exception of the resolver is not
    reported: when the dates have to be resolved and the resolver raises,
    the call goes on with the default dates, which the result carries.

    An exception that the callback raises inside the [try] block, here at
    its first call, is caught as any other: it is reported when the
    callback returns from the call the handler makes, and when the
    callback raises there too, that exception leaves [download_data].

    With a callback that records the message and returns, this
    [download_data] is the one of [Service]. *)
Theorem download_never_raises :
  (forall (w : world) (datasource ticker : string)
          (start end_ : option string) (interval : string)
          (market output_file : option string) (output_format : string)
          (progress_callback : option Hooked.callback)
          (timeframe exchange : option string)
          (include_datasource : bool) (tr : trace),
      exists r tr',
        Hooked.download_data w datasource ticker start end_ interval market
                             output_file output_format progress_callback
                             timeframe exchange include_datasource tr
        = (r, tr')
        /\ match r with
           | inr res =>
               (success res = false -> failed_result (fun _ => True) res)
               /\ (success res = true ->
                   error res = None /\ data res <> None)
           | inl e =>
               exists f e0 t,
                 progress_callback = Some f
                 /\ f ("Error: " ++ exn_msg e0)
                      (t ++ [EvLogError
                               ("Download failed: " ++ exn_msg e0)])%list
                    = (inl e, tr')
           end)
  /\ (forall (w : world) (datasource ticker : string)
             (start end_ : option string) (interval : string)
             (market output_file : option string) (output_format : string)
             (progress_callback : option Hooked.callback)
             (timeframe exchange : option string)
             (include_datasource : bool) (tr : trace),
         returns_normally progress_callback ->
         exists res tr',
           Hooked.download_data w datasource ticker start end_ interval
                                market output_file output_format
                                progress_callback timeframe exchange
                                include_datasource tr = (inr res, tr')
           /\ (success res = false -> failed_result (fun _ => True) res)
           /\ (success res = true -> error res = None /\ data res <> None))
  /\ (forall (w : world) (datasource ticker start end_ : string)
             (interval : string) (market output_file : option string)
             (output_format : string)
             (progress_callback : option Hooked.callback)
             (timeframe exchange : option string) (include_datasource : bool)
             (tr : trace) (ex : exn),
         returns_normally progress_callback ->
         passes_checks w datasource ticker start end_ market output_format
                       timeframe ->
         Registry.create_datasource (registry w) datasource
                                    (constructor_kwargs exchange) = inl ex ->
         exists res tr',
           Hooked.download_data w datasource ticker (Some start) (Some end_)
                                interval market output_file output_format
                                progress_callback timeframe exchange
                                include_datasource tr = (inr res, tr')
           /\ success res = false
           /\ error res = Some ("Download failed: " ++ exn_msg ex))
  /\ (forall (w : world) (datasource ticker start end_ : string)
             (interval : string) (market output_file : option string)
             (output_format : string)
             (progress_callback : option Hooked.callback)
             (timeframe exchange : option string) (include_datasource : bool)
             (tr : trace) (instance : Service.datasource) (ex : exn),
         returns_normally progress_callback ->
         passes_checks w datasource ticker start end_ market output_format
                       timeframe ->
         Registry.create_datasource (registry w) datasource
                                    (constructor_kwargs exchange)
         = inr instance ->
         (forall symbol tr0,
             exists tr1,
               fetch instance symbol start end_ interval tr0 = (inl ex, tr1)) ->
         exists res tr',
           Hooked.download_data w datasource ticker (Some start) (Some end_)
                                interval market output_file output_format
                                progress_callback timeframe exchange
                                include_datasource tr = (inr res, tr')
           /\ success res = false
           /\ error res = Some ("Download failed: " ++ exn_msg ex))
  /\ (forall (w : world) (datasource ticker : string)
             (start end_ : option string) (interval : string)
             (market output_file : option string) (output_format : string)
             (progress_callback : option Hooked.callback)
             (timeframe exchange : option string)
             (include_datasource : bool) (tr : trace) (ex : exn),
         returns_normally progress_callback ->
         needs_dates timeframe start end_ = true ->
         Timespan.calculate_dates (now w) timeframe start end_ None = inl ex ->
         exists res tr',
           Hooked.download_data w datasource ticker start end_ interval
                                market output_file output_format
                                progress_callback timeframe exchange
                                include_datasource tr
           = (inr res, tr')
           /\ start_date res = Some (fst (default_dates w))
           /\ end_date res = Some (snd (default_dates w)))
  /\ (forall (w : world) (datasource ticker : string)
             (start end_ : option string) (interval : string)
             (market output_file : option string) (output_format : string)
             (f : Hooked.callback) (timeframe exchange : option string)
             (include_datasource : bool) (tr : trace) (ex : exn),
         format_ok output_format ->
         (forall t, exists t',
               f "Validating parameters..." t = (inl ex, t')) ->
         ((forall t, exists t',
                f ("Error: " ++ exn_msg ex) t = (inr tt, t')) ->
          exists res tr',
            Hooked.download_data w datasource ticker start end_ interval
                                 market output_file output_format (Some f)
                                 timeframe exchange include_datasource tr
            = (inr res, tr')
            /\ success res = false
            /\ error res = Some ("Download failed: " ++ exn_msg ex))
         /\ (forall ex',
                (forall t, exists t',
                      f ("Error: " ++ exn_msg ex) t = (inl ex', t')) ->
                exists tr',
                  Hooked.download_data w datasource ticker start end_
                                       interval market output_file
                                       output_format (Some f) timeframe
                                       exchange include_datasource tr
                  = (inl ex', tr')))
  /\ (forall (w : world) (datasource ticker : string)
             (start end_ : option string) (interval : string)
             (market output_file : option string) (output_format : string)
             (progress_callback : bool) (timeframe exchange : option string)
             (include_datasource : bool),
         Hooked.download_data w datasource ticker start end_ interval market
                              output_file output_format
                              (Hooked.observing progress_callback) timeframe
                              exchange include_datasource
         = download_data w datasource ticker start end_ interval market
                         output_file output_format progress_callback
                         timeframe exchange include_datasource).
Proof.
  split; [exact hooked_download_data_outcome|].
  split; [|split; [|split; [|split; [|split]]]].
  - intros w datasource ticker start end_ interval market output_file
           output_format cb timeframe exchange include_datasource tr Ret.
    destruct (hooked_download_data_outcome
                w datasource ticker start end_ interval market output_file
                output_format cb timeframe exchange include_datasource tr)
      as (r & tr' & E & O).
    destruct r as [e|res].
    + destruct O as (f & e0 & t & -> & F).
      destruct (Ret f eq_refl ("Error: " ++ exn_msg e0)
                    (t ++ [EvLogError ("Download failed: " ++ exn_msg e0)])%list)
        as [t' F'].
      rewrite F' in F. discriminate F.
    + exists res, tr'. split; [exact E|exact O].
  - intros w datasource ticker start end_ interval market output_file
           output_format cb timeframe exchange include_datasource tr ex
           Ret Pass Create.
    destruct (hooked_download_data_reaches
                w datasource ticker start end_ interval market output_file
                output_format cb timeframe exchange include_datasource tr
                Ret Pass) as (info & tr1 & ->).
    unfold try_except, Hooked.create_fetch_save. cbv zeta.
    unfold bind at 1.
    destruct (hooked_progress_run cb "Creating data source..." tr1 Ret)
      as [tr2 ->].
    unfold bind at 1. unfold emit at 1. unfold bind at 1. unfold lift at 1.
    rewrite Create.
    destruct (hooked_download_failed_returns
                datasource ticker (Some start) (Some end_) interval market cb
                ex
                (tr2 ++ [EvCreate datasource (constructor_kwargs exchange)])%list
                Ret)
      as [tr3 ->].
    eexists _, _. split; [reflexivity|]. split; reflexivity.
  - intros w datasource ticker start end_ interval market output_file
           output_format cb timeframe exchange include_datasource tr instance
           ex Ret Pass Create Raises.
    destruct (hooked_download_data_reaches
                w datasource ticker start end_ interval market output_file
                output_format cb timeframe exchange include_datasource tr
                Ret Pass) as (info & tr1 & ->).
    unfold try_except, Hooked.create_fetch_save. cbv zeta.
    unfold bind at 1.
    destruct (hooked_progress_run cb "Creating data source..." tr1 Ret)
      as [tr2 ->].
    unfold bind at 1. unfold emit at 1. unfold bind at 1. unfold lift at 1.
    rewrite Create. unfold bind at 1.
    destruct (hooked_progress_run
                cb ("Fetching data for " ++ p_final_ticker info ++ "...")
                (tr2 ++ [EvCreate datasource (constructor_kwargs exchange)])%list
                Ret)
      as [tr3 ->].
    unfold bind at 1. unfold emit at 1. unfold bind at 1.
    destruct (Raises (p_final_ticker info)
                     (tr3 ++ [EvFetch (p_final_ticker info) start end_
                                      interval])%list) as [tr4 ->].
    destruct (hooked_download_failed_returns
                datasource ticker (Some start) (Some end_) interval market cb
                ex tr4 Ret)
      as [tr5 ->].
    eexists _, _. split; [reflexivity|]. split; reflexivity.
  - intros w datasource ticker start end_ interval market output_file
           output_format cb timeframe exchange include_datasource tr ex
           Ret Needs Raises.
    rewrite hooked_download_data_unfold. unfold assign_dates. rewrite Needs.
    destruct (calculate_dates_from_timeframe_run w timeframe start end_ tr)
      as [tr0 ->].
    rewrite Raises. cbn [fst snd opt_str].
    unfold try_except.
    destruct (Hooked.download_steps
                w datasource ticker (fst (default_dates w))
                (snd (default_dates w)) interval market output_file
                output_format cb timeframe exchange include_datasource tr0)
      as [[e|res] tr2] eqn:S.
    + destruct (hooked_download_failed_returns
                  datasource ticker (Some (fst (default_dates w)))
                  (Some (snd (default_dates w))) interval market cb e tr2 Ret)
        as [tr3 ->].
      eexists _, _. split; [reflexivity|]. split; reflexivity.
    + eexists _, _. split; [reflexivity|].
      destruct (hooked_download_steps_success
                  _ _ _ _ _ _ _ _ _ _ _ _ _ _ _ _ S)
        as (_ & _ & _ & S4 & S5).
      split; assumption.
  - intros w datasource ticker start end_ interval market output_file
           output_format f timeframe exchange include_datasource tr ex
           Fmt Raises.
    assert (Run :
               exists t',
                 Hooked.download_data w datasource ticker start end_ interval
                                      market output_file output_format
                                      (Some f) timeframe exchange
                                      include_datasource tr
                 = Hooked.download_failed
                     datasource ticker
                     (fst (fst (assign_dates w timeframe start end_ tr)))
                     (snd (fst (assign_dates w timeframe start end_ tr)))
                     interval market (Some f) ex t').
    { rewrite hooked_download_data_unfold.
      destruct (assign_dates w timeframe start end_ tr) as [dates tr1].
      cbn [fst snd].
      unfold try_except, Hooked.download_steps.
      unfold format_ok in Fmt. rewrite Fmt. cbn [negb].
      unfold bind at 1. unfold ret at 1. unfold bind at 1.
      cbn [Hooked.progress].
      destruct (Raises tr1) as [t' ->].
      exists t'. reflexivity. }
    destruct Run as [t1 ->].
    rewrite hooked_download_failed_run. cbn [Hooked.progress].
    split.
    + intros Returns.
      destruct (Returns
                  (t1 ++ [EvLogError ("Download failed: " ++ exn_msg ex)])%list)
        as [t2 ->].
      eexists _, _. split; [reflexivity|]. split; reflexivity.
    + intros ex' Again.
      destruct (Again
                  (t1 ++ [EvLogError ("Download failed: " ++ exn_msg ex)])%list)
        as [t2 ->].
      eexists. reflexivity.
  - exact hooked_observing.
Qed.

End ExceptionClaim.

(** A callback that raises at every call. *)
Definition failing_callback : Hooked.callback :=
  fun msg tr => (inl (Exn RuntimeError "the display is gone"), tr).

Lemma download_never_raises_witness :
  passes_checks demo_world "nope" "AAPL" "2024-01-02" "2024-06-01" None "csv"
                None
  /\ Registry.create_datasource (Service.registry demo_world) "nope"
                                (Service.constructor_kwargs None)
     = inl (Exn ValueError "Datasource 'nope' not found. Available: ['demo']")
  /\ Service.needs_dates (Some "INVALID") None None = true
  /\ (exists res tr',
         Hooked.download_data demo_world "nope" "AAPL" (Some "2024-01-02")
                              (Some "2024-06-01") "1d" None None "csv"
                              (Hooked.observing true) None None false []
         = (inr res, tr')
         /\ Service.success res = false
         /\ Service.error res
            = Some ("Download failed: "
                      ++ "Datasource 'nope' not found. Available: ['demo']"))
  /\ (exists res tr',
         Hooked.download_data demo_world "demo" "AAPL" None None "1d" None
                              None "csv" (Hooked.observing true)
                              (Some "INVALID") None false []
         = (inr res, tr')
         /\ Service.start_date res = Some "2024-03-01"
         /\ Service.end_date res = Some "2025-03-01")
  /\ (exists tr',
         Hooked.download_data demo_world "demo" "AAPL" (Some "2024-01-02")
                              (Some "2024-06-01") "1d" None None "csv"
                              (Some failing_callback) None None false []
         = (inl (Exn RuntimeError "the display is gone"), tr')).
Proof.
  assert (P : passes_checks demo_world "nope" "AAPL" "2024-01-02" "2024-06-01"
                            None "csv" None).
  { split; [reflexivity|]. split.
    - split; [reflexivity|]. split; [reflexivity|]. left. reflexivity.
    - split.
      + split; [reflexivity|]. split; [reflexivity|].
        split; [intros T; discriminate T|reflexivity].
      + exists 1704153600000, 1717200000000.
        split; [reflexivity|]. split; [reflexivity|]. vm_compute. reflexivity. }
  split; [exact P|]. split; [reflexivity|]. split; [reflexivity|].
  split; [|split].
  - exact (proj1 (proj2 (proj2 download_never_raises))
                 demo_world "nope" "AAPL" "2024-01-02" "2024-06-01" "1d" None
                 None "csv" (Hooked.observing true) None None false []
                 (Exn ValueError
                      "Datasource 'nope' not found. Available: ['demo']")
                 (observing_returns true) P eq_refl).
  - exact (proj1 (proj2 (proj2 (proj2 (proj2 download_never_raises))))
                 demo_world "demo" "AAPL" None None "1d" None None "csv"
                 (Hooked.observing true) (Some "INVALID") None false []
                 (Exn ValueError
                      "Invalid timespan 'INVALID'. Available options: 1D, 5D, 10D, 1W, 2W, 1M, 3M, 6M, YTD, 1Y, 2Y, 3Y, 5Y")
                 (observing_returns true) eq_refl eq_refl).
  - apply (proj2 (proj1 (proj2 (proj2 (proj2 (proj2 (proj2
                   download_never_raises)))))
                   demo_world "demo" "AAPL" (Some "2024-01-02")
                   (Some "2024-06-01") "1d" None None "csv" failing_callback
                   None None false []
                   (Exn RuntimeError "the display is gone") eq_refl
                   (fun t => ex_intro _ t eq_refl))
                 (Exn RuntimeError "the display is gone")).
    intros t. exists t. reflexivity.
Defined.

(** C3 as stated fails for an invalid timespan name: the resolver raises,
    the orchestrator logs the message and goes on with the default dates,
    and the download succeeds. *)
Lemma invalid_timespan_not_reported :
  Timespan.calculate_dates (Service.now demo_world) (Some "INVALID") None None
                           None
  = inl (Exn ValueError
             "Invalid timespan 'INVALID'. Available options: 1D, 5D, 10D, 1W, 2W, 1M, 3M, 6M, YTD, 1Y, 2Y, 3Y, 5Y")
  /\ exists res tr',
      Hooked.download_data demo_world "demo" "AAPL" None None "1d" None None
                           "csv" (Hooked.observing true) (Some "INVALID")
                           None false []
      = (inr res, tr')
      /\ Service.success res = true
      /\ Service.error res = None
      /\ Service.start_date res = Some "2024-03-01"
      /\ Service.end_date res = Some "2025-03-01".
Proof.
  split; [reflexivity|].
  eexists _, _. split; [vm_compute; reflexivity|].
  repeat split; reflexivity.
Qed.

(** * Further properties of the sources *)

(** ** Formatting a date and reading it back *)

Section DateText.
Import Calendar.

Lemma digit_of_digit_char (v : Z) (rest : chars) :
  0 <= v <= 9 -> digit (PyStr.digit_char v :: rest) = Some (v, rest).
Proof.
  intros H.
  assert (C : v = 0 \/ v = 1 \/ v = 2 \/ v = 3 \/ v = 4 \/ v = 5 \/ v = 6
              \/ v = 7 \/ v = 8 \/ v = 9) by lia.
  destruct C as [->|[->|[->|[->|[->|[->|[->|[->|[->| ->]]]]]]]]];
    reflexivity.
Qed.

Lemma year_field_digits (y : Z) (rest : chars) :
  0 <= y <= 9999 ->
  year_field (PyStr.digit_char (y / 10 / 10 / 10 mod 10)
              :: PyStr.digit_char (y / 10 / 10 mod 10)
              :: PyStr.digit_char (y / 10 mod 10)
              :: PyStr.digit_char (y mod 10) :: rest) = Some (y, rest).
Proof.
  intros H. unfold year_field.
  rewrite !digit_of_digit_char
    by (match goal with
        | |- 0 <= ?a mod 10 <= 9 =>
            pose proof (Z.mod_pos_bound a 10 ltac:(lia)); lia
        end).
  f_equal. f_equal. Z.div_mod_to_equations. lia.
Qed.

(** What [strftime] writes, [strptime] reads back, for a year of four
    digits: there [%Y] writes the same text whether or not the platform
    pads shorter years with zeros. *)
Lemma strptime_strftime (t : datetime) :
  valid t = true -> 1000 <= year t ->
  strptime_ymd (strftime_ymd t) = ok t.
Proof.
  destruct t as [y m d]. intros V _.
  assert (B : 1 <= y <= 9999 /\ 1 <= m <= 12 /\ 1 <= d <= 31).
  { revert V. unfold valid, valid_ymd, MINYEAR, MAXYEAR, days_in_month.
    cbn [year month day].
    rewrite !andb_true_iff, !Z.leb_le.
    intros (((((Y1 & Y2) & M1) & M2) & D1) & D2).
    repeat split; try lia.
    destruct (m =? 2); [destruct (is_leap y); lia|].
    destruct ((m =? 4) || (m =? 6) || (m =? 9) || (m =? 11)); lia. }
  destruct B as (By & Bm & Bd).
  unfold strptime_ymd, strftime_ymd, regex_ymd. cbn [year month day].
  cbn [PyStr.digits_fixed String.append list_ascii_of_string].
  rewrite year_field_digits by lia.
  assert (Cm : m = 1 \/ m = 2 \/ m = 3 \/ m = 4 \/ m = 5 \/ m = 6 \/ m = 7
               \/ m = 8 \/ m = 9 \/ m = 10 \/ m = 11 \/ m = 12) by lia.
  assert (Cd : d = 1 \/ d = 2 \/ d = 3 \/ d = 4 \/ d = 5 \/ d = 6 \/ d = 7
               \/ d = 8 \/ d = 9 \/ d = 10 \/ d = 11 \/ d = 12 \/ d = 13
               \/ d = 14 \/ d = 15 \/ d = 16 \/ d = 17 \/ d = 18 \/ d = 19
               \/ d = 20 \/ d = 21 \/ d = 22 \/ d = 23 \/ d = 24 \/ d = 25
               \/ d = 26 \/ d = 27 \/ d = 28 \/ d = 29 \/ d = 30 \/ d = 31)
    by lia.
  unfold valid in V. cbn [year month day] in V.
  destruct Cm as [->|[->|[->|[->|[->|[->|[->|[->|[->|[->|[->| ->]]]]]]]]]]];
    repeat (destruct Cd as [->|Cd];
            [cbv -[valid_ymd]; rewrite V; reflexivity|]);
    subst d; cbv -[valid_ymd]; rewrite V; reflexivity.
Qed.

End DateText.

(** ** The resolver, rule by rule *)

Section ResolverRules.
Import Calendar Timespan.

(** The end of a resolved range when no end date is given: the override,
    else the clock. *)
Definition end_of (now : datetime) (override : option datetime) : datetime :=
  match override with
  | Some t => t
  | None => now
  end.

Lemma strptime_valid (s : string) (t : datetime) :
  strptime_ymd s = ok t -> valid t = true.
Proof.
  unfold strptime_ymd.
  destruct (regex_ymd (list_ascii_of_string s)) as [[[[y m] d] rest]|];
    [|discriminate].
  destruct rest; [|discriminate].
  destruct (valid_ymd y m d) eqn:V; [|discriminate].
  intros [= <-]. exact V.
Qed.

Lemma sub_days_valid (t t' : datetime) (n : Z) :
  sub_days t n = ok t' -> valid t' = true.
Proof.
  unfold sub_days.
  destruct ((0 <? toordinal t - n) && (toordinal t - n <=? MAXORDINAL)) eqn:C;
    [|discriminate].
  apply andb_true_iff in C. rewrite Z.ltb_lt, Z.leb_le in C.
  intros [= <-]. apply fromordinal_spec. lia.
Qed.

Lemma strftime_well_formed (t : datetime) :
  valid t = true -> 1000 <= year t -> well_formed_date (strftime_ymd t).
Proof. intros V Y. exists t. apply strptime_strftime; assumption. Qed.

Lemma days_before_year_mono (y y' : Z) :
  y <= y' -> days_before_year y <= days_before_year y'.
Proof.
  unfold days_before_year. cbv zeta. intros H.
  Z.div_mod_to_equations. lia.
Qed.

(** The ordinal of a date lies among the days of its year. *)
Lemma toordinal_in_year (t : datetime) :
  valid t = true ->
  days_before_year (year t) < toordinal t <= days_before_year (year t + 1).
Proof.
  destruct t as [y m d]. unfold valid, valid_ymd, toordinal.
  cbn [year month day].
  rewrite !andb_true_iff, !Z.leb_le.
  intros (((((Y1 & Y2) & M1) & M2) & D1) & D2).
  pose proof (day_of_year_bound y m d ltac:(lia) ltac:(lia)) as B.
  pose proof (days_before_year_succ y) as S.
  destruct (is_leap y); lia.
Qed.

(** A date after the last day of the year [Y - 1] is in the year [Y] or
    later. *)
Lemma year_lower_bound (t : datetime) (Y : Z) :
  valid t = true -> days_before_year Y < toordinal t -> Y <= year t.
Proof.
  intros V H. destruct (Z.le_gt_cases Y (year t)) as [L|G]; [exact L|].
  pose proof (toordinal_in_year t V) as B.
  pose proof (days_before_year_mono (year t + 1) Y ltac:(lia)) as M.
  lia.
Qed.

Lemma sub_days_inv (t t' : datetime) (n : Z) :
  sub_days t n = ok t' ->
  valid t' = true /\ toordinal t' = toordinal t - n.
Proof.
  unfold sub_days.
  destruct ((0 <? toordinal t - n) && (toordinal t - n <=? MAXORDINAL)) eqn:C;
    [|discriminate].
  apply andb_true_iff in C. rewrite Z.ltb_lt, Z.leb_le in C.
  intros [= <-]. apply fromordinal_spec. lia.
Qed.

(** Going back [n] days from a date in the year [Y + k] or later stays in
    the year [Y] or later, when the [k] years before it hold more than
    [n] days. *)
Lemma sub_days_year (t t' : datetime) (n Y k : Z) :
  valid t = true -> sub_days t n = ok t' ->
  Y + k <= year t ->
  n <= days_before_year (Y + k) - days_before_year Y ->
  Y <= year t'.
Proof.
  intros V H Ly Ln. destruct (sub_days_inv t t' n H) as [V' O].
  apply year_lower_bound; [exact V'|].
  pose proof (toordinal_in_year t V) as B.
  pose proof (days_before_year_mono (Y + k) (year t) Ly) as M.
  lia.
Qed.

Lemma timespan_days_bound (name : string) (cfg : timespan_config) :
  lookup name PREDEFINED_TIMESPANS = Some cfg ->
  0 <= timedelta_days cfg <= 1825.
Proof.
  unfold PREDEFINED_TIMESPANS. cbn [lookup].
  repeat (destruct (String.eqb name _); [intros [= <-]; cbn; lia|]).
  discriminate.
Qed.

Lemma lookup_absent {V} (k : string) (d : list (string * V)) :
  ~ In k (keys d) -> lookup k d = None.
Proof.
  induction d as [|[k' v] r IH]; [reflexivity|].
  cbn [keys map fst In lookup]. intros N.
  destruct (String.eqb_spec k k') as [->|_].
  - exfalso. apply N. left. reflexivity.
  - apply IH. intros I. apply N. right. exact I.
Qed.

(** The last rule of the resolver, once the timespan is looked up. *)
Lemma calculate_dates_timespan (now : datetime) (override : option datetime)
      (timespan start end_ : option string) (name : string)
      (cfg : timespan_config) :
  PyStr.truthy start = false -> PyStr.truthy end_ = false ->
  or_default timespan "1Y" = name ->
  lookup name PREDEFINED_TIMESPANS = Some cfg ->
  calculate_dates now timespan start end_ override
  = if String.eqb name "YTD"
    then ok (strftime_ymd (Date (year (end_of now override)) 1 1),
             strftime_ymd (end_of now override))
    else rbind (sub_days (end_of now override) (timedelta_days cfg))
               (fun start_dt =>
                  ok (strftime_ymd start_dt,
                      strftime_ymd (end_of now override))).
Proof.
  intros Hs He Hn Hl. unfold calculate_dates. rewrite Hs, He, Hn, Hl.
  reflexivity.
Qed.

Lemma calculate_dates_unknown (now : datetime) (override : option datetime)
      (timespan start end_ : option string) (name : string) :
  PyStr.truthy start = false -> PyStr.truthy end_ = false ->
  or_default timespan "1Y" = name ->
  lookup name PREDEFINED_TIMESPANS = None ->
  calculate_dates now timespan start end_ override
  = raise_ ValueError
      ("Invalid timespan '" ++ name ++ "'. Available options: "
       ++ PyStr.join ", " (keys PREDEFINED_TIMESPANS)).
Proof.
  intros Hs He Hn Hl. unfold calculate_dates. rewrite Hs, He, Hn, Hl.
  reflexivity.
Qed.

Lemma first_of_january (t : datetime) :
  valid t = true ->
  valid (Date (year t) 1 1) = true
  /\ toordinal (Date (year t) 1 1) <= toordinal t.
Proof.
  destruct t as [y m d]. unfold valid, valid_ymd, toordinal, MINYEAR, MAXYEAR.
  cbn [year month day].
  rewrite !andb_true_iff, !Z.leb_le.
  intros (((((Y1 & Y2) & M1) & M2) & D1) & D2). split.
  - repeat split; try lia. unfold days_in_month. cbn. lia.
  - pose proof (day_of_year_bound y m d ltac:(lia) ltac:(lia)) as B.
    unfold days_before_month at 1. cbn [days_before_month_tbl Z.ltb].
    cbn -[Z.add Z.le days_before_year days_before_month]. lia.
Qed.

End ResolverRules.

Section ResolverRuleTheorems.
Import Calendar Timespan.

(** X1. With a well-formed start date and no end date ([None] or the
    empty string), the resolver returns the start date as given and the
    day of the clock (or of the end override) as end date, whatever the
    timespan argument is -- also one that names no timespan. *)
Theorem start_only_ends_today :
  forall (now : datetime) (override : option datetime)
         (timespan end_ : option string) (start : string),
    well_formed_date start ->
    PyStr.truthy end_ = false ->
    calculate_dates now timespan (Some start) end_ override
    = ok (start, strftime_ymd (end_of now override)).
Proof.
  intros now override timespan end_ start Hs He.
  unfold calculate_dates. cbn [PyStr.truthy].
  rewrite (well_formed_nonempty _ Hs), He.
  unfold or_default. cbn [PyStr.truthy].
  rewrite (well_formed_nonempty _ Hs), (well_formed_validates _ Hs).
  reflexivity.
Qed.

(** X2. With a well-formed end date [E] and no start date, the resolver
    looks back 365 days from [E] and returns the end date as it was
    given; the timespan argument, the clock and the end override are not
    consulted, so a timespan that names nothing is not reported. *)
Theorem end_only_looks_back_one_year :
  forall (now : datetime) (override : option datetime)
         (timespan start : option string) (end_ : string) (E : datetime),
    PyStr.truthy start = false ->
    strptime_ymd end_ = ok E ->
    365 < toordinal E ->
    exists S,
      calculate_dates now timespan start (Some end_) override
      = ok (strftime_ymd S, end_)
      /\ valid S = true
      /\ toordinal S = toordinal E - 365.
Proof.
  intros now override timespan start end_ E Hs HE Ho.
  assert (W : well_formed_date end_) by (exists E; exact HE).
  destruct (sub_days_spec E 365 (strptime_valid _ _ HE) ltac:(lia))
    as (S & HS & VS & OS).
  exists S. split; [|auto].
  unfold calculate_dates. cbn [PyStr.truthy].
  rewrite Hs, (well_formed_nonempty _ W).
  unfold or_default. cbn [PyStr.truthy].
  rewrite (well_formed_nonempty _ W), (well_formed_validates _ W).
  cbn [rbind ok]. rewrite HE. cbn [rbind ok]. rewrite HS. reflexivity.
Qed.

(** X3. With no dates given, a timespan of the table other than "YTD"
    resolves to the range that ends on the end day [E] (the override,
    else the clock) and starts the table's number of days before it --
    1, 5, 10, 7, 14, 30, 90, 180, 365, 730, 1095 or 1825 days: a week is
    7 days, a month 30. "YTD" resolves to the first of January of the
    year of [E], which is never after [E], and never raises. *)
Theorem timespan_counts_back_from_end :
  forall (now : datetime) (override : option datetime)
         (start end_ : option string) (name : string)
         (cfg : timespan_config),
    PyStr.truthy start = false -> PyStr.truthy end_ = false ->
    In (name, cfg) PREDEFINED_TIMESPANS ->
    valid (end_of now override) = true ->
    In (name, timedelta_days cfg)
       [ ("1D", 1); ("5D", 5); ("10D", 10); ("1W", 7); ("2W", 14);
         ("1M", 30); ("3M", 90); ("6M", 180); ("YTD", 0); ("1Y", 365);
         ("2Y", 730); ("3Y", 1095); ("5Y", 1825) ]
    /\ (name = "YTD" ->
        calculate_dates now (Some name) start end_ override
        = ok (strftime_ymd (Date (year (end_of now override)) 1 1),
              strftime_ymd (end_of now override))
        /\ toordinal (Date (year (end_of now override)) 1 1)
           <= toordinal (end_of now override))
    /\ (name <> "YTD" ->
        timedelta_days cfg < toordinal (end_of now override) ->
        exists S,
          calculate_dates now (Some name) start end_ override
          = ok (strftime_ymd S, strftime_ymd (end_of now override))
          /\ valid S = true
          /\ toordinal S
             = toordinal (end_of now override) - timedelta_days cfg).
Proof.
  intros now override start end_ name cfg Hs He HI V.
  assert (L : lookup name PREDEFINED_TIMESPANS = Some cfg
              /\ or_default (Some name) "1Y" = name
              /\ 0 <= timedelta_days cfg
              /\ In (name, timedelta_days cfg)
                    [ ("1D", 1); ("5D", 5); ("10D", 10); ("1W", 7);
                      ("2W", 14); ("1M", 30); ("3M", 90); ("6M", 180);
                      ("YTD", 0); ("1Y", 365); ("2Y", 730); ("3Y", 1095);
                      ("5Y", 1825) ]).
  { cbn in HI.
    repeat (destruct HI as [HI|HI];
            [injection HI as <- <-;
             split; [reflexivity|]; split; [reflexivity|];
             split; [cbn; lia|]; cbn; tauto|]).
    contradiction. }
  destruct L as (Hl & Hn & Hd & HT). split; [exact HT|].
  rewrite (calculate_dates_timespan now override (Some name) start end_
                                    name cfg Hs He Hn Hl).
  split.
  - intros ->. split; [reflexivity|].
    apply first_of_january. exact V.
  - intros N Ho.
    destruct (String.eqb_spec name "YTD") as [C|_]; [contradiction|].
    destruct (sub_days_spec (end_of now override) (timedelta_days cfg) V
                            ltac:(lia)) as (S & HS & VS & OS).
    exists S. rewrite HS. cbn [rbind]. auto.
Qed.

(** X4. With no dates given: a timespan argument that is not one of the
    thirteen names of the table is refused with a [ValueError] that
    quotes it and lists the names (the comparison is exact: "1y" is
    refused); a missing or empty timespan means "1Y"; and every name of
    the table resolves to a range ending on the end day, when that day is
    late enough for the longest look-back. *)
Theorem unknown_timespan_rejected :
  forall (now : datetime) (override : option datetime)
         (timespan start end_ : option string),
    PyStr.truthy start = false -> PyStr.truthy end_ = false ->
    (forall name,
        timespan = Some name -> name <> "" ->
        ~ In name get_available_timespans ->
        calculate_dates now timespan start end_ override
        = raise_ ValueError
            ("Invalid timespan '" ++ name
             ++ "'. Available options: 1D, 5D, 10D, 1W, 2W, 1M, 3M, 6M, YTD, 1Y, 2Y, 3Y, 5Y"))
    /\ (PyStr.truthy timespan = false ->
        calculate_dates now timespan start end_ override
        = calculate_dates now (Some "1Y") start end_ override)
    /\ (forall name,
           timespan = Some name ->
           In name get_available_timespans ->
           valid (end_of now override) = true ->
           1825 < toordinal (end_of now override) ->
           exists s,
             calculate_dates now timespan start end_ override
             = ok (s, strftime_ymd (end_of now override))).
Proof.
  intros now override timespan start end_ Hs He. split; [|split].
  - intros name -> Ne NI.
    rewrite (calculate_dates_unknown now override (Some name) start end_
                                     name Hs He).
    + reflexivity.
    + unfold or_default. cbn [PyStr.truthy].
      destruct name; [contradiction|reflexivity].
    + apply lookup_absent. exact NI.
  - intros Ht. unfold calculate_dates. rewrite Hs, He.
    unfold or_default. rewrite Ht. reflexivity.
  - intros name -> HI V Ho.
    assert (L : exists cfg,
               lookup name PREDEFINED_TIMESPANS = Some cfg
               /\ or_default (Some name) "1Y" = name
               /\ 0 <= timedelta_days cfg <= 1825).
    { cbn in HI.
      repeat (destruct HI as [HI|HI];
              [subst name; eexists; split; [reflexivity|];
               split; [reflexivity|]; cbn; lia|]).
      contradiction. }
    destruct L as (cfg & Hl & Hn & Hd).
    rewrite (calculate_dates_timespan now override (Some name) start end_
                                      name cfg Hs He Hn Hl).
    destruct (String.eqb name "YTD"); [eexists; reflexivity|].
    destruct (sub_days_spec (end_of now override) (timedelta_days cfg) V
                            ltac:(lia)) as (S & HS & _).
    rewrite HS. eexists. reflexivity.
Qed.

(** X5. What the resolver returns is a pair of well-formed dates, and
    resolving that pair again as explicit dates, under any timespan, clock
    and override, returns it unchanged. This is stated where every date
    the resolver formats has a year of four digits, as [%Y] writes
    shorter years with or without leading zeros according to the
    platform: the end day (the override, else the clock) is a date in the
    year 1005 or later, and an end date that is given is in the year 1001
    or later. *)
Theorem resolved_dates_resolve_again :
  forall (now : datetime) (override : option datetime)
         (timespan start end_ : option string) (r : string * string),
    valid (end_of now override) = true ->
    1005 <= year (end_of now override) ->
    (forall E, strptime_ymd (or_default end_ "") = ok E -> 1001 <= year E) ->
    calculate_dates now timespan start end_ override = ok r ->
    well_formed_date (fst r) /\ well_formed_date (snd r)
    /\ forall (now' : datetime) (override' : option datetime)
              (timespan' : option string),
        calculate_dates now' timespan' (Some (fst r)) (Some (snd r)) override'
        = ok r.
Proof.
  intros now override timespan start end_ r V Y1005 Y1001 H.
  assert (W : well_formed_date (fst r) /\ well_formed_date (snd r)).
  { revert H. unfold calculate_dates. fold (end_of now override).
    destruct (PyStr.truthy start) eqn:Ts, (PyStr.truthy end_) eqn:Te.
    - destruct (_validate_date_format (or_default start "")) as [e|[]] eqn:A;
        [discriminate|].
      destruct (_validate_date_format (or_default end_ "")) as [e|[]] eqn:B;
        [discriminate|].
      cbn [rbind]. intros [= <-]. cbn [fst snd].
      split; apply validates_well_formed; assumption.
    - destruct (_validate_date_format (or_default start "")) as [e|[]] eqn:A;
        [discriminate|].
      cbn [rbind]. intros [= <-]. cbn [fst snd].
      split; [apply validates_well_formed; assumption|].
      apply strftime_well_formed; [exact V|lia].
    - destruct (_validate_date_format (or_default end_ "")) as [e|[]] eqn:B;
        [discriminate|].
      cbn [rbind].
      destruct (strptime_ymd (or_default end_ "")) as [e|E] eqn:HE;
        [discriminate|].
      cbn [rbind].
      destruct (sub_days E 365) as [e|S] eqn:HS; [discriminate|].
      cbn [rbind]. intros [= <-]. cbn [fst snd].
      split; [|apply validates_well_formed; assumption].
      apply strftime_well_formed; [apply (sub_days_valid _ _ _ HS)|].
      apply (sub_days_year E S 365 1000 1);
        [exact (strptime_valid _ _ HE)|exact HS|
          exact (Y1001 E eq_refl)|vm_compute; discriminate].
    - destruct (lookup (or_default timespan "1Y") PREDEFINED_TIMESPANS)
        as [cfg|] eqn:L; [|discriminate].
      destruct (String.eqb (or_default timespan "1Y") "YTD").
      + intros [= <-]. cbn [fst snd].
        split; apply strftime_well_formed;
          [apply first_of_january; exact V|cbn [year]; lia|exact V|lia].
      + destruct (sub_days (end_of now override) (timedelta_days cfg))
          as [e|S] eqn:HS; [discriminate|].
        cbn [rbind]. intros [= <-]. cbn [fst snd].
        pose proof (timespan_days_bound _ _ L) as Bd.
        split; apply strftime_well_formed;
          [apply (sub_days_valid _ _ _ HS)| |exact V|lia].
        apply (sub_days_year (end_of now override) S (timedelta_days cfg)
                             1000 5);
          [exact V|exact HS|exact Y1005|].
        replace (days_before_year (1000 + 5) - days_before_year 1000)
          with 1826 by (vm_compute; reflexivity).
        lia. }
  destruct W as [W1 W2]. split; [exact W1|]. split; [exact W2|].
  intros now' override' timespan'. destruct r as [s e].
  apply calculate_dates_both; assumption.
Qed.

End ResolverRuleTheorems.

Lemma start_only_ends_today_witness :
  well_formed_date "2024-01-15" /\ PyStr.truthy (Some "") = false
  /\ Timespan.calculate_dates (Calendar.Date 2025 3 1) (Some "nothing")
                              (Some "2024-01-15") (Some "") None
     = ok ("2024-01-15", "2025-03-01").
Proof.
  assert (W : well_formed_date "2024-01-15") by (eexists; reflexivity).
  split; [exact W|]. split; [reflexivity|].
  exact (start_only_ends_today (Calendar.Date 2025 3 1) None (Some "nothing")
                               (Some "") "2024-01-15" W eq_refl).
Defined.

Lemma end_only_looks_back_one_year_witness :
  PyStr.truthy None = false
  /\ Calendar.strptime_ymd "2024-06-15" = ok (Calendar.Date 2024 6 15)
  /\ 365 < Calendar.toordinal (Calendar.Date 2024 6 15)
  /\ exists S,
      Timespan.calculate_dates (Calendar.Date 2025 3 1) (Some "5D") None
                               (Some "2024-06-15") None
      = ok (Calendar.strftime_ymd S, "2024-06-15")
      /\ Calendar.valid S = true
      /\ Calendar.toordinal S
         = Calendar.toordinal (Calendar.Date 2024 6 15) - 365.
Proof.
  split; [reflexivity|]. split; [reflexivity|]. split; [reflexivity|].
  apply (end_only_looks_back_one_year
           (Calendar.Date 2025 3 1) None (Some "5D") None "2024-06-15"
           (Calendar.Date 2024 6 15)); reflexivity.
Defined.

Lemma timespan_counts_back_from_end_witness :
  In ("2W", Timespan.Weeks 2) Timespan.PREDEFINED_TIMESPANS
  /\ Calendar.valid (end_of (Calendar.Date 2025 3 1) None) = true
  /\ "2W" <> "YTD"
  /\ Timespan.timedelta_days (Timespan.Weeks 2)
     < Calendar.toordinal (end_of (Calendar.Date 2025 3 1) None)
  /\ exists S,
      Timespan.calculate_dates (Calendar.Date 2025 3 1) (Some "2W") None None
                               None
      = ok (Calendar.strftime_ymd S, "2025-03-01")
      /\ Calendar.valid S = true
      /\ Calendar.toordinal S
         = Calendar.toordinal (Calendar.Date 2025 3 1) - 14.
Proof.
  assert (I : In ("2W", Timespan.Weeks 2) Timespan.PREDEFINED_TIMESPANS)
    by (cbn; tauto).
  split; [exact I|]. split; [reflexivity|]. split; [discriminate|].
  split; [reflexivity|].
  apply (proj2 (proj2 (timespan_counts_back_from_end
                         (Calendar.Date 2025 3 1) None None None "2W"
                         (Timespan.Weeks 2) eq_refl eq_refl I eq_refl)));
    [discriminate|reflexivity].
Defined.

Lemma unknown_timespan_rejected_witness :
  "1y" <> "" /\ ~ In "1y" Timespan.get_available_timespans
  /\ Timespan.calculate_dates (Calendar.Date 2025 3 1) (Some "1y") None None
                              None
     = raise_ ValueError
         "Invalid timespan '1y'. Available options: 1D, 5D, 10D, 1W, 2W, 1M, 3M, 6M, YTD, 1Y, 2Y, 3Y, 5Y".
Proof.
  assert (N : ~ In "1y" Timespan.get_available_timespans).
  { cbn. intros H.
    repeat (destruct H as [H|H]; [discriminate H|]). exact H. }
  split; [discriminate|]. split; [exact N|].
  apply (proj1 (unknown_timespan_rejected
                  (Calendar.Date 2025 3 1) None (Some "1y") None None
                  eq_refl eq_refl) "1y" eq_refl); [discriminate|exact N].
Defined.

Lemma resolved_dates_resolve_again_witness :
  Calendar.valid (end_of (Calendar.Date 2025 3 1) None) = true
  /\ 1005 <= Calendar.year (end_of (Calendar.Date 2025 3 1) None)
  /\ Calendar.strptime_ymd (Timespan.or_default (Some "2024-06-15") "")
     = ok (Calendar.Date 2024 6 15)
  /\ Timespan.calculate_dates (Calendar.Date 2025 3 1) (Some "6M") None
                              (Some "2024-06-15") None
     = ok ("2023-06-16", "2024-06-15")
  /\ Timespan.calculate_dates (Calendar.Date 2030 1 1) (Some "YTD")
                              (Some "2023-06-16") (Some "2024-06-15") None
     = ok ("2023-06-16", "2024-06-15").
Proof.
  assert (Y : 1005 <= Calendar.year (end_of (Calendar.Date 2025 3 1) None))
    by (cbn; lia).
  assert (G : forall E,
             Calendar.strptime_ymd (Timespan.or_default (Some "2024-06-15") "")
             = ok E -> 1001 <= Calendar.year E).
  { intros E H. vm_compute in H. injection H as <-. cbn. lia. }
  split; [reflexivity|]. split; [exact Y|]. split; [reflexivity|].
  split; [reflexivity|].
  apply (proj2 (proj2 (resolved_dates_resolve_again
                         (Calendar.Date 2025 3 1) None (Some "6M") None
                         (Some "2024-06-15")
                         ("2023-06-16", "2024-06-15") eq_refl Y G eq_refl))
               (Calendar.Date 2030 1 1) None (Some "YTD")).
Defined.

(** ** The registry: lookups and registrations *)

Section RegistryLookups.
Import Dict Registry.

Context {Instance : Type}.

Lemma get_present {V} (k : string) (d : dict V) :
  In k (keys d) -> exists v, get k d = Some v.
Proof.
  induction d as [|[k' v] r IH]; simpl; [contradiction|].
  intros [E|I].
  - subst k'. rewrite String.eqb_refl. eauto.
  - destruct (String.eqb k k'); [eauto|apply IH; exact I].
Qed.

(** X6. A lookup succeeds exactly on the listed names. On a listed name
    [get_datasource] returns the class and [create_datasource] returns
    what its constructor returns for the keyword arguments (or raises what
    it raises); on any other name both raise [ValueError] with a message
    that quotes the name and lists the registered names in registration
    order. *)
Theorem lookup_succeeds_on_listed_names :
  forall (self : DataSourceRegistry Instance) (name : string) (kw : kwargs),
    (In name (list_datasources self) ->
     exists cls,
       get_datasource self name = ok cls
       /\ create_datasource self name kw = construct cls kw)
    /\ (~ In name (list_datasources self) ->
        get_datasource self name
        = raise_ ValueError
            ("DataSource '" ++ name ++ "' not found. Available: "
             ++ repr_list (list_datasources self))
        /\ create_datasource self name kw
           = raise_ ValueError
               ("Datasource '" ++ name ++ "' not found. Available: "
                ++ repr_list (list_datasources self))).
Proof.
  intros self name kw.
  unfold get_datasource, create_datasource, list_datasources, not_found.
  split.
  - intros I. destruct (get_present _ _ I) as [cls ->]. eauto.
  - intros N. rewrite (get_absent _ _ N). split; reflexivity.
Qed.

(** X7. Registering a class under a name touches that name only. The
    name is listed afterwards -- in its old place when it was registered
    before, else last -- and looks up the class as tagged with the name;
    every other name is listed as before, a lookup under another
    registered name gives a class with the name and the constructor it
    had before, and a construction under it gives what it gave before.
    Nothing is said of the [_registry_name] of the classes under the
    other names: the decorator sets that attribute on the class it is
    given, so a class that is registered under two names carries the
    name of its last registration under both. *)
Theorem register_touches_one_name :
  forall (self : DataSourceRegistry Instance) (name : string)
         (cls : datasource_class Instance),
    let after := fst (register_datasource name cls self) in
    let tagged := snd (register_datasource name cls self) in
    get_datasource after name = ok tagged
    /\ _registry_name tagged = Some name
    /\ construct tagged = construct cls
    /\ (In name (list_datasources self) ->
        list_datasources after = list_datasources self)
    /\ (~ In name (list_datasources self) ->
        list_datasources after = (list_datasources self ++ [name])%list)
    /\ forall (other : string) (kw : kwargs),
        other <> name ->
        (In other (list_datasources after)
         <-> In other (list_datasources self))
        /\ (In other (list_datasources self) ->
            (exists c c',
                get_datasource self other = ok c
                /\ get_datasource after other = ok c'
                /\ class_name c' = class_name c
                /\ construct c' = construct c)
            /\ create_datasource after other kw
               = create_datasource self other kw).
Proof.
  intros self name cls after tagged. subst after tagged.
  unfold get_datasource, create_datasource, list_datasources,
    register_datasource.
  cbn [fst snd _datasources _registry_name construct].
  rewrite get_set_same.
  split; [reflexivity|]. split; [reflexivity|]. split; [reflexivity|].
  split; [apply keys_set_present|]. split; [apply keys_set_absent|].
  intros other kw N. split.
  - destruct (in_dec string_dec name (keys (_datasources self))) as [I|A].
    + rewrite keys_set_present by exact I. tauto.
    + rewrite keys_set_absent by exact A. rewrite in_app_iff. cbn [In].
      split; [intros [H|[H|[]]]; [exact H|congruence]|tauto].
  - intros I. rewrite get_set_other by exact N.
    destruct (get_present _ _ I) as [c ->]. split; [|reflexivity].
    exists c, c. repeat split; reflexivity.
Qed.

End RegistryLookups.

Lemma lookup_succeeds_on_listed_names_witness :
  ~ In "nope"
       (Registry.list_datasources
          (Registry.registered
             [("yfinance", older_class); ("polygon", older_class)]))
  /\ Registry.create_datasource
       (Registry.registered
          [("yfinance", older_class); ("polygon", older_class)])
       "nope" []
     = raise_ ValueError
         "Datasource 'nope' not found. Available: ['yfinance', 'polygon']".
Proof.
  assert (N : ~ In "nope"
                   (Registry.list_datasources
                      (Registry.registered
                         [("yfinance", older_class);
                          ("polygon", older_class)]))).
  { cbn. intros [H|[H|[]]]; discriminate H. }
  split; [exact N|].
  exact (proj2 (proj2 (lookup_succeeds_on_listed_names
                         (Registry.registered
                            [("yfinance", older_class);
                             ("polygon", older_class)]) "nope" []) N)).
Defined.

Lemma register_touches_one_name_witness :
  "yfinance" <> "polygon"
  /\ In "yfinance"
        (Registry.list_datasources
           (Registry.registered [("yfinance", older_class)]))
  /\ Registry.create_datasource
       (fst (Registry.register_datasource
               "polygon" newer_class
               (Registry.registered [("yfinance", older_class)])))
       "yfinance" []
     = ok "an instance of Older".
Proof.
  assert (I : In "yfinance"
                 (Registry.list_datasources
                    (Registry.registered [("yfinance", older_class)])))
    by (left; reflexivity).
  split; [discriminate|]. split; [exact I|].
  destruct (register_touches_one_name
              (Registry.registered [("yfinance", older_class)])
              "polygon" newer_class) as (_ & _ & _ & _ & _ & F).
  destruct (F "yfinance" [] ltac:(discriminate)) as (_ & G).
  destruct (G I) as (_ & ->). reflexivity.
Defined.

(** ** Market configurations and the ticker suffix *)

Section SuffixFacts.

Lemma list_ascii_app (a b : string) :
  list_ascii_of_string (a ++ b)
  = (list_ascii_of_string a ++ list_ascii_of_string b)%list.
Proof.
  induction a as [|c a IH]; [reflexivity|].
  cbn [String.append list_ascii_of_string]. rewrite IH. reflexivity.
Qed.

Lemma endswith_rev_prefix (p q : list ascii) :
  PyStr.endswith_rev p (p ++ q)%list = true.
Proof.
  induction p as [|c p IH]; [reflexivity|].
  cbn [PyStr.endswith_rev app]. rewrite Ascii.eqb_refl. exact IH.
Qed.

Lemma endswith_append (t s : string) : PyStr.endswith (t ++ s) s = true.
Proof.
  unfold PyStr.endswith. rewrite list_ascii_app, rev_app_distr.
  apply endswith_rev_prefix.
Qed.

(** X8. For every market of the configuration table and every ticker,
    [get_ticker_with_suffix] returns a ticker that ends with the market's
    suffix: the ticker itself when it already does (or the suffix is
    empty), else the ticker followed by the suffix; applied to its own
    result it changes nothing. For a name that is not in the table it
    raises the [ValueError] of [get_market_config], which lists the
    table's names. *)
Theorem market_suffix_added_once :
  forall (ticker market : string),
    (In market Config.list_configs ->
     exists cfg t',
       Config.get_market_config market = ok cfg
       /\ Config.get_ticker_with_suffix ticker market = ok t'
       /\ (t' = ticker \/ t' = ticker ++ Config.yf_ticker_suffix cfg)
       /\ PyStr.endswith t' (Config.yf_ticker_suffix cfg) = true
       /\ (PyStr.endswith ticker (Config.yf_ticker_suffix cfg) = true ->
           t' = ticker)
       /\ Config.get_ticker_with_suffix t' market = ok t')
    /\ (~ In market Config.list_configs ->
        Config.get_ticker_with_suffix ticker market
        = raise_ ValueError
            ("Unknown download config: " ++ market
             ++ ". Available: ['brazil', 'australia', 'america', 'canada', 'uk', 'germany', 'japan', 'hong_kong', 'india', 'crypto']")).
Proof.
  intros ticker market. split.
  - intros I. unfold Config.list_configs in I.
    destruct (get_present _ _ I) as [cfg G].
    assert (M : Config.get_market_config market = ok cfg).
    { unfold Config.get_market_config. rewrite G. reflexivity. }
    assert (S : forall t,
               Config.get_ticker_with_suffix t market
               = if PyStr.nonempty (Config.yf_ticker_suffix cfg)
                    && negb (PyStr.endswith t (Config.yf_ticker_suffix cfg))
                 then ok (t ++ Config.yf_ticker_suffix cfg)
                 else ok t).
    { intros t. unfold Config.get_ticker_with_suffix. rewrite M.
      reflexivity. }
    exists cfg.
    destruct (PyStr.nonempty (Config.yf_ticker_suffix cfg)) eqn:Ne.
    + destruct (PyStr.endswith ticker (Config.yf_ticker_suffix cfg)) eqn:Ew.
      * exists ticker. rewrite S, ?Ne, ?Ew. cbn [andb negb].
        repeat split; auto.
      * exists (ticker ++ Config.yf_ticker_suffix cfg).
        rewrite !S, ?Ne, ?Ew, endswith_append. cbn [andb negb].
        repeat split; auto. discriminate.
    + exists ticker. rewrite S, ?Ne. cbn [andb].
      assert (E : Config.yf_ticker_suffix cfg = "").
      { destruct (Config.yf_ticker_suffix cfg); [reflexivity|discriminate]. }
      rewrite E. repeat split; auto.
  - intros N. unfold Config.get_ticker_with_suffix, Config.get_market_config.
    rewrite (get_absent _ _ N). reflexivity.
Qed.

(** X9. The date check of the command line and the date check of the
    resolver accept the same strings: an argument the command line
    accepts is returned unchanged and passes [_validate_date_format], so
    two accepted dates are resolved to themselves; a string the resolver
    would refuse is refused by the command line, with its own message. *)
Theorem cli_dates_pass_the_resolver :
  forall (s : string),
    (Cli.validate_date_format s = Cli.Accepted s
     <-> Timespan._validate_date_format s = ok tt)
    /\ (forall v, Cli.validate_date_format s = Cli.Accepted v -> v = s)
    /\ (Timespan._validate_date_format s <> ok tt ->
        Cli.validate_date_format s
        = Cli.ArgumentTypeError
            ("Date '" ++ s ++ "' must be in YYYY-MM-DD format"))
    /\ (forall (e : string) (now : Calendar.datetime)
               (override : option Calendar.datetime)
               (timespan : option string),
           Cli.validate_date_format s = Cli.Accepted s ->
           Cli.validate_date_format e = Cli.Accepted e ->
           Timespan.calculate_dates now timespan (Some s) (Some e) override
           = ok (s, e)).
Proof.
  intros s.
  assert (A : forall x,
             Cli.validate_date_format x = Cli.Accepted x ->
             well_formed_date x).
  { intros x. unfold Cli.validate_date_format, well_formed_date.
    destruct (Calendar.strptime_ymd x) as [e|t]; [discriminate|eauto]. }
  split; [|split; [|split]].
  - split.
    + intros H. apply well_formed_validates, A, H.
    + intros H. apply validates_well_formed in H. destruct H as [t H].
      unfold Cli.validate_date_format. rewrite H. reflexivity.
  - intros v. unfold Cli.validate_date_format.
    destruct (Calendar.strptime_ymd s); [discriminate|].
    intros [= <-]. reflexivity.
  - unfold Cli.validate_date_format, Timespan._validate_date_format.
    destruct (Calendar.strptime_ymd s); [reflexivity|].
    intros N. exfalso. apply N. reflexivity.
  - intros e now override timespan Hs He.
    apply calculate_dates_both; apply A; assumption.
Qed.

End SuffixFacts.

Lemma market_suffix_added_once_witness :
  In "australia" Config.list_configs
  /\ Config.get_ticker_with_suffix "BHP" "australia" = ok "BHP.AX"
  /\ Config.get_ticker_with_suffix "BHP.AX" "australia" = ok "BHP.AX".
Proof.
  assert (I : In "australia" Config.list_configs) by (cbn; tauto).
  split; [exact I|].
  destruct (proj1 (market_suffix_added_once "BHP" "australia") I)
    as (cfg & t' & M & S & _ & _ & _ & T).
  injection M as <-.
  assert (E : t' = "BHP.AX").
  { rewrite (eq_refl : Config.get_ticker_with_suffix "BHP" "australia"
                       = ok "BHP.AX") in S.
    injection S as <-. reflexivity. }
  subst t'. split; [reflexivity|exact T].
Defined.

Lemma cli_dates_pass_the_resolver_witness :
  Cli.validate_date_format "2023-01-01" = Cli.Accepted "2023-01-01"
  /\ Cli.validate_date_format "2023-12-31" = Cli.Accepted "2023-12-31"
  /\ Timespan.calculate_dates (Calendar.Date 2025 3 1) (Some "6M")
                              (Some "2023-01-01") (Some "2023-12-31") None
     = ok ("2023-01-01", "2023-12-31").
Proof.
  split; [reflexivity|]. split; [reflexivity|].
  apply (proj2 (proj2 (proj2 (cli_dates_pass_the_resolver "2023-01-01"))));
    reflexivity.
Defined.

(** ** The symbols [validate_ticker] accepts *)

Section TickerCharacterisation.
Import Service.

Lemma all_chars_ext (p q : ascii -> bool) (s : string) :
  (forall c, p c = q c) -> PyStr.all_chars p s = PyStr.all_chars q s.
Proof.
  intros E. induction s as [|c r IH]; [reflexivity|].
  cbn [PyStr.all_chars]. rewrite E, IH. reflexivity.
Qed.

Lemma all_chars_remove (p : ascii -> bool) (x : ascii) (s : string) :
  PyStr.all_chars p (PyStr.remove_char x s)
  = PyStr.all_chars (fun c => p c || Ascii.eqb c x) s.
Proof.
  induction s as [|c r IH]; [reflexivity|].
  cbn [PyStr.remove_char PyStr.all_chars].
  destruct (Ascii.eqb c x).
  - rewrite orb_true_r. exact IH.
  - rewrite orb_false_r. cbn [PyStr.all_chars]. rewrite IH. reflexivity.
Qed.

Lemma all_chars_In (p : ascii -> bool) (s : string) :
  PyStr.all_chars p s = true <-> forall c, PyStr.In_str c s -> p c = true.
Proof.
  induction s as [|d r IH]; cbn [PyStr.all_chars PyStr.In_str].
  - split; [intros _ c []|reflexivity].
  - rewrite andb_true_iff, IH. split.
    + intros [H1 H2] c [<-|I]; auto.
    + intros H. split; [apply H; left; reflexivity|].
      intros c I. apply H. right. exact I.
Qed.

Lemma remove_char_In (x c : ascii) (t : string) :
  PyStr.In_str c (PyStr.remove_char x t) ->
  PyStr.In_str c t /\ Ascii.eqb c x = false.
Proof.
  induction t as [|d r IH]; cbn [PyStr.remove_char PyStr.In_str];
    [intros []|].
  destruct (Ascii.eqb d x) eqn:E.
  - intros I. destruct (IH I) as [I' N]. auto.
  - cbn [PyStr.In_str]. intros [<-|I]; [auto|].
    destruct (IH I) as [I' N]. auto.
Qed.

Lemma nonempty_In (s : string) :
  PyStr.nonempty s = true <-> exists c, PyStr.In_str c s.
Proof.
  destruct s as [|c r]; cbn [PyStr.nonempty PyStr.In_str].
  - split; [discriminate|intros [c []]].
  - split; [eauto|reflexivity].
Qed.

Lemma isalnum_spec (s : string) :
  PyStr.isalnum s = true
  <-> PyStr.all_chars PyStr.isalnum_char s = true
      /\ PyStr.nonempty s = true.
Proof.
  unfold PyStr.isalnum. destruct s as [|c r]; cbn [PyStr.nonempty].
  - split; [discriminate|intros [_ H]; discriminate H].
  - tauto.
Qed.

(** The ticker with the three separators taken out, as [validate_ticker]
    looks at it. *)
Lemma stripped_isalnum (t : string) :
  PyStr.isalnum
    (PyStr.remove_char "/"
       (PyStr.remove_char "-" (PyStr.remove_char "." t))) = true
  <-> PyStr.all_chars symbol_char t = true
      /\ exists c, PyStr.In_str c t /\ PyStr.isalnum_char c = true.
Proof.
  rewrite isalnum_spec, !all_chars_remove.
  rewrite (all_chars_ext _ symbol_char).
  2:{ intros c. unfold symbol_char.
      destruct (PyStr.isalnum_char c), (Ascii.eqb c "."), (Ascii.eqb c "-"),
        (Ascii.eqb c "/"); reflexivity. }
  rewrite nonempty_In. split.
  - intros [A (c & I)]. split; [exact A|].
    apply remove_char_In in I. destruct I as [I N1].
    apply remove_char_In in I. destruct I as [I N2].
    apply remove_char_In in I. destruct I as [I N3].
    exists c. split; [exact I|].
    pose proof (proj1 (all_chars_In _ _) A c I) as S.
    unfold symbol_char in S. rewrite N1, N2, N3 in S.
    rewrite !orb_false_r in S. exact S.
  - intros [A (c & I & L)]. split; [exact A|].
    exists c.
    assert (N : Ascii.eqb c "." = false /\ Ascii.eqb c "-" = false
                /\ Ascii.eqb c "/" = false).
    { repeat split;
        match goal with
        | |- Ascii.eqb c ?x = false =>
            destruct (Ascii.eqb_spec c x) as [->|_];
              [discriminate L|reflexivity]
        end. }
    destruct N as (N1 & N2 & N3).
    repeat apply remove_char_keeps; assumption.
Qed.

(** X10. [validate_ticker] accepts a symbol exactly when every character
    is alphanumeric or one of '.', '-', '/', at least one character is
    alphanumeric, and there are at most 20 characters. So a symbol made
    of separators only ("-", "./") is refused, with the message for
    invalid characters; the empty symbol has its own message. *)
Theorem valid_ticker_characterised :
  forall (t : string),
    (validate_ticker t = None
     <-> PyStr.all_chars symbol_char t = true
         /\ (exists c, PyStr.In_str c t /\ PyStr.isalnum_char c = true)
         /\ PyStr.len t <= 20)
    /\ (validate_ticker t = Some "Ticker cannot be empty" <-> t = "")
    /\ (t <> "" ->
        (forall c, PyStr.In_str c t -> PyStr.isalnum_char c = false) ->
        validate_ticker t = Some "Ticker contains invalid characters").
Proof.
  intros t. unfold validate_ticker.
  pose proof (stripped_isalnum t) as S.
  destruct (PyStr.isalnum
              (PyStr.remove_char "/"
                 (PyStr.remove_char "-" (PyStr.remove_char "." t)))) eqn:A.
  - destruct (proj1 S eq_refl) as [All (c & I & L)].
    assert (Ne : PyStr.nonempty t = true) by (apply nonempty_In; eauto).
    rewrite Ne. cbn [negb].
    destruct (Z.gtb_spec (PyStr.len t) 20) as [G|G].
    + split; [|split].
      * split; [discriminate|]. intros (_ & _ & B). lia.
      * split; [discriminate|]. intros ->. discriminate Ne.
      * intros _ H. rewrite (H c I) in L. discriminate L.
    + split; [|split].
      * split; [|reflexivity]. intros _. split; [exact All|].
        split; [eauto|exact G].
      * split; [discriminate|]. intros ->. discriminate Ne.
      * intros _ H. rewrite (H c I) in L. discriminate L.
  - destruct (PyStr.nonempty t) eqn:Ne; cbn [negb].
    + split; [|split].
      * split; [discriminate|]. intros (All & Ex & _).
        assert (F : false = true) by (apply S; auto). discriminate F.
      * split; [discriminate|]. intros ->. discriminate Ne.
      * reflexivity.
    + assert (E : t = "") by (destruct t; [reflexivity|discriminate Ne]).
      split; [|split].
      * split; [discriminate|]. intros (_ & (c & I & _) & _).
        subst t. destruct I.
      * split; [intros _; exact E|reflexivity].
      * intros N. contradiction.
Qed.

End TickerCharacterisation.

Lemma valid_ticker_characterised_witness :
  "./-" <> ""
  /\ (forall c, PyStr.In_str c "./-" -> PyStr.isalnum_char c = false)
  /\ Service.validate_ticker "./-" = Some "Ticker contains invalid characters".
Proof.
  assert (H : forall c, PyStr.In_str c "./-" -> PyStr.isalnum_char c = false).
  { intros c [<-|[<-|[<-|[]]]]; reflexivity. }
  split; [discriminate|]. split; [exact H|].
  apply (proj2 (proj2 (valid_ticker_characterised "./-")));
    [discriminate|exact H].
Defined.

(** ** File names and path components *)

Ltac literal_slash_free :=
  let K := fresh "K" in
  intros K; cbn in K;
  repeat (destruct K as [K|K]; [discriminate K|]); exact K.

Section PathComponents.
Import Effects Service.

(** No '/' occurs in [s]: as a part of a file name, [s] stays within one
    component of the path, and [datasets_dir / name] is the file [name]
    in the directory [datasets_dir]. *)
Definition slash_free (s : string) : Prop := ~ PyStr.In_str "/" s.

Lemma In_str_app (c : ascii) (a b : string) :
  PyStr.In_str c (a ++ b) <-> PyStr.In_str c a \/ PyStr.In_str c b.
Proof.
  induction a as [|x a IH]; cbn [String.append PyStr.In_str].
  - tauto.
  - rewrite IH. tauto.
Qed.

Lemma slash_free_app (a b : string) :
  slash_free a -> slash_free b -> slash_free (a ++ b).
Proof.
  unfold slash_free. intros Ha Hb H. apply In_str_app in H. tauto.
Qed.

Lemma lower_char_slash (c : ascii) :
  PyStr.lower_char c = "/"%char -> c = "/"%char.
Proof.
  destruct c as [b0 b1 b2 b3 b4 b5 b6 b7].
  destruct b0, b1, b2, b3, b4, b5, b6, b7; vm_compute;
    intros H; solve [reflexivity | discriminate H].
Qed.

Lemma slash_free_lower (s : string) :
  slash_free s -> slash_free (PyStr.lower s).
Proof.
  unfold slash_free. induction s as [|c r IH]; [intros _ []|].
  cbn [PyStr.lower PyStr.In_str]. intros N [E|I].
  - apply N. left. apply lower_char_slash. exact E.
  - apply IH; [intros J; apply N; right; exact J|exact I].
Qed.

Lemma slash_free_replaced (x : ascii) (s : string) :
  slash_free s -> slash_free (PyStr.replace_char x "-" s).
Proof.
  unfold slash_free. induction s as [|c r IH]; [intros _ []|].
  cbn [PyStr.replace_char PyStr.In_str]. intros N [E|I].
  - destruct (Ascii.eqb c x); [discriminate E|]. apply N. left. exact E.
  - apply IH; [intros J; apply N; right; exact J|exact I].
Qed.

Lemma slash_replaced (s : string) :
  slash_free (PyStr.replace_char "/" "-" s).
Proof.
  unfold slash_free. induction s as [|c r IH]; [intros []|].
  cbn [PyStr.replace_char PyStr.In_str]. intros [E|I]; [|exact (IH I)].
  destruct (Ascii.eqb_spec c "/") as [->|N]; [discriminate E|].
  apply N. exact E.
Qed.

(** The ticker made safe holds no '/'. *)
Lemma safe_ticker_slash_free (ticker : string) :
  slash_free
    (PyStr.replace_char ":" "-"
       (PyStr.replace_char "\" "-" (PyStr.replace_char "/" "-" ticker))).
Proof. do 2 apply slash_free_replaced. apply slash_replaced. Qed.

Lemma timeframe_name_slash_free (timeframe : string) :
  slash_free timeframe -> slash_free (_timeframe_to_filename timeframe).
Proof.
  intros H. unfold _timeframe_to_filename. cbn [Dict.get].
  repeat (destruct (String.eqb timeframe _); [literal_slash_free|]).
  apply slash_free_lower. exact H.
Qed.

(** None of the texts that enter a file name besides the ticker holds a
    '/'. *)
Definition slash_free_fields (datasource start end_ interval : string)
           (market : option string) (output_format : string)
           (exchange timeframe : option string) : Prop :=
  slash_free datasource /\ slash_free start /\ slash_free end_
  /\ slash_free interval /\ slash_free (opt_str market)
  /\ slash_free output_format /\ slash_free (opt_str exchange)
  /\ slash_free (opt_str timeframe).

End PathComponents.

Ltac slash_solver :=
  repeat first
    [ assumption
    | apply safe_ticker_slash_free
    | apply slash_free_lower
    | apply timeframe_name_slash_free
    | literal_slash_free
    | apply slash_free_app ].

Section PathNames.
Import Effects Service.

(** With such fields, the path [_get_output_path_with_format] returns is
    that of a file in the datasets directory itself. *)
Lemma output_name_slash_free (w : world)
      (ticker datasource start end_ interval : string)
      (market : option string) (output_format : string)
      (exchange : option string) (include_datasource : bool)
      (timeframe : option string) (tr tr' : trace) (path : string * string) :
  _get_output_path_with_format w ticker datasource start end_ interval market
                               output_format exchange include_datasource
                               timeframe tr = (inr path, tr') ->
  slash_free_fields datasource start end_ interval market output_format
                    exchange timeframe ->
  fst path = datasets_dir w /\ slash_free (snd path).
Proof.
  unfold _get_output_path_with_format.
  intros H (Fd & Fs & Fe & Fi & Fm & Ff & Fx & Ft).
  apply bind_inr in H. destruct H as (u1 & t1 & _ & H).
  apply bind_inr in H. destruct H as (u2 & t2 & _ & H).
  cbv zeta in H. apply ret_inr in H. destruct H as [-> _].
  cbn [fst snd]. split; [reflexivity|].
  destruct (PyStr.truthy timeframe);
    destruct (String.eqb datasource "ccxt" && PyStr.truthy exchange);
    destruct (PyStr.truthy market
              && negb (String.eqb (opt_str market) "america"));
    destruct include_datasource; slash_solver.
Qed.

End PathNames.

(** ** The name of the output file *)

Section OutputPath.
Import Effects Service.

(** The characters [_get_output_path_with_format] takes out of a ticker. *)
Definition path_unsafe (c : ascii) : bool :=
  Ascii.eqb c "/" || Ascii.eqb c "\" || Ascii.eqb c ":".

Lemma replace_char_get (x y : ascii) (s : string) (n : nat) :
  String.get n (PyStr.replace_char x y s)
  = option_map (fun c => if Ascii.eqb c x then y else c) (String.get n s).
Proof.
  revert n. induction s as [|c r IH]; intros n; [reflexivity|].
  cbn [PyStr.replace_char]. destruct n as [|n]; [reflexivity|].
  cbn [String.get]. apply IH.
Qed.

Lemma replace_char_length (x y : ascii) (s : string) :
  String.length (PyStr.replace_char x y s) = String.length s.
Proof.
  induction s as [|c r IH]; [reflexivity|].
  cbn [PyStr.replace_char String.length]. rewrite IH. reflexivity.
Qed.

Lemma safe_ticker_get (ticker : string) (n : nat) :
  String.get n
    (PyStr.replace_char ":" "-"
       (PyStr.replace_char "\" "-" (PyStr.replace_char "/" "-" ticker)))
  = option_map (fun c => if path_unsafe c then "-"%char else c)
               (String.get n ticker).
Proof.
  rewrite !replace_char_get.
  destruct (String.get n ticker) as [c|]; [|reflexivity].
  cbn [option_map]. f_equal. unfold path_unsafe.
  destruct (Ascii.eqb_spec c "/") as [->|N1]; [reflexivity|].
  destruct (Ascii.eqb_spec c "\") as [->|N2]; [reflexivity|].
  destruct (Ascii.eqb_spec c ":") as [->|N3]; reflexivity.
Qed.

(** X11. When the datasets directory can be made, and the datasource,
    the dates, the interval, the market, the exchange, the timeframe and
    the format hold no '/', [_get_output_path_with_format] makes the
    directory (once) and returns a file in it: a name without '/' that
    begins with the ticker -- of the same length, with every '/', ''
    and ':' replaced by '-' and every other character kept -- followed
    by '_'. When a timeframe is given the name does not depend on the
    start and end dates, and the market "america" is named like no market
    at all. When the directory cannot be made, its exception is raised. *)
Theorem output_file_name :
  forall (w : world) (ticker datasource start end_ interval : string)
         (market : option string) (output_format : string)
         (exchange : option string) (include_datasource : bool)
         (timeframe : option string) (tr : trace),
    (ensure_directory_exists w (datasets_dir w) = None ->
     slash_free_fields datasource start end_ interval market output_format
                       exchange timeframe ->
     exists safe rest,
       _get_output_path_with_format
         w ticker datasource start end_ interval market output_format
         exchange include_datasource timeframe tr
       = (inr (datasets_dir w, safe ++ "_" ++ rest),
          (tr ++ [EvEnsureDir (datasets_dir w)])%list)
       /\ slash_free (safe ++ "_" ++ rest)
       /\ String.length safe = String.length ticker
       /\ (forall n,
              String.get n safe
              = option_map (fun c => if path_unsafe c then "-"%char else c)
                           (String.get n ticker))
       /\ (PyStr.truthy timeframe = true ->
           forall start' end',
             _get_output_path_with_format
               w ticker datasource start' end' interval market output_format
               exchange include_datasource timeframe tr
             = (inr (datasets_dir w, safe ++ "_" ++ rest),
                (tr ++ [EvEnsureDir (datasets_dir w)])%list))
       /\ (market = Some "america" ->
           _get_output_path_with_format
             w ticker datasource start end_ interval None output_format
             exchange include_datasource timeframe tr
           = (inr (datasets_dir w, safe ++ "_" ++ rest),
              (tr ++ [EvEnsureDir (datasets_dir w)])%list)))
    /\ (forall e,
           ensure_directory_exists w (datasets_dir w) = Some e ->
           _get_output_path_with_format
             w ticker datasource start end_ interval market output_format
             exchange include_datasource timeframe tr
           = (inl e, (tr ++ [EvEnsureDir (datasets_dir w)])%list)).
Proof.
  intros w ticker datasource start end_ interval market output_format
         exchange include_datasource timeframe tr.
  unfold _get_output_path_with_format. split.
  - intros D (Fd & Fs & Fe & Fi & Fm & Ff & Fx & Ft).
    rewrite D. unfold bind, emit, perform, ret. cbv zeta.
    assert (L : String.length
                  (PyStr.replace_char ":" "-"
                     (PyStr.replace_char "\" "-"
                        (PyStr.replace_char "/" "-" ticker)))
                = String.length ticker)
      by (rewrite !replace_char_length; reflexivity).
    assert (P : slash_free
                  (if PyStr.truthy timeframe
                   then _timeframe_to_filename (opt_str timeframe)
                   else start ++ "_" ++ end_)).
    { destruct (PyStr.truthy timeframe); slash_solver. }
    destruct (String.eqb datasource "ccxt" && PyStr.truthy exchange) eqn:C.
    + destruct include_datasource; eexists _, _;
        (split; [reflexivity|]); (split; [slash_solver|]);
        (split; [exact L|]);
        (split; [apply safe_ticker_get|]);
        (split; [intros T start' end'; rewrite T; reflexivity|]);
        intros ->; reflexivity.
    + destruct (PyStr.truthy market
                && negb (String.eqb (opt_str market) "america")) eqn:K.
      * destruct include_datasource; eexists _, _;
          (split; [reflexivity|]); (split; [slash_solver|]);
          (split; [exact L|]);
          (split; [apply safe_ticker_get|]);
          (split; [intros T start' end'; rewrite T; reflexivity|]);
          intros ->; discriminate K.
      * destruct include_datasource; eexists _, _;
          (split; [reflexivity|]); (split; [slash_solver|]);
          (split; [exact L|]);
          (split; [apply safe_ticker_get|]);
          (split; [intros T start' end'; rewrite T; reflexivity|]);
          intros ->; reflexivity.
  - intros e D. rewrite D. reflexivity.
Qed.

End OutputPath.

Lemma output_file_name_witness :
  Service.ensure_directory_exists demo_world (Service.datasets_dir demo_world)
  = None
  /\ slash_free_fields "ccxt" "2024-03-01" "2025-03-01" "1h" None "CSV"
                       (Some "binance") (Some "1Y")
  /\ PyStr.truthy (Some "1Y") = true
  /\ Service._get_output_path_with_format
       demo_world "BTC/USDT" "ccxt" "2024-03-01" "2025-03-01" "1h" None "CSV"
       (Some "binance") false (Some "1Y") []
     = (inr ("/home/user/.connors/downloads/datasets",
             "BTC-USDT_binance_1year_1h.csv"),
        [Effects.EvEnsureDir "/home/user/.connors/downloads/datasets"])
  /\ Service._get_output_path_with_format
       demo_world "BTC/USDT" "ccxt" "2020-01-01" "2020-12-31" "1h" None "CSV"
       (Some "binance") false (Some "1Y") []
     = (inr ("/home/user/.connors/downloads/datasets",
             "BTC-USDT_binance_1year_1h.csv"),
        [Effects.EvEnsureDir "/home/user/.connors/downloads/datasets"]).
Proof.
  assert (F : slash_free_fields "ccxt" "2024-03-01" "2025-03-01" "1h" None
                                "CSV" (Some "binance") (Some "1Y")).
  { unfold slash_free_fields. repeat split; literal_slash_free. }
  split; [reflexivity|]. split; [exact F|]. split; [reflexivity|].
  split; [reflexivity|].
  destruct (proj1 (output_file_name
                     demo_world "BTC/USDT" "ccxt" "2024-03-01" "2025-03-01"
                     "1h" None "CSV" (Some "binance") false (Some "1Y") [])
                  eq_refl F) as (safe & rest & E & _ & _ & _ & T & _).
  rewrite (T eq_refl "2020-01-01" "2020-12-31"), <- E. reflexivity.
Defined.

(** ** What a preview tells *)

Section PreviewFields.
Import Effects Pandas Service.

(** The fields of a valid preview, read off the run that returned it. *)
Lemma preview_valid_fields (w : world) (datasource ticker : string)
      (start end_ : option string) (interval : string)
      (market timeframe : option string) (tr tr' : trace)
      (info : preview_info) :
  preview_download w datasource ticker start end_ interval market timeframe tr
  = (inr (Valid info), tr') ->
  p_ticker info = ticker /\ p_datasource info = datasource
  /\ p_interval info = interval
  /\ (PyStr.truthy market = false ->
      p_final_ticker info = ticker /\ p_market_info info = None)
  /\ (PyStr.truthy market = true ->
      exists cfg,
        Config.get_market_config (opt_str market) = ok cfg
        /\ Config.get_ticker_with_suffix ticker (opt_str market)
           = ok (p_final_ticker info)
        /\ p_market_info info
           = Some (Config.name cfg, p_final_ticker info))
  /\ p_output_path info = datasets_dir w ++ "/" ++ p_filename info.
Proof.
  unfold preview_download, try_except.
  match goal with
  | |- (match ?body tr with _ => _ end) = _ -> _ =>
      destruct (body tr) as [[e|p] tr1] eqn:B
  end.
  - unfold ret. intros [= <- _].
  - intros [= -> ->].
    apply bind_inr in B. destruct B as ([s e] & t1 & _ & B).
    apply bind_inr in B. destruct B as (u & t2 & _ & B).
    destruct (validate_ticker ticker); [discriminate B|].
    destruct (PyStr.truthy market) eqn:T.
    + destruct (Config.get_market_config (opt_str market)) as [x|cfg] eqn:M;
        [discriminate B|].
      destruct (Config.get_ticker_with_suffix ticker (opt_str market))
        as [x|ft] eqn:S; [discriminate B|].
      apply bind_inr in B. destruct B as (path & t3 & Hp & B).
      destruct (to_datetime (pd w) s); [|discriminate B].
      destruct (to_datetime (pd w) e); [|discriminate B].
      destruct (day_of z >=? day_of z0); [discriminate B|].
      injection B as <- _. cbn.
      assert (D : fst path = datasets_dir w).
      { unfold _get_output_path, _get_output_path_with_format in Hp.
        apply bind_inr in Hp. destruct Hp as (u1 & t4 & _ & Hp).
        apply bind_inr in Hp. destruct Hp as (u2 & t5 & _ & Hp).
        injection Hp as <- _. reflexivity. }
      rewrite D. repeat split; try discriminate.
      intros _. exists cfg. auto.
    + apply bind_inr in B. destruct B as (path & t3 & Hp & B).
      destruct (to_datetime (pd w) s); [|discriminate B].
      destruct (to_datetime (pd w) e); [|discriminate B].
      destruct (day_of z >=? day_of z0); [discriminate B|].
      injection B as <- _. cbn.
      assert (D : fst path = datasets_dir w).
      { unfold _get_output_path, _get_output_path_with_format in Hp.
        apply bind_inr in Hp. destruct Hp as (u1 & t4 & _ & Hp).
        apply bind_inr in Hp. destruct Hp as (u2 & t5 & _ & Hp).
        injection Hp as <- _. reflexivity. }
      rewrite D. repeat split; try discriminate; auto.
Qed.



End PreviewFields.


(** ** The download: what is reported and what is written *)

Section DownloadReports.
Import Effects Pandas Service.

(** A log line or a progress notification: an event that touches neither
    an adapter nor the file system. *)
Definition is_report (e : event) : bool :=
  match e with
  | EvLogError _ | EvProgress _ => true
  | _ => false
  end.

Definition reports_only (ev : trace) : Prop := forallb is_report ev = true.

Lemma assign_dates_reports (w : world) (timeframe start end_ : option string)
      (tr : trace) :
  exists ev,
    snd (assign_dates w timeframe start end_ tr) = (tr ++ ev)%list
    /\ reports_only ev.
Proof.
  unfold assign_dates.
  destruct (needs_dates timeframe start end_).
  - unfold calculate_dates_from_timeframe, try_except, lift.
    destruct (Timespan.calculate_dates (now w) timeframe start end_ None)
      as [e|d].
    + unfold bind, logger_error, emit, get_default_dates.
      destruct (Calendar.valid_ymd _ _ _).
      * cbn. eexists. split; reflexivity.
      * cbn. rewrite <- app_assoc. eexists. split; reflexivity.
    + cbn. exists []. rewrite app_nil_r. split; reflexivity.
  - cbn. exists []. rewrite app_nil_r. split; reflexivity.
Qed.

Lemma download_failed_reports (datasource ticker : string)
      (start end_ : option string) (interval : string)
      (market : option string) (progress_callback : bool) (e : exn)
      (tr : trace) :
  exists ev,
    download_failed datasource ticker start end_ interval market
                    progress_callback e tr
    = (inr (Result ticker datasource market None None start end_ interval
                   false (Some ("Download failed: " ++ exn_msg e))),
       (tr ++ ev)%list)
    /\ reports_only ev.
Proof.
  unfold download_failed, bind, logger_error, progress, emit, ret.
  destruct progress_callback.
  - rewrite <- app_assoc. eexists. split; reflexivity.
  - eexists. split; reflexivity.
Qed.

Lemma reports_app (a b : trace) :
  reports_only a -> reports_only b -> reports_only (a ++ b)%list.
Proof.
  unfold reports_only. rewrite forallb_app. intros -> ->. reflexivity.
Qed.

(** X13. An output format other than csv and json (compared in lower
    case) stops the download at its first check: the call returns a
    failed result that names the format as it was given, and apart from
    log lines and progress notifications nothing has happened -- no
    directory was made, no adapter constructed, nothing fetched or
    written. *)
Theorem unsupported_format_fails_first :
  forall (w : world) (datasource ticker : string)
         (start end_ : option string) (interval : string)
         (market output_file : option string) (output_format : string)
         (progress_callback : bool) (timeframe exchange : option string)
         (include_datasource : bool) (tr : trace),
    PyStr.mem (PyStr.lower output_format) ["csv"; "json"] = false ->
    exists res ev,
      download_data w datasource ticker start end_ interval market
                    output_file output_format progress_callback timeframe
                    exchange include_datasource tr
      = (inr res, (tr ++ ev)%list)
      /\ reports_only ev
      /\ success res = false
      /\ data res = None
      /\ file_path res = None
      /\ error res
         = Some ("Download failed: Unsupported output format: "
                   ++ output_format ++ ". Supported formats: csv, json").
Proof.
  intros w datasource ticker start end_ interval market output_file
         output_format progress_callback timeframe exchange include_datasource
         tr Bad.
  rewrite download_data_unfold.
  destruct (assign_dates_reports w timeframe start end_ tr) as (ev0 & E0 & R0).
  destruct (assign_dates w timeframe start end_ tr) as [dates tr1].
  cbn [snd] in E0. subst tr1.
  unfold try_except, download_steps. rewrite Bad. cbn [negb].
  unfold bind at 1. unfold raise at 1.
  destruct (download_failed_reports
              datasource ticker (fst dates) (snd dates) interval market
              progress_callback
              (Exn ValueError
                   ("Unsupported output format: " ++ output_format
                    ++ ". Supported formats: csv, json"))
              (tr ++ ev0)%list) as (ev1 & -> & R1).
  exists (Result ticker datasource market None None (fst dates) (snd dates)
                 interval false
                 (Some ("Download failed: Unsupported output format: "
                          ++ output_format
                          ++ ". Supported formats: csv, json"))),
         (ev0 ++ ev1)%list.
  rewrite app_assoc. split; [reflexivity|].
  split; [apply reports_app; assumption|]. repeat split.
Qed.

End DownloadReports.

Lemma unsupported_format_fails_first_witness :
  PyStr.mem (PyStr.lower "XML") ["csv"; "json"] = false
  /\ exists res ev,
      Service.download_data demo_world "demo" "AAPL" (Some "2024-01-02")
                            (Some "2024-06-01") "1d" None None "XML" true
                            None None false []
      = (inr res, ev)
      /\ reports_only ev
      /\ Service.error res
         = Some "Download failed: Unsupported output format: XML. Supported formats: csv, json".
Proof.
  split; [reflexivity|].
  destruct (unsupported_format_fails_first
              demo_world "demo" "AAPL" (Some "2024-01-02") (Some "2024-06-01")
              "1d" None None "XML" true None None false [] eq_refl)
    as (res & ev & E & R & _ & _ & _ & Er).
  exists res, ev. auto.
Defined.

Section DownloadOutcomes.
Import Effects Pandas Service.

Lemma perform_inr (o : option exn) (tr tr' : trace) (u : unit) :
  perform o tr = (inr u, tr') -> o = None /\ tr' = tr.
Proof.
  destruct o as [e|]; cbn; [discriminate|]. intros [= _ <-]. auto.
Qed.

Lemma emit_inr (e : event) (tr tr' : trace) (u : unit) :
  emit e tr = (inr u, tr') -> tr' = (tr ++ [e])%list.
Proof. unfold emit. intros [= _ <-]. reflexivity. Qed.

Lemma progress_inr (cb : bool) (msg : string) (tr tr' : trace) (u : unit) :
  progress cb msg tr = (inr u, tr') ->
  exists ev, tr' = (tr ++ ev)%list /\ reports_only ev.
Proof.
  unfold progress. destruct cb.
  - intros H. apply emit_inr in H. subst tr'. eexists. split; reflexivity.
  - intros [= _ <-]. exists []. rewrite app_nil_r. split; reflexivity.
Qed.

(** A call that passes the checks comes to the construction of the
    adapter with the preview of its arguments. *)
Lemma download_data_reaches_preview (w : world)
      (datasource ticker start end_ : string)
      (interval : string) (market output_file : option string)
      (output_format : string) (progress_callback : bool)
      (timeframe exchange : option string) (include_datasource : bool)
      (tr : trace) :
  passes_checks w datasource ticker start end_ market output_format
                timeframe ->
  exists info tr0 tr1,
    preview_download w datasource ticker (Some start) (Some end_) interval
                     market None tr0 = (inr (Valid info), tr1)
    /\ download_data w datasource ticker (Some start) (Some end_) interval
                     market output_file output_format progress_callback
                     timeframe exchange include_datasource tr
       = try_except
           (create_fetch_save w datasource ticker start end_ interval market
                              output_file output_format progress_callback
                              timeframe exchange include_datasource info)
           (download_failed datasource ticker (Some start) (Some end_)
                            interval market progress_callback)
           tr1.
Proof.
  intros (Fmt & X & Checks & s & e & Ps & Pe & Lt).
  rewrite download_data_unfold.
  assert (A : exists tr0,
             assign_dates w timeframe (Some start) (Some end_) tr
             = ((Some start, Some end_), tr0)).
  { unfold assign_dates. destruct (needs_dates timeframe (Some start)
                                               (Some end_)) eqn:N.
    - destruct (calculate_dates_from_timeframe_run
                  w timeframe (Some start) (Some end_) tr) as [tr0 E].
      rewrite E. destruct X as (Ns & Ne & [T|[Ws We]]).
      + unfold needs_dates in N. cbn [PyStr.truthy] in N.
        rewrite T, Ns, Ne in N. discriminate N.
      + rewrite (calculate_dates_both (now w) timeframe None start end_ Ws We).
        exists tr0. reflexivity.
    - eexists. reflexivity. }
  destruct A as [tr0 ->]. cbn [fst snd opt_str].
  assert (X0 : explicit_dates None start end_).
  { destruct X as (Ns & Ne & _). split; [exact Ns|]. split; [exact Ne|].
    left. reflexivity. }
  unfold download_steps. unfold format_ok in Fmt. rewrite Fmt. cbn [negb].
  unfold try_except at 1. unfold bind at 1. unfold ret at 1.
  unfold bind at 1.
  destruct (progress_run progress_callback "Validating parameters..." tr0)
    as [tr1 Pr].
  rewrite Pr. unfold bind at 1.
  destruct (preview_download_spec
              w datasource ticker (Some start) (Some end_) interval market
              None (fun d => d = (start, end_))
              (resolve_dates_explicit w None start end_ X0) tr1)
    as (r & ev & E & _ & (p & -> & s' & e' & [= -> ->] & O)).
  rewrite E. destruct p as [msg|info]; cbn in O.
  - specialize (O Checks). rewrite Ps, Pe in O. lia.
  - exists info, tr1, (tr1 ++ ev)%list. split; [exact E|reflexivity].
Qed.

(** X14. A download that passes the checks, whose adapter is constructed
    and whose fetch returns a frame without rows, returns a failed result
    that reports "No data found for" the final ticker (the ticker, or
    for a market the ticker with the market's suffix); after the fetch has
    returned, nothing happens but log lines and progress notifications:
    no directory is made and nothing is written. *)
Theorem empty_frame_is_reported :
  forall (w : world) (datasource ticker start end_ : string)
         (interval : string) (market output_file : option string)
         (output_format : string) (progress_callback : bool)
         (timeframe exchange : option string) (include_datasource : bool)
         (tr : trace) (instance : Service.datasource),
    passes_checks w datasource ticker start end_ market output_format
                  timeframe ->
    Registry.create_datasource (registry w) datasource
                               (constructor_kwargs exchange)
    = inr instance ->
    (forall symbol tr0,
        exists df tr1,
          fetch instance symbol start end_ interval tr0 = (inr df, tr1)
          /\ empty df = true) ->
    exists res tr' symbol,
      download_data w datasource ticker (Some start) (Some end_) interval
                    market output_file output_format progress_callback
                    timeframe exchange include_datasource tr
      = (inr res, tr')
      /\ success res = false
      /\ data res = None
      /\ file_path res = None
      /\ error res
         = Some ("Download failed: No data found for " ++ symbol
                   ++ " in the specified date range")
      /\ (PyStr.truthy market = false -> symbol = ticker)
      /\ (PyStr.truthy market = true ->
          Config.get_ticker_with_suffix ticker (opt_str market) = ok symbol)
      /\ exists df tr0 tr1 ev,
          fetch instance symbol start end_ interval tr0 = (inr df, tr1)
          /\ tr' = (tr1 ++ ev)%list
          /\ reports_only ev.
Proof.
  intros w datasource ticker start end_ interval market output_file
         output_format progress_callback timeframe exchange
         include_datasource tr instance Pass Create Empty.
  destruct (download_data_reaches_preview
              w datasource ticker start end_ interval market output_file
              output_format progress_callback timeframe exchange
              include_datasource tr Pass) as (info & t0 & t1 & Pv & ->).
  destruct (preview_valid_fields _ _ _ _ _ _ _ _ _ _ _ Pv)
    as (_ & _ & _ & F4 & F5 & _).
  unfold try_except, create_fetch_save. cbv zeta.
  unfold bind at 1.
  destruct (progress_run progress_callback "Creating data source..." t1)
    as [t2 ->].
  unfold bind at 1. unfold emit at 1. unfold bind at 1. unfold lift at 1.
  rewrite Create. unfold bind at 1.
  destruct (progress_run progress_callback
              ("Fetching data for " ++ p_final_ticker info ++ "...")
              (t2 ++ [EvCreate datasource (constructor_kwargs exchange)])%list)
    as [t3 ->].
  unfold bind at 1. unfold emit at 1. unfold bind at 1.
  destruct (Empty (p_final_ticker info)
                  (t3 ++ [EvFetch (p_final_ticker info) start end_
                                  interval])%list)
    as (df & t4 & Fe & Em).
  rewrite Fe. unfold bind at 1. rewrite Em. unfold raise at 1.
  destruct (download_failed_reports
              datasource ticker (Some start) (Some end_) interval market
              progress_callback
              (Exn ValueError
                   ("No data found for " ++ p_final_ticker info
                    ++ " in the specified date range")) t4)
    as (ev & -> & R).
  eexists _, _, (p_final_ticker info).
  split; [reflexivity|]. cbn.
  repeat (split; [reflexivity|]).
  split; [intros T; apply F4; exact T|].
  split; [intros T; destruct (F5 T) as (cfg & _ & S & _); exact S|].
  exists df, (t3 ++ [EvFetch (p_final_ticker info) start end_ interval])%list,
         t4, ev.
  auto.
Qed.

End DownloadOutcomes.

(** An adapter for examples whose upstream has no rows for the range. *)
Definition silent_adapter : Service.datasource :=
  Service.Adapter
    (fun _ _ _ _ =>
       Effects.ret
         (Pandas.Frame ["open"; "high"; "low"; "close"; "volume"]
                       (Some "date") [] [])).

(** The world of the examples, with the silent adapter registered. *)
Definition silent_world : Service.world :=
  Service.World
    (Calendar.Date 2025 3 1) (fun _ => None) "/home/user" Pandas.reference
    (Registry.registered
       [("silent",
         Registry.Class "SilentDataSource" (fun _ => ok silent_adapter) None)])
    require_params (fun _ => None) (fun _ => None) (fun _ _ _ => None).

Lemma empty_frame_is_reported_witness :
  passes_checks silent_world "silent" "BHP" "2024-01-02" "2024-06-01"
                (Some "australia") "csv" None
  /\ Registry.create_datasource (Service.registry silent_world) "silent"
                                (Service.constructor_kwargs None)
     = inr silent_adapter
  /\ exists res tr',
      Service.download_data silent_world "silent" "BHP" (Some "2024-01-02")
                            (Some "2024-06-01") "1d" (Some "australia") None
                            "csv" false None None false []
      = (inr res, tr')
      /\ Service.error res
         = Some "Download failed: No data found for BHP.AX in the specified date range".
Proof.
  assert (P : passes_checks silent_world "silent" "BHP" "2024-01-02"
                            "2024-06-01" (Some "australia") "csv" None).
  { split; [reflexivity|]. split.
    - split; [reflexivity|]. split; [reflexivity|]. left. reflexivity.
    - split.
      + split; [reflexivity|]. split; [reflexivity|].
        split; [intros _; eexists; reflexivity|reflexivity].
      + exists 1704153600000, 1717200000000.
        split; [reflexivity|]. split; [reflexivity|]. vm_compute. reflexivity. }
  split; [exact P|]. split; [reflexivity|].
  destruct (empty_frame_is_reported
              silent_world "silent" "BHP" "2024-01-02" "2024-06-01" "1d"
              (Some "australia") None "csv" false None None false []
              silent_adapter P eq_refl)
    as (res & tr' & symbol & E & _ & _ & _ & Er & _ & S & _).
  - intros symbol tr0. eexists _, _. split; reflexivity.
  - exists res, tr'. split; [exact E|].
    specialize (S eq_refl).
    rewrite (eq_refl : Config.get_ticker_with_suffix
                         "BHP" (Service.opt_str (Some "australia"))
                       = ok "BHP.AX") in S.
    injection S as <-. exact Er.
Defined.

Section DownloadSuccess.
Import Effects Pandas Service.

Lemma output_path_dir (w : world)
      (ticker datasource start end_ interval : string)
      (market : option string) (output_format : string)
      (exchange : option string) (include_datasource : bool)
      (timeframe : option string) (tr tr' : trace) (path : string * string) :
  _get_output_path_with_format w ticker datasource start end_ interval market
                               output_format exchange include_datasource
                               timeframe tr = (inr path, tr') ->
  fst path = datasets_dir w
  /\ ensure_directory_exists w (datasets_dir w) = None
  /\ tr' = (tr ++ [EvEnsureDir (datasets_dir w)])%list.
Proof.
  unfold _get_output_path_with_format. intros H.
  apply bind_inr in H. destruct H as (u1 & t1 & He & H).
  apply emit_inr in He.
  apply bind_inr in H. destruct H as (u2 & t2 & Hd & H).
  apply perform_inr in Hd. destruct Hd as [Hd ->].
  cbv zeta in H. apply ret_inr in H. destruct H as [-> ->].
  auto.
Qed.

(** X15. A result with [success = true] means the data was fetched and
    written. The adapter registered under the datasource was constructed
    with the exchange argument, and its fetch, called with the final
    ticker (the ticker, or for a market the ticker with the market's
    suffix), the dates of the result and the interval, returned the frame
    the result carries, which has rows. The format is csv or json; after
    the fetch, the export of the frame -- the same rows under lower-cased
    column labels and a named index -- was written to the path of the
    result without error, which the trace records. When an output file
    was given, the directory above it has been made; else, for a
    datasource, dates, interval, market, exchange, timeframe and format
    without '/', the path is that of a file in the datasets directory. *)
Theorem success_means_saved :
  forall (w : world) (datasource ticker : string)
         (start end_ : option string) (interval : string)
         (market output_file : option string) (output_format : string)
         (progress_callback : bool) (timeframe exchange : option string)
         (include_datasource : bool) (tr tr' : trace)
         (res : DownloadResult),
    download_data w datasource ticker start end_ interval market output_file
                  output_format progress_callback timeframe exchange
                  include_datasource tr = (inr res, tr') ->
    success res = true ->
    exists df path df_export instance symbol start' end' t0 t1 ev,
      data res = Some df
      /\ empty df = false
      /\ file_path res = Some path
      /\ error res = None
      /\ start_date res = Some start'
      /\ end_date res = Some end'
      /\ Registry.create_datasource (registry w) datasource
                                    (constructor_kwargs exchange)
         = inr instance
      /\ fetch instance symbol start' end' interval t0 = (inr df, t1)
      /\ (PyStr.truthy market = false -> symbol = ticker)
      /\ (PyStr.truthy market = true ->
          Config.get_ticker_with_suffix ticker (opt_str market) = ok symbol)
      /\ PyStr.mem (PyStr.lower output_format) ["csv"; "json"] = true
      /\ write_file w path (PyStr.lower output_format) df_export = None
      /\ columns df_export = map PyStr.lower (columns df)
      /\ index df_export = index df
      /\ cells df_export = cells df
      /\ index_name df_export <> None
      /\ tr' = (t1 ++ ev)%list
      /\ In (EvSave path (PyStr.lower output_format)) ev
      /\ (PyStr.truthy output_file = true ->
          mkdir_parent w (opt_str output_file) = None)
      /\ (PyStr.truthy output_file = false ->
          slash_free_fields datasource start' end' interval market
                            output_format exchange timeframe ->
          exists filename,
            path = datasets_dir w ++ "/" ++ filename
            /\ slash_free filename).
Proof.
  intros w datasource ticker start end_ interval market output_file
         output_format progress_callback timeframe exchange
         include_datasource tr tr' res H Ok.
  rewrite download_data_unfold in H.
  destruct (assign_dates w timeframe start end_ tr) as [dates tr1].
  unfold try_except in H.
  destruct (download_steps w datasource ticker (opt_str (fst dates))
                           (opt_str (snd dates)) interval market output_file
                           output_format progress_callback timeframe exchange
                           include_datasource tr1) as [[e|r] t2] eqn:S.
  { destruct (download_failed_run datasource ticker (fst dates) (snd dates)
                                  interval market progress_callback e t2)
      as [t3 F].
    rewrite F in H. injection H as <- _. discriminate Ok. }
  injection H as -> ->. clear Ok.
  unfold download_steps in S.
  apply bind_inr in S. destruct S as (u0 & t0 & Hfmt & S).
  assert (Fmt : PyStr.mem (PyStr.lower output_format) ["csv"; "json"] = true).
  { destruct (PyStr.mem (PyStr.lower output_format) ["csv"; "json"]);
      [reflexivity|discriminate Hfmt]. }
  apply bind_inr in S. destruct S as (u1 & t1 & _ & S).
  apply bind_inr in S. destruct S as (p & t3 & Hprev & S).
  destruct p as [msg|info]; [discriminate S|].
  destruct (preview_valid_fields _ _ _ _ _ _ _ _ _ _ _ Hprev)
    as (_ & _ & _ & F4 & F5 & _).
  unfold create_fetch_save in S.
  apply bind_inr in S. destruct S as (a1 & s1 & _ & S).
  apply bind_inr in S. destruct S as (a2 & s2 & _ & S).
  apply bind_inr in S. destruct S as (instance & s3 & Hc & S).
  apply lift_inr in Hc. destruct Hc as [Hc _].
  apply bind_inr in S. destruct S as (a4 & s4 & _ & S).
  apply bind_inr in S. destruct S as (a5 & s5 & _ & S).
  apply bind_inr in S. destruct S as (df & s6 & Hf & S).
  apply bind_inr in S. destruct S as (a7 & s7 & He & S).
  assert (Em : empty df = false /\ s7 = s6).
  { destruct (empty df); [discriminate He|].
    apply ret_inr in He. destruct He as [_ ->]. auto. }
  destruct Em as [Em ->].
  apply bind_inr in S. destruct S as (a8 & s8 & H8 & S).
  apply progress_inr in H8. destruct H8 as (ev8 & -> & _).
  apply bind_inr in S. destruct S as (path & s9 & Hp & S).
  apply bind_inr in S. destruct S as (a10 & s10 & H10 & S).
  apply progress_inr in H10. destruct H10 as (ev10 & -> & _).
  apply bind_inr in S. destruct S as (a11 & s11 & Hw & S).
  apply perform_inr in Hw. destruct Hw as [Hw ->].
  apply bind_inr in S. destruct S as (a12 & s12 & Hs & S).
  apply emit_inr in Hs. subst s12.
  apply bind_inr in S. destruct S as (a13 & s13 & Hpr & S).
  apply progress_inr in Hpr. destruct Hpr as (ev13 & -> & _).
  apply ret_inr in S. destruct S as [-> ->].
  assert (Path :
            exists evp,
              s9 = ((s6 ++ ev8) ++ evp)%list
              /\ (PyStr.truthy output_file = true ->
                  mkdir_parent w (opt_str output_file) = None)
              /\ (PyStr.truthy output_file = false ->
                  slash_free_fields datasource (opt_str (fst dates))
                                    (opt_str (snd dates)) interval market
                                    output_format exchange timeframe ->
                  exists filename,
                    path = datasets_dir w ++ "/" ++ filename
                    /\ slash_free filename)).
  { destruct (PyStr.truthy output_file) eqn:T.
    - apply bind_inr in Hp. destruct Hp as (b1 & r1 & Hm & Hp).
      apply perform_inr in Hm. destruct Hm as [Hm ->].
      apply ret_inr in Hp. destruct Hp as [_ ->].
      exists []. rewrite app_nil_r. split; [reflexivity|].
      split; [auto|discriminate].
    - apply bind_inr in Hp. destruct Hp as (pth & r1 & Ho & Hp).
      apply bind_inr in Hp. destruct Hp as (b2 & r2 & Hen & Hp).
      apply perform_inr in Hen. destruct Hen as [_ ->].
      apply ret_inr in Hp. destruct Hp as [-> ->].
      destruct (output_path_dir _ _ _ _ _ _ _ _ _ _ _ _ _ _ Ho)
        as (D & _ & ->).
      exists [EvEnsureDir (datasets_dir w)]. split; [reflexivity|].
      split; [discriminate|]. intros _ Fields.
      destruct (output_name_slash_free _ _ _ _ _ _ _ _ _ _ _ _ _ _ Ho Fields)
        as [_ Sf].
      exists (snd pth). rewrite D. split; [reflexivity|exact Sf]. }
  destruct Path as (evp & -> & Pm & Pd).
  exists df, path.
  eexists _.
  exists instance, (p_final_ticker info), (opt_str (fst dates)),
    (opt_str (snd dates)), s5, s6.
  exists (ev8 ++ evp ++ ev10
          ++ [EvSave path (PyStr.lower output_format)] ++ ev13)%list.
  cbn [data file_path error start_date end_date].
  split; [reflexivity|]. split; [exact Em|]. split; [reflexivity|].
  split; [reflexivity|]. split; [reflexivity|]. split; [reflexivity|].
  split; [exact Hc|]. split; [exact Hf|].
  split; [intros T; exact (proj1 (F4 T))|].
  split; [intros T; destruct (F5 T) as (cfg & _ & Sx & _); exact Sx|].
  split; [exact Fmt|]. split; [exact Hw|].
  split; [reflexivity|]. split; [reflexivity|]. split; [reflexivity|].
  split.
  { cbn [index_name set_index_name].
    destruct (PyStr.truthy (index_name (lower_columns df))) eqn:T.
    - destruct (index_name (lower_columns df));
        [discriminate|discriminate T].
    - discriminate. }
  split; [rewrite <- !app_assoc; reflexivity|].
  split.
  { rewrite !in_app_iff. right. right. right. left. left. reflexivity. }
  split; [exact Pm|exact Pd].
Qed.

End DownloadSuccess.

Lemma success_means_saved_witness :
  exists res tr' df,
    Service.download_data demo_world "demo" "AAPL" (Some "2024-01-02")
                          (Some "2024-06-01") "1d" None None "csv" false
                          None None false []
    = (inr res, tr')
    /\ Service.success res = true
    /\ Service.data res = Some df
    /\ Pandas.empty df = false
    /\ Service.file_path res
       = Some "/home/user/.connors/downloads/datasets/AAPL_2024-01-02_2024-06-01_1d.csv"
    /\ In (Effects.EvSave
             "/home/user/.connors/downloads/datasets/AAPL_2024-01-02_2024-06-01_1d.csv"
             "csv") tr'.
Proof.
  destruct (Service.download_data
              demo_world "demo" "AAPL" (Some "2024-01-02") (Some "2024-06-01")
              "1d" None None "csv" false None None false [])
    as [[e|res] tr'] eqn:E; [vm_compute in E; discriminate E|].
  assert (Ok : Service.success res = true).
  { vm_compute in E. injection E as <- _. reflexivity. }
  destruct (success_means_saved
              demo_world "demo" "AAPL" (Some "2024-01-02") (Some "2024-06-01")
              "1d" None None "csv" false None None false [] tr' res E Ok)
    as (df & path & dfx & inst & sym & s' & e' & t0 & t1 & ev
        & D & Em & Fp & _ & _ & _ & _ & _ & _ & _ & _ & _ & _ & _ & _ & _
        & Tr & Sv & _).
  assert (P : Service.file_path res
              = Some "/home/user/.connors/downloads/datasets/AAPL_2024-01-02_2024-06-01_1d.csv").
  { vm_compute in E. injection E as <- _. reflexivity. }
  rewrite P in Fp. injection Fp as <-.
  exists res, tr', df.
  split; [reflexivity|]. split; [exact Ok|]. split; [exact D|].
  split; [exact Em|]. split; [exact P|].
  rewrite Tr. apply in_or_app. right. exact Sv.
Defined.

(** ** The keyed REST adapters: keys, refused requests, empty replies *)

Section KeyedAdapters.
Import Effects Pandas Adapters.

Lemma keyed_init_spec (getenv : environ) (var message : string)
      (api_key : option string) (k : string) :
  (keyed_init getenv var message api_key = ok k
   <-> api_key = Some k
       \/ (api_key = None /\ getenv var = Some k /\ k <> ""))
  /\ (api_key = None ->
      (getenv var = None \/ getenv var = Some "") ->
      keyed_init getenv var message api_key = raise_ ValueError message).
Proof.
  unfold keyed_init. split.
  - destruct api_key as [a|].
    + split.
      * intros [= <-]. left. reflexivity.
      * intros [[= <-]|[[=] _]]. reflexivity.
    + destruct (getenv var) as [v|].
      * destruct v as [|c v]; cbn [PyStr.nonempty].
        -- split; [discriminate|].
           intros [[=]|(_ & [= <-] & N)]. contradiction.
        -- split.
           ++ intros [= <-]. right. repeat split. discriminate.
           ++ intros [[=]|(_ & [= <-] & _)]. reflexivity.
      * split; [discriminate|]. intros [[=]|(_ & [=] & _)].
  - intros -> [->| ->]; reflexivity.
Qed.

(** X16. The constructors of the polygon, finnhub and fmp adapters take
    the key from the parameter when one is passed -- any string, also
    the empty one -- and else from the environment variable of the
    adapter, which must be set and not empty; when it is not, they raise
    [ValueError]. *)
Theorem api_key_from_parameter_or_environment :
  forall (getenv : environ) (api_key : option string) (k : string),
    (polygon_init getenv api_key = ok k
     <-> api_key = Some k
         \/ (api_key = None /\ getenv "POLYGON_API_KEY" = Some k /\ k <> ""))
    /\ (finnhub_init getenv api_key = ok k
        <-> api_key = Some k
            \/ (api_key = None /\ getenv "FINNHUB_API_KEY" = Some k
                /\ k <> ""))
    /\ (fmp_init getenv api_key = ok k
        <-> api_key = Some k
            \/ (api_key = None /\ getenv "FMP_API_KEY" = Some k /\ k <> ""))
    /\ (api_key = None ->
        (getenv "POLYGON_API_KEY" = None
         \/ getenv "POLYGON_API_KEY" = Some "") ->
        polygon_init getenv api_key
        = raise_ ValueError
            "Polygon API key is required. Please set the POLYGON_API_KEY environment variable or pass it as the api_key parameter.")
    /\ (api_key = None ->
        (getenv "FINNHUB_API_KEY" = None
         \/ getenv "FINNHUB_API_KEY" = Some "") ->
        finnhub_init getenv api_key
        = raise_ ValueError
            "Finnhub API key is required. Please set the FINNHUB_API_KEY environment variable or pass it as the api_key parameter.")
    /\ (api_key = None ->
        (getenv "FMP_API_KEY" = None \/ getenv "FMP_API_KEY" = Some "") ->
        fmp_init getenv api_key
        = raise_ ValueError
            "FinancialModelingPrep API key is required. Please set the FMP_API_KEY environment variable or pass it as the api_key parameter.").
Proof.
  intros getenv api_key k. unfold polygon_init, finnhub_init, fmp_init.
  split; [apply keyed_init_spec|]. split; [apply keyed_init_spec|].
  split; [apply keyed_init_spec|].
  split; [|split]; intros N E;
    apply (proj2 (keyed_init_spec _ _ _ _ k)); assumption.
Qed.

(** A session that answers every request with the same response. *)
Definition answers (sess : session) (r : response) : Prop :=
  forall url params, sess url params = ok r.

(** X17. When the upstream answers with a status other than 200, the
    polygon, finnhub and fmp adapters raise [RuntimeError] with the name
    of the provider, the status and the first 200 characters of the
    response text; they have made one request, and do not look at the
    body. For fmp this is for the intervals it supports. *)
Theorem http_error_is_runtime_error :
  forall (pd : api) (sess : session) (api_key : string)
         (symbol start end_ interval : string) (s e : Z) (r : response)
         (tr : trace),
    to_datetime pd start = Some s ->
    to_datetime pd end_ = Some e ->
    answers sess r ->
    status_code r <> 200 ->
    (exists url params,
        polygon_fetch pd sess api_key symbol start end_ interval tr
        = (inl (Exn RuntimeError
                    ("polygon HTTP " ++ PyStr.str_of_Z (status_code r) ++ ": "
                     ++ PyStr.take 200 (text r))),
           (tr ++ [EvHttpGet url params])%list))
    /\ (exists url params,
           finnhub_fetch pd sess api_key symbol start end_ interval tr
           = (inl (Exn RuntimeError
                       ("Finnhub HTTP " ++ PyStr.str_of_Z (status_code r)
                        ++ ": " ++ PyStr.take 200 (text r))),
              (tr ++ [EvHttpGet url params])%list))
    /\ (In interval ["1d"; "1wk"; "1mo"] ->
        exists url params,
          fmp_fetch pd sess api_key symbol start end_ interval tr
          = (inl (Exn RuntimeError
                      ("FMP HTTP " ++ PyStr.str_of_Z (status_code r) ++ ": "
                       ++ PyStr.take 200 (text r))),
             (tr ++ [EvHttpGet url params])%list)).
Proof.
  intros pd sess api_key symbol start end_ interval s e r tr Hs He A N.
  assert (St : (status_code r =? 200) = false) by (apply Z.eqb_neq; exact N).
  split; [|split].
  - unfold polygon_fetch.
    destruct (match Dict.get interval polygon_interval_map with
              | Some p => p
              | None => ("day", 1)
              end) as [timespan multiplier].
    unfold parse. rewrite Hs, He.
    cbv beta iota delta [bind lift ok session_get emit].
    rewrite A. unfold ok. cbv beta iota. rewrite St. cbn [negb].
    eexists _, _. reflexivity.
  - unfold finnhub_fetch.
    unfold parse. rewrite Hs, He.
    cbv beta iota zeta delta [bind lift ok session_get emit].
    rewrite A. unfold ok. cbv beta iota. rewrite St. cbn [negb].
    eexists _, _. reflexivity.
  - intros I. unfold fmp_fetch.
    destruct I as [<-|[<-|[<-|[]]]];
      cbn [String.eqb Ascii.eqb Bool.eqb PyStr.mem orb];
      unfold parse; rewrite Hs, He;
      cbv beta iota zeta delta [bind lift ok session_get emit ret];
      rewrite A; unfold ok; cbv beta iota; rewrite St; cbn [negb];
      eexists _, _; reflexivity.
Qed.

End KeyedAdapters.

Lemma api_key_from_parameter_or_environment_witness :
  Adapters.polygon_init (fun _ => Some "") None
  = raise_ ValueError
      "Polygon API key is required. Please set the POLYGON_API_KEY environment variable or pass it as the api_key parameter."
  /\ Adapters.polygon_init (fun _ => Some "") (Some "") = ok "".
Proof.
  split.
  - apply (proj1 (proj2 (proj2 (proj2
             (api_key_from_parameter_or_environment
                (fun _ => Some "") None ""))))); [reflexivity|].
    right. reflexivity.
  - apply (proj1 (api_key_from_parameter_or_environment
                    (fun _ => Some "") (Some "") "")).
    left. reflexivity.
Defined.

(** A session for examples: every request is refused. *)
Definition refusing_session : Adapters.session :=
  fun _ _ => ok (Adapters.Response 403 "Forbidden" None).

Lemma http_error_is_runtime_error_witness :
  Pandas.to_datetime Pandas.reference "2024-01-02" = Some 1704153600000
  /\ Pandas.to_datetime Pandas.reference "2024-06-01" = Some 1717200000000
  /\ answers refusing_session (Adapters.Response 403 "Forbidden" None)
  /\ Adapters.status_code (Adapters.Response 403 "Forbidden" None) <> 200
  /\ exists url params,
      Adapters.polygon_fetch Pandas.reference refusing_session "key" "AAPL"
                             "2024-01-02" "2024-06-01" "1d" []
      = (inl (Exn RuntimeError "polygon HTTP 403: Forbidden"),
         [Effects.EvHttpGet url params]).
Proof.
  assert (A : answers refusing_session (Adapters.Response 403 "Forbidden" None))
    by (intros url params; reflexivity).
  split; [reflexivity|]. split; [reflexivity|]. split; [exact A|].
  split; [discriminate|].
  exact (proj1 (http_error_is_runtime_error
                  Pandas.reference refusing_session "key" "AAPL" "2024-01-02"
                  "2024-06-01" "1d" 1704153600000 1717200000000
                  (Adapters.Response 403 "Forbidden" None) []
                  eq_refl eq_refl A ltac:(discriminate))).
Defined.

Section EmptyReplies.
Import Effects Pandas Adapters.

Lemma json_get_falsy (kv : Dict.dict json) (key : string) (default : json) :
  json_truthy default = false ->
  (forall v, Dict.get key kv = Some v -> json_truthy v = false) ->
  exists v, json_get (JObj kv) key default = inr v /\ json_truthy v = false.
Proof.
  intros D F. unfold json_get.
  destruct (Dict.get key kv) as [v|]; eexists; split;
    try reflexivity; auto.
Qed.

(** X18. A reply with status 200 that holds no rows makes the adapter
    raise [RuntimeError] after its one request: for polygon when the
    "results" of the reply are missing or empty; for finnhub "no data"
    when the status field of the reply is "no_data", and "no results"
    when the close prices are missing or empty; for fmp when the
    "historical" rows of a daily reply are missing or empty, and when a
    weekly or monthly reply is not a list or is the empty list. *)
Theorem empty_reply_is_runtime_error :
  forall (pd : api) (sess : session) (api_key : string)
         (symbol start end_ interval : string) (s e : Z) (r : response)
         (data : json) (tr : trace),
    to_datetime pd start = Some s ->
    to_datetime pd end_ = Some e ->
    answers sess r ->
    status_code r = 200 ->
    body r = Some data ->
    (forall kv,
        data = JObj kv ->
        (forall v, Dict.get "results" kv = Some v -> json_truthy v = false) ->
        exists url params,
          polygon_fetch pd sess api_key symbol start end_ interval tr
          = (inl (Exn RuntimeError "polygon returned no results"),
             (tr ++ [EvHttpGet url params])%list))
    /\ (forall kv,
           data = JObj kv ->
           Dict.get "s" kv = Some (JStr "no_data") ->
           exists url params,
             finnhub_fetch pd sess api_key symbol start end_ interval tr
             = (inl (Exn RuntimeError "Finnhub returned no data"),
                (tr ++ [EvHttpGet url params])%list))
    /\ (forall kv,
           data = JObj kv ->
           Dict.get "s" kv <> Some (JStr "no_data") ->
           (forall v, Dict.get "c" kv = Some v -> json_truthy v = false) ->
           exists url params,
             finnhub_fetch pd sess api_key symbol start end_ interval tr
             = (inl (Exn RuntimeError "Finnhub returned no results"),
                (tr ++ [EvHttpGet url params])%list))
    /\ (forall kv,
           interval = "1d" ->
           data = JObj kv ->
           (forall v,
               Dict.get "historical" kv = Some v -> json_truthy v = false) ->
           exists url params,
             fmp_fetch pd sess api_key symbol start end_ interval tr
             = (inl (Exn RuntimeError "FMP returned no results"),
                (tr ++ [EvHttpGet url params])%list))
    /\ (In interval ["1wk"; "1mo"] ->
        (forall l, data = JArr l -> l = []) ->
        exists url params,
          fmp_fetch pd sess api_key symbol start end_ interval tr
          = (inl (Exn RuntimeError "FMP returned no results"),
             (tr ++ [EvHttpGet url params])%list)).
Proof.
  intros pd sess api_key symbol start end_ interval s e r data tr Hs He A St
         Hb.
  assert (J : response_json r = inr data).
  { unfold response_json. rewrite Hb. reflexivity. }
  split; [|split; [|split; [|split]]].
  - intros kv -> F. unfold polygon_fetch.
    destruct (match Dict.get interval polygon_interval_map with
              | Some p => p
              | None => ("day", 1)
              end) as [timespan multiplier].
    destruct (json_get_falsy kv "results" (JArr []) eq_refl F)
      as (v & G & T).
    unfold parse. rewrite Hs, He.
    cbv beta iota delta [bind lift ok session_get emit].
    rewrite A. unfold ok. cbv beta iota. rewrite St. cbn [Z.eqb Pos.eqb negb].
    rewrite J, G, T. cbn [negb]. eexists _, _. reflexivity.
  - intros kv -> F. unfold finnhub_fetch.
    unfold parse. rewrite Hs, He.
    cbv beta iota zeta delta [bind lift ok session_get emit].
    rewrite A. unfold ok. cbv beta iota. rewrite St. cbn [Z.eqb Pos.eqb negb].
    rewrite J. unfold json_get. rewrite F. cbn. eexists _, _. reflexivity.
  - intros kv -> N F. unfold finnhub_fetch.
    destruct (json_get_falsy kv "c" JNull eq_refl F) as (v & G & T).
    assert (S : exists st,
               json_get (JObj kv) "s" JNull = inr st
               /\ json_eq_str st "no_data" = false).
    { unfold json_get. destruct (Dict.get "s" kv) as [st|] eqn:Q.
      - exists st. split; [reflexivity|].
        destruct st; try reflexivity. cbn [json_eq_str].
        destruct (String.eqb_spec s0 "no_data") as [->|_]; [|reflexivity].
        exfalso. apply N. reflexivity.
      - exists JNull. split; reflexivity. }
    destruct S as (st & Gs & Ts).
    unfold parse. rewrite Hs, He.
    cbv beta iota zeta delta [bind lift ok session_get emit].
    rewrite A. unfold ok. cbv beta iota. rewrite St. cbn [Z.eqb Pos.eqb negb].
    rewrite J, Gs, Ts, G, T. cbn [negb]. eexists _, _. reflexivity.
  - intros kv -> -> F. unfold fmp_fetch.
    destruct (json_get_falsy kv "historical" (JArr []) eq_refl F)
      as (v & G & T).
    cbn [String.eqb Ascii.eqb Bool.eqb].
    unfold parse. rewrite Hs, He.
    cbv beta iota zeta delta [bind lift ok session_get emit ret].
    rewrite A. unfold ok. cbv beta iota. rewrite St. cbn [Z.eqb Pos.eqb negb].
    rewrite J, G, T. cbn [negb]. eexists _, _. reflexivity.
  - intros I F. unfold fmp_fetch.
    assert (T : json_truthy (match data with JArr _ => data | _ => JArr [] end)
                = false).
    { destruct data; try reflexivity. rewrite (F l eq_refl). reflexivity. }
    destruct I as [<-|[<-|[]]];
      cbn [String.eqb Ascii.eqb Bool.eqb PyStr.mem orb];
      unfold parse; rewrite Hs, He;
      cbv beta iota zeta delta [bind lift ok session_get emit ret];
      rewrite A; unfold ok; cbv beta iota; rewrite St;
      cbn [Z.eqb Pos.eqb negb]; rewrite J, T; cbn [negb];
      eexists _, _; reflexivity.
Qed.

End EmptyReplies.

(** A session for examples: the upstream knows nothing of the symbol. *)
Definition empty_session : Adapters.session :=
  fun _ _ =>
    ok (Adapters.Response
          200 "{}" (Some (Pandas.JObj [("s", Pandas.JStr "no_data")]))).

Lemma empty_reply_is_runtime_error_witness :
  exists url params,
    Adapters.finnhub_fetch Pandas.reference empty_session "key" "AAPL"
                           "2024-01-02" "2024-06-01" "1d" []
    = (inl (Exn RuntimeError "Finnhub returned no data"),
       [Effects.EvHttpGet url params]).
Proof.
  exact (proj1 (proj2 (empty_reply_is_runtime_error
                         Pandas.reference empty_session "key" "AAPL"
                         "2024-01-02" "2024-06-01" "1d"
                         1704153600000 1717200000000
                         (Adapters.Response
                            200 "{}"
                            (Some (Pandas.JObj [("s", Pandas.JStr "no_data")])))
                         (Pandas.JObj [("s", Pandas.JStr "no_data")]) []
                         eq_refl eq_refl (fun _ _ => eq_refl) eq_refl eq_refl))
               [("s", Pandas.JStr "no_data")] eq_refl eq_refl).
Defined.

(** ** The order and the instants of the rows *)

Section RowOrder.
Import Effects Pandas Adapters.


Lemma set_index_values_length (df df' : DataFrame) (idx : list Z) :
  set_index_values df idx = inr df' ->
  List.length idx = List.length (cells df)
  /\ index df' = idx /\ cells df' = cells df.
Proof.
  unfold set_index_values.
  destruct (Nat.eqb_spec (List.length idx) (List.length (cells df)));
    [|discriminate].
  intros [= <-]. auto.
Qed.




End RowOrder.




Section DailyRows.
Import Effects Pandas Adapters.

Lemma normalize_midnight (idx : list Z) :
  Forall (fun t => t mod MS_PER_DAY = 0) (normalize idx)
  /\ Forall2 (fun t0 t => t <= t0 < t + MS_PER_DAY) idx (normalize idx).
Proof.
  unfold normalize, MS_PER_DAY. split.
  - apply Forall_forall. intros t I. apply in_map_iff in I.
    destruct I as (t0 & <- & _). Z.div_mod_to_equations. lia.
  - induction idx as [|t0 r IH]; cbn [map]; constructor; [|exact IH].
    Z.div_mod_to_equations. lia.
Qed.

Lemma response_json_inr (r : response) (data : json) :
  response_json r = inr data -> body r = Some data.
Proof.
  unfold response_json. destruct (body r); [|discriminate].
  intros [= <-]. reflexivity.
Qed.

(** X20. The index of the frame the polygon and finnhub adapters return
    comes from the instants of the one reply they asked for: the field
    "t" of each record of "results" for polygon, in milliseconds, and
    the array "t" of the reply for finnhub, in seconds. For the interval
    "1d" every row is moved to the midnight that begins its day: each
    index value is a whole number of days, at or before the upstream
    instant of its row and less than a day before it. For any other
    interval the instants are kept as they are. *)
Theorem daily_rows_at_midnight :
  forall (pd : api) (sess : session)
         (api_key symbol start end_ interval : string) (tr tr' : trace)
         (df : DataFrame),
    (polygon_fetch pd sess api_key symbol start end_ interval tr
     = (inr df, tr') ->
     exists url params resp data results records ts idx,
       sess url params = inr resp
       /\ tr' = (tr ++ [EvHttpGet url params])%list
       /\ body resp = Some data
       /\ json_get data "results" (JArr []) = inr results
       /\ records_of results = inr records
       /\ map_result (fun row => json_item (JObj row) "t") records = inr ts
       /\ map_result (parse_unit pd 1) ts = inr idx
       /\ (interval = "1d" ->
           Forall (fun t => t mod MS_PER_DAY = 0) (index df)
           /\ Forall2 (fun t0 t => t <= t0 < t + MS_PER_DAY) idx (index df))
       /\ (interval <> "1d" -> index df = idx))
    /\ (finnhub_fetch pd sess api_key symbol start end_ interval tr
        = (inr df, tr') ->
        exists url params resp data t ts idx,
          sess url params = inr resp
          /\ tr' = (tr ++ [EvHttpGet url params])%list
          /\ body resp = Some data
          /\ json_item data "t" = inr t
          /\ as_array t = inr ts
          /\ map_result (parse_unit pd 1000) ts = inr idx
          /\ (interval = "1d" ->
              Forall (fun t => t mod MS_PER_DAY = 0) (index df)
              /\ Forall2 (fun t0 t => t <= t0 < t + MS_PER_DAY) idx
                         (index df))
          /\ (interval <> "1d" -> index df = idx)).
Proof.
  intros pd sess api_key symbol start end_ interval tr tr' df. split.
  - unfold polygon_fetch.
    destruct (match Dict.get interval polygon_interval_map with
              | Some p => p
              | None => ("day", 1)
              end) as [timespan multiplier].
    intros H. monad_inv H.
    match goal with
    | K : set_index_values _ ?idx = inr ?d,
      P : map_result (parse_unit pd 1) ?ts = inr ?idx,
      T : map_result (fun row => json_item (JObj row) "t") ?records
          = inr ?ts,
      R : records_of ?results = inr ?records,
      G : json_get ?data "results" (JArr []) = inr ?results,
      J : response_json ?resp = inr ?data,
      Q : sess ?url ?params = inr ?resp |- _ =>
        apply set_index_values_length in K; destruct K as (_ & I & _);
        apply response_json_inr in J;
        exists url, params, resp, data, results, records, ts, idx;
        split; [exact Q|]; split; [reflexivity|]; split; [exact J|];
        split; [exact G|]; split; [exact R|]; split; [exact T|];
        split; [exact P|]
    end.
    destruct (String.eqb_spec interval "1d") as [E|N];
      cbn [index set_index_name]; rewrite I.
    + split; [intros _; apply normalize_midnight|]. intros N. contradiction.
    + split; [intros E; contradiction|]. reflexivity.
  - unfold finnhub_fetch. intros H. monad_inv H.
    match goal with
    | K : set_index_values _ ?idx = inr ?d,
      P : map_result (parse_unit pd 1000) ?ts = inr ?idx,
      A : as_array ?t = inr ?ts,
      T : json_item ?data "t" = inr ?t,
      J : response_json ?resp = inr ?data,
      Q : sess ?url ?params = inr ?resp |- _ =>
        apply set_index_values_length in K; destruct K as (_ & I & _);
        apply response_json_inr in J;
        exists url, params, resp, data, t, ts, idx;
        split; [exact Q|]; split; [reflexivity|]; split; [exact J|];
        split; [exact T|]; split; [exact A|]; split; [exact P|]
    end.
    destruct (String.eqb_spec interval "1d") as [E|N];
      cbn [index set_index_name]; rewrite I.
    + split; [intros _; apply normalize_midnight|]. intros N. contradiction.
    + split; [intros E; contradiction|]. reflexivity.
Qed.

End DailyRows.

Lemma daily_rows_at_midnight_witness :
  exists df tr',
    Adapters.polygon_fetch Pandas.reference polygon_session "key" "AAPL"
                           "2024-01-02" "2024-01-04" "1d" []
    = (inr df, tr')
    /\ Pandas.index df = [1704153600000]
    /\ Forall (fun t => t mod Pandas.MS_PER_DAY = 0) (Pandas.index df).
Proof.
  destruct (Adapters.polygon_fetch Pandas.reference polygon_session "key"
                                   "AAPL" "2024-01-02" "2024-01-04" "1d" [])
    as [[e|df] tr'] eqn:E; [vm_compute in E; discriminate E|].
  exists df, tr'. split; [reflexivity|]. split.
  - vm_compute in E. injection E as <- _. reflexivity.
  - destruct (proj1 (daily_rows_at_midnight
                       Pandas.reference polygon_session "key" "AAPL"
                       "2024-01-02" "2024-01-04" "1d" [] tr' df) E)
      as (url & params & resp & data & results & records & ts & idx
          & _ & _ & _ & _ & _ & _ & _ & D & _).
    exact (proj1 (D eq_refl)).
Defined.

(** ** The exchange-aggregator adapter: ranges and errors *)

Section ExchangeErrors.
Import Effects Pandas CCXT.

(** An exception of the pagination loop is a [RuntimeError], and the loop
    only adds to the trace. *)
Lemma while_loop_raises (self : CCXTDataSource) (symbol timeframe : string)
      (until : Z) (fuel : nat) :
  forall (s : loop_state) (tr tr' : trace) (e : exn),
    while_loop fuel self symbol timeframe until s tr = (inl e, tr') ->
    exn_kind_of e = RuntimeError.
Proof.
  induction fuel as [|fuel IH]; intros s tr tr' e; cbn [while_loop];
    destruct (loop_condition until s); try discriminate.
  unfold bind at 1. rewrite loop_body_run. cbv zeta.
  destruct (fetch_ohlcv (the_exchange self) (flat_map as_request tr)
                        (symbol, timeframe, current_since s, 1000))
    as [[|c0 rest]|msg|msg|msg]; try discriminate;
    try (intros [= <- _]; reflexivity).
  destruct (timestamp (last (c0 :: rest) c0) + 1 >=? until);
    [discriminate|]. apply IH.
Qed.

Lemma while_loop_not_entered (self : CCXTDataSource)
      (symbol timeframe : string) (until : Z) (fuel : nat) (s : loop_state)
      (tr : trace) :
  until <= current_since s ->
  while_loop fuel self symbol timeframe until s tr = (inr (Some s), tr).
Proof.
  intros H.
  assert (C : loop_condition until s = false).
  { unfold loop_condition. destruct (Z.ltb_spec (current_since s) until);
      [lia|reflexivity]. }
  destruct fuel; cbn [while_loop]; rewrite C; reflexivity.
Qed.

(** X21. When the end of the range is not after its start, the crypto
    adapter asks the exchange nothing: the pagination loop is not
    entered, and [fetch] raises the [RuntimeError] "No data found" with
    the trace as it was. *)
Theorem empty_range_makes_no_request :
  forall (pd : api) (self : CCXTDataSource)
         (symbol start end_ interval timeframe : string) (since until : Z)
         (tr : trace),
    Dict.get interval INTERVAL_MAP = Some timeframe ->
    timeframe_refused self timeframe = false ->
    to_datetime pd start = Some since ->
    to_datetime pd end_ = Some until ->
    until <= since ->
    fetch pd self symbol start end_ interval tr
    = (inl (Exn RuntimeError
                ("No data found for " ++ symbol ++ " on " ++ exchange_id self
                 ++ " between " ++ start ++ " and " ++ end_)), tr).
Proof.
  intros pd self symbol start end_ interval timeframe since until tr
         Hi Ht Hs He Le.
  rewrite (fetch_run pd self symbol start end_ interval timeframe since until
                     tr Hi Ht Hs He).
  rewrite while_loop_not_entered by exact Le. reflexivity.
Qed.

(** X23. An interval of the adapter's vocabulary that the exchange does
    not list among its timeframes is refused with a [ValueError] that
    lists them in order, before the dates are read and before anything
    is asked of the exchange. When the first request fails, [fetch]
    raises a [RuntimeError] that names the exchange and carries the
    message of the failure -- a network error, an exchange error (with a
    hint at the symbol) or anything else -- after that one request. *)
Theorem exchange_failures_reported :
  forall (pd : api) (self : CCXTDataSource)
         (symbol start end_ interval timeframe : string) (tr : trace),
    Dict.get interval INTERVAL_MAP = Some timeframe ->
    (forall tfs,
        timeframes (the_exchange self) = Some tfs ->
        PyStr.mem timeframe tfs = false ->
        fetch pd self symbol start end_ interval tr
        = (inl (Exn ValueError
                    ("Timeframe '" ++ timeframe ++ "' not supported by "
                     ++ exchange_id self ++ ". Available timeframes: "
                     ++ PyStr.join ", " (sorted_str tfs))), tr))
    /\ (forall since until msg,
           timeframe_refused self timeframe = false ->
           to_datetime pd start = Some since ->
           to_datetime pd end_ = Some until ->
           since < until ->
           let asked :=
             (tr ++ [EvFetchOhlcv symbol timeframe since 1000])%list in
           let reply :=
             fetch_ohlcv (the_exchange self) (flat_map as_request tr)
                         (symbol, timeframe, since, 1000) in
           (reply = NetworkError msg ->
            fetch pd self symbol start end_ interval tr
            = (inl (Exn RuntimeError
                        ("Network error fetching data from "
                         ++ exchange_id self ++ ": " ++ msg)), asked))
           /\ (reply = ExchangeError msg ->
               fetch pd self symbol start end_ interval tr
               = (inl (Exn RuntimeError
                           ("Exchange error from " ++ exchange_id self ++ ": "
                            ++ msg ++ ". Check if symbol '" ++ symbol
                            ++ "' is valid for this exchange.")), asked))
           /\ (reply = OtherException msg ->
               fetch pd self symbol start end_ interval tr
               = (inl (Exn RuntimeError
                           ("Unexpected error fetching data from "
                            ++ exchange_id self ++ ": " ++ msg)), asked))).
Proof.
  intros pd self symbol start end_ interval timeframe tr Hi. split.
  - intros tfs Ht Hm. unfold fetch. rewrite Hi, Ht, Hm. reflexivity.
  - intros since until msg Ht Hs He Lt asked reply. subst asked reply.
    rewrite (fetch_run pd self symbol start end_ interval timeframe since
                       until tr Hi Ht Hs He).
    assert (C : loop_condition until (Loop since 0 []) = true).
    { unfold loop_condition. cbn [current_since iteration].
      destruct (Z.ltb_spec since until); [reflexivity|lia]. }
    assert (F : Z.to_nat max_iterations = S (Z.to_nat 999)) by reflexivity.
    rewrite F. cbn [while_loop]. rewrite C.
    split; [|split]; intros R;
      unfold bind at 1; rewrite loop_body_run; cbv zeta;
      cbn [current_since]; rewrite R; reflexivity.
Qed.

End ExchangeErrors.

(** An exchange for examples that is not reachable. *)
Definition offline_exchange : CCXT.exchange :=
  CCXT.Exchange (Some ["1h"; "1d"])
                (fun _ _ => CCXT.NetworkError "connection refused").

Lemma empty_range_makes_no_request_witness :
  CCXT.fetch Pandas.reference (CCXT.Source "binance" paged_exchange)
             "BTC/USDT" "2024-01-03" "2024-01-03" "1d" []
  = (inl (Exn RuntimeError
              "No data found for BTC/USDT on binance between 2024-01-03 and 2024-01-03"),
     []).
Proof.
  apply (empty_range_makes_no_request
           Pandas.reference (CCXT.Source "binance" paged_exchange)
           "BTC/USDT" "2024-01-03" "2024-01-03" "1d" "1d"
           1704240000000 1704240000000 []);
    [reflexivity|reflexivity|reflexivity|reflexivity|lia].
Defined.

Lemma exchange_failures_reported_witness :
  Dict.get "4h" CCXT.INTERVAL_MAP = Some "4h"
  /\ CCXT.fetch Pandas.reference (CCXT.Source "binance" offline_exchange)
                "BTC/USDT" "not a date" "2024-01-03" "4h" []
     = (inl (Exn ValueError
                 "Timeframe '4h' not supported by binance. Available timeframes: 1d, 1h"),
        [])
  /\ CCXT.fetch Pandas.reference (CCXT.Source "binance" offline_exchange)
                "BTC/USDT" "2024-01-01" "2024-01-03" "1d" []
     = (inl (Exn RuntimeError
                 "Network error fetching data from binance: connection refused"),
        [Effects.EvFetchOhlcv "BTC/USDT" "1d" 1704067200000 1000]).
Proof.
  split; [reflexivity|]. split.
  - apply (proj1 (exchange_failures_reported
                    Pandas.reference (CCXT.Source "binance" offline_exchange)
                    "BTC/USDT" "not a date" "2024-01-03" "4h" "4h" []
                    eq_refl) ["1h"; "1d"]); reflexivity.
  - apply (proj2 (exchange_failures_reported
                    Pandas.reference (CCXT.Source "binance" offline_exchange)
                    "BTC/USDT" "2024-01-01" "2024-01-03" "1d" "1d" []
                    eq_refl) 1704067200000 1704240000000 "connection refused");
      [reflexivity|reflexivity|reflexivity|lia|reflexivity].
Defined.

Section ExchangeInit.
Import CCXT.

(** A credential: the parameter when it is given and not empty, else the
    environment variable when it is set and not empty, else none. *)
Definition credential (parameter variable : option string) : option string :=
  if PyStr.truthy parameter then parameter
  else if PyStr.truthy variable then variable
  else None.

(** X24. The constructor of the crypto adapter looks the exchange up in
    lower case: it raises [ValueError] when the lower-cased name is not
    an exchange the library knows, and else builds the client of that
    exchange and keeps the lower-cased name. The client is configured
    with an API key and a secret, each taken from the parameter when
    that is given and not empty, else from CCXT_API_KEY or CCXT_SECRET
    when set and not empty, else left out; nothing else is configured. *)
Theorem exchange_chosen_in_lower_case :
  forall (ccxt : ccxt_module) (getenv : Adapters.environ)
         (exchange_arg : string) (api_key secret : option string),
    (PyStr.mem (PyStr.lower exchange_arg) (exchanges ccxt) = false ->
     exists msg,
       init ccxt getenv exchange_arg api_key secret = raise_ ValueError msg)
    /\ (PyStr.mem (PyStr.lower exchange_arg) (exchanges ccxt) = true ->
        exists config,
          init ccxt getenv exchange_arg api_key secret
          = ok (Source (PyStr.lower exchange_arg)
                       (exchange_class ccxt (PyStr.lower exchange_arg)
                                       config))
          /\ Dict.get "apiKey" config
             = credential api_key (getenv "CCXT_API_KEY")
          /\ Dict.get "secret" config
             = credential secret (getenv "CCXT_SECRET")
          /\ forall k,
              k <> "apiKey" -> k <> "secret" -> Dict.get k config = None).
Proof.
  intros ccxt getenv exchange_arg api_key secret. unfold init. cbv zeta.
  split; intros M; rewrite M; cbn [negb].
  - eexists. reflexivity.
  - eexists. split; [reflexivity|]. unfold credential.
    assert (K : forall o : option string,
               PyStr.truthy o = true ->
               Some (match o with Some k => k | None => "" end) = o).
    { intros [k|] T; [reflexivity|discriminate T]. }
    destruct (PyStr.truthy api_key) eqn:A;
      [|destruct (PyStr.truthy (getenv "CCXT_API_KEY")) eqn:A'];
      (destruct (PyStr.truthy secret) eqn:S;
       [|destruct (PyStr.truthy (getenv "CCXT_SECRET")) eqn:S']);
      cbn [Dict.set Dict.get String.eqb Ascii.eqb Bool.eqb];
      rewrite ?K by assumption;
      (split; [reflexivity|]); (split; [reflexivity|]);
      intros k N1 N2;
      repeat match goal with
             | |- context [String.eqb k ?x] =>
                 destruct (String.eqb_spec k x); [contradiction|]
             end;
      reflexivity.
Qed.

End ExchangeInit.

(** The library of the examples: it knows three exchanges. *)
Definition ccxt_library : CCXT.ccxt_module :=
  CCXT.Ccxt ["binance"; "coinbase"; "kraken"] (fun _ _ => paged_exchange).

Lemma exchange_chosen_in_lower_case_witness :
  PyStr.mem (PyStr.lower "Kraken") (CCXT.exchanges ccxt_library) = true
  /\ exists config,
      CCXT.init ccxt_library
                (fun v => if String.eqb v "CCXT_API_KEY" then Some "from-env"
                          else None)
                "Kraken" (Some "") None
      = ok (CCXT.Source "kraken" (CCXT.exchange_class ccxt_library "kraken"
                                                      config))
      /\ Dict.get "apiKey" config = Some "from-env"
      /\ Dict.get "secret" config = None.
Proof.
  split; [reflexivity|].
  destruct (proj2 (exchange_chosen_in_lower_case
                     ccxt_library
                     (fun v => if String.eqb v "CCXT_API_KEY"
                               then Some "from-env" else None)
                     "Kraken" (Some "") None) eq_refl)
    as (config & E & A & S & _).
  exists config. auto.
Defined.

Section ListingFacts.
Import Service Listing.

Lemma filter_map_In {A B} (f : A -> option B) (l : list A) (y : B) :
  In y (filter_map f l) <-> exists x, In x l /\ f x = Some y.
Proof.
  induction l as [|x r IH]; cbn [filter_map In].
  - split; [intros []|intros (x & [] & _)].
  - destruct (f x) as [y0|] eqn:E.
    + cbn [In]. rewrite IH. split.
      * intros [<-|(x0 & I & F)]; [exists x; auto|exists x0; auto].
      * intros (x0 & [<-|I] & F).
        -- left. congruence.
        -- right. exists x0. auto.
    + rewrite IH. split.
      * intros (x0 & I & F). exists x0. auto.
      * intros (x0 & [<-|I] & F); [congruence|exists x0; auto].
Qed.

Lemma insert_newest_perm (x : file_info) (l : list file_info) :
  Permutation (x :: l) (insert_newest x l).
Proof.
  induction l as [|y r IH]; cbn [insert_newest]; [reflexivity|].
  destruct (modified y >? modified x); [|reflexivity].
  rewrite perm_swap. apply perm_skip. exact IH.
Qed.

Lemma sort_newest_first_perm (l : list file_info) :
  Permutation l (sort_newest_first l).
Proof.
  induction l as [|x r IH]; cbn [sort_newest_first fold_right];
    [reflexivity|].
  rewrite <- insert_newest_perm. apply perm_skip. exact IH.
Qed.

Lemma insert_newest_sorted (x : file_info) (l : list file_info) :
  Sorted (fun a b => modified b <= modified a) l ->
  Sorted (fun a b => modified b <= modified a) (insert_newest x l).
Proof.
  induction 1 as [|y r S IH H]; cbn [insert_newest].
  - repeat constructor.
  - destruct (Z.gtb_spec (modified y) (modified x)) as [G|G].
    + constructor; [exact IH|].
      destruct H as [|z r' H]; cbn [insert_newest].
      * constructor. lia.
      * destruct (modified z >? modified x); constructor; [exact H|lia].
    + constructor; [constructor; assumption|]. constructor. lia.
Qed.

Lemma sort_newest_first_sorted (l : list file_info) :
  Sorted (fun a b => modified b <= modified a) (sort_newest_first l).
Proof.
  induction l as [|x r IH]; cbn [sort_newest_first fold_right].
  - constructor.
  - apply insert_newest_sorted. exact IH.
Qed.

Lemma filtered_out_false (wanted found : option string) :
  filtered_out wanted found = false ->
  PyStr.truthy wanted = true -> found = wanted.
Proof.
  unfold filtered_out. intros F T. rewrite T in F. cbn [andb] in F.
  destruct wanted as [a|]; [|discriminate T].
  destruct found as [b|]; [|discriminate F].
  apply negb_false_iff in F. apply String.eqb_eq in F. congruence.
Qed.

Lemma file_record_some (dir : string) (ticker datasource market : option string)
      (f : dir_entry) (info : file_info) :
  file_record dir ticker datasource market f = Some info ->
  filename info = e_name f
  /\ (5 <= List.length (split "_" (stem (e_name f))))%nat
  /\ e_stat f = Some (size_bytes info, modified info).
Proof.
  unfold file_record, parse_name.
  destruct (Nat.ltb_spec (List.length (split "_" (stem (e_name f)))) 5)
    as [L|L]; [discriminate|].
  destruct (match last3 (split "_" (stem (e_name f))) with
            | [file_start; file_end; file_interval] => _
            | _ => None
            end) as [[[[[[ft fm] fd] fs] fe] fi]|]; [|discriminate].
  destruct (filtered_out ticker (Some ft)); [discriminate|].
  destruct (filtered_out datasource (Some fd)); [discriminate|].
  destruct (filtered_out market fm); [discriminate|].
  destruct (e_stat f) as [[size mtime]|]; [|discriminate].
  intros [= <-]. cbn. auto.
Qed.

(** What the list is to hold, in the words of the source comments: the
    parts of a name are its stem split at the underscores; with six parts
    or more the second is the market and the third the datasource, else
    there is no market and the second is the datasource; the last three
    are the start, the end and the interval. *)
Definition parts_of (f : dir_entry) : list string :=
  split "_" (stem (e_name f)).

Definition has_market (f : dir_entry) : bool :=
  (6 <=? List.length (parts_of f))%nat.

Definition read_ticker (f : dir_entry) : string := nth 0 (parts_of f) "".

Definition read_market (f : dir_entry) : option string :=
  if has_market f then Some (nth 1 (parts_of f) "") else None.

Definition read_datasource (f : dir_entry) : string :=
  nth (if has_market f then 2 else 1)%nat (parts_of f) "".

(** A filter that is given (not [None], not empty) passes the files that
    read as its value. *)
Definition passes (wanted found : option string) : bool :=
  negb (PyStr.truthy wanted)
  || match wanted, found with
     | Some a, Some b => String.eqb b a
     | _, _ => false
     end.

(** The files that are listed. *)
Definition keeps (ticker datasource market : option string) (f : dir_entry)
  : bool :=
  PyStr.endswith (e_name f) ".csv"
  && (5 <=? List.length (parts_of f))%nat
  && passes ticker (Some (read_ticker f))
  && passes datasource (Some (read_datasource f))
  && passes market (read_market f)
  && match e_stat f with Some _ => true | None => false end.

(** The dictionary of a listed file. *)
Definition listing_of (dir : string) (f : dir_entry) : file_info :=
  let n := List.length (parts_of f) in
  FileInfo (e_name f) (dir ++ "/" ++ e_name f)
           (read_ticker f) (read_market f) (read_datasource f)
           (nth (n - 3) (parts_of f) "") (nth (n - 2) (parts_of f) "")
           (nth (n - 1) (parts_of f) "")
           (match e_stat f with Some (size, _) => size | None => 0 end)
           (match e_stat f with Some (_, mtime) => mtime | None => 0 end).

Lemma passes_spec (wanted found : option string) :
  passes wanted found = true
  <-> (PyStr.truthy wanted = true -> found = wanted).
Proof.
  unfold passes. destruct (PyStr.truthy wanted) eqn:T; cbn [negb orb].
  - destruct wanted as [a|]; [|discriminate T].
    destruct found as [b|].
    + rewrite String.eqb_eq. split; [intros -> _; reflexivity|].
      intros H. specialize (H eq_refl). congruence.
    + split; [discriminate|]. intros H. specialize (H eq_refl).
      discriminate H.
  - split; [discriminate|reflexivity].
Qed.

Lemma filtered_out_passes (wanted found : option string) :
  filtered_out wanted found = negb (passes wanted found).
Proof.
  unfold filtered_out, passes.
  destruct wanted as [a|], found as [b|]; cbn [PyStr.truthy];
    try reflexivity.
  - rewrite (String.eqb_sym a b).
    destruct (PyStr.nonempty a), (String.eqb b a); reflexivity.
  - destruct (PyStr.nonempty a); reflexivity.
Qed.

Lemma skipn_three {A} (d : A) (k : nat) :
  forall l : list A,
    List.length l = (k + 3)%nat ->
    skipn k l = [nth k l d; nth (k + 1) l d; nth (k + 2) l d].
Proof.
  induction k as [|k IH]; intros l L.
  - destruct l as [|a [|b [|c [|x r]]]]; try discriminate L. reflexivity.
  - destruct l as [|a r]; [discriminate L|].
    cbn [skipn Nat.add nth]. apply IH. cbn [List.length] in L. lia.
Qed.

(** The fields [parse_name] reads are the parts at these places. *)
Lemma parse_name_nth (l : list string) :
  parse_name l
  = if (List.length l <? 5)%nat then None
    else
      let n := List.length l in
      Some (nth 0 l "",
            (if (6 <=? n)%nat then Some (nth 1 l "") else None),
            nth (if (6 <=? n)%nat then 2 else 1)%nat l "",
            nth (n - 3) l "", nth (n - 2) l "", nth (n - 1) l "").
Proof.
  unfold parse_name, last3.
  destruct (Nat.ltb_spec (List.length l) 5) as [L|L]; [reflexivity|].
  rewrite (skipn_three "" (List.length l - 3) l) by lia.
  replace (List.length l - 3 + 1)%nat with (List.length l - 2)%nat by lia.
  replace (List.length l - 3 + 2)%nat with (List.length l - 1)%nat by lia.
  cbv zeta.
  destruct (Nat.leb_spec 6 (List.length l)) as [M|M].
  - destruct l as [|a [|b [|c r]]]; cbn [List.length] in M; try lia.
    reflexivity.
  - destruct l as [|a [|b r]]; cbn [List.length] in L; try lia.
    reflexivity.
Qed.

(** One pass of the loop, by the conditions on the file. *)
Lemma file_record_keeps (dir : string)
      (ticker datasource market : option string) (f : dir_entry) :
  file_record dir ticker datasource market f
  = if (5 <=? List.length (parts_of f))%nat
       && passes ticker (Some (read_ticker f))
       && passes datasource (Some (read_datasource f))
       && passes market (read_market f)
       && match e_stat f with Some _ => true | None => false end
    then Some (listing_of dir f)
    else None.
Proof.
  unfold file_record, listing_of, read_ticker, read_market, read_datasource,
    has_market, parts_of.
  rewrite parse_name_nth. cbv zeta.
  destruct (Nat.ltb_spec (List.length (split "_" (stem (e_name f)))) 5)
    as [L|L].
  - destruct (Nat.leb_spec 5 (List.length (split "_" (stem (e_name f)))));
      [lia|reflexivity].
  - destruct (Nat.leb_spec 5 (List.length (split "_" (stem (e_name f)))));
      [|lia].
    cbn [andb]. rewrite !filtered_out_passes.
    destruct (passes ticker _); cbn [negb andb]; [|reflexivity].
    destruct (passes datasource _); cbn [negb andb]; [|reflexivity].
    destruct (passes market _); cbn [negb andb]; [|reflexivity].
    destruct (e_stat f) as [[size mtime]|]; reflexivity.
Qed.

Lemma filter_map_filter {A B} (g : A -> option B) (k : A -> bool)
      (h : A -> B) (l : list A) :
  (forall x, g x = if k x then Some (h x) else None) ->
  filter_map g l = map h (filter k l).
Proof.
  intros H. induction l as [|x r IH]; [reflexivity|].
  cbn [filter_map filter]. rewrite H.
  destruct (k x); cbn [map]; rewrite IH; reflexivity.
Qed.

Lemma filter_filter {A} (c k : A -> bool) (l : list A) :
  filter k (filter c l) = filter (fun x => c x && k x) l.
Proof.
  induction l as [|x r IH]; [reflexivity|].
  cbn [filter]. destruct (c x); cbn [filter andb]; rewrite IH; reflexivity.
Qed.

(** The listed dictionaries, before the sort. *)
Lemma records_of_kept (w : world) (fs : list dir_entry)
      (ticker datasource market : option string) :
  filter_map (file_record (datasets_dir w) ticker datasource market)
             (glob_csv fs)
  = map (listing_of (datasets_dir w))
        (filter (keeps ticker datasource market) fs).
Proof.
  rewrite (filter_map_filter _ _ _ _
             (file_record_keeps (datasets_dir w) ticker datasource market)).
  unfold glob_csv. rewrite filter_filter. f_equal.
  apply filter_ext. intros f. unfold keeps.
  rewrite !andb_assoc. reflexivity.
Qed.

Lemma NoDup_map_filter {A B} (g : A -> B) (k : A -> bool) (l : list A) :
  NoDup (map g l) -> NoDup (map g (filter k l)).
Proof.
  induction l as [|x r IH]; cbn [map filter]; [intros H; exact H|].
  intros H. inversion H as [|y ys N D]; subst.
  destruct (k x); cbn [map]; [|exact (IH D)].
  constructor; [|exact (IH D)].
  intros I. apply N. apply in_map_iff in I. destruct I as (z & E & Iz).
  apply filter_In in Iz. apply in_map_iff. exists z. tauto.
Qed.

(** X25. [list_downloaded_files] returns one dictionary for each file of
    the datasets directory that it keeps, and no other, newest first: the
    list is a rearrangement of the dictionaries of the kept files, so a
    kept file is listed, and listed once (files with different names give
    dictionaries with different names). A file is kept exactly when its
    name ends in ".csv" and reads -- the stem split at the underscores --
    as at least five parts, when it passes each filter that is given (a
    filter that is [None] or empty passes everything; a market filter
    passes no file whose name holds no market), and when [stat] succeeds
    on it. Its dictionary names the file and its path in the directory,
    the fields read from the parts by their places, and the size and time
    [stat] gave. When the directory does not exist the list is empty. *)
Theorem listed_files_match_filters :
  forall (w : world) (files : option (list dir_entry))
         (ticker datasource market : option string),
    let listed := list_downloaded_files w files ticker datasource market in
    Sorted (fun a b => modified b <= modified a) listed
    /\ (files = None -> listed = [])
    /\ (forall fs,
           files = Some fs ->
           Permutation listed
                       (map (listing_of (datasets_dir w))
                            (filter (keeps ticker datasource market) fs))
           /\ (List.length listed <= List.length fs)%nat
           /\ (NoDup (map e_name fs) -> NoDup (map filename listed))
           /\ forall info,
               In info listed
               <-> exists f,
                   In f fs
                   /\ keeps ticker datasource market f = true
                   /\ info = listing_of (datasets_dir w) f)
    /\ (forall f,
           keeps ticker datasource market f = true
           <-> PyStr.endswith (e_name f) ".csv" = true
               /\ (5 <= List.length (split "_" (stem (e_name f))))%nat
               /\ (PyStr.truthy ticker = true ->
                   Some (read_ticker f) = ticker)
               /\ (PyStr.truthy datasource = true ->
                   Some (read_datasource f) = datasource)
               /\ (PyStr.truthy market = true -> read_market f = market)
               /\ exists size mtime, e_stat f = Some (size, mtime))
    /\ (forall f size mtime,
           e_stat f = Some (size, mtime) ->
           let parts := split "_" (stem (e_name f)) in
           let n := List.length parts in
           listing_of (datasets_dir w) f
           = FileInfo (e_name f) (datasets_dir w ++ "/" ++ e_name f)
                      (nth 0 parts "")
                      (if (6 <=? n)%nat then Some (nth 1 parts "") else None)
                      (nth (if (6 <=? n)%nat then 2 else 1)%nat parts "")
                      (nth (n - 3) parts "") (nth (n - 2) parts "")
                      (nth (n - 1) parts "") size mtime)
    /\ (forall info,
           In info listed ->
           path info = datasets_dir w ++ "/" ++ filename info
           /\ (PyStr.truthy ticker = true -> Some (fi_ticker info) = ticker)
           /\ (PyStr.truthy datasource = true ->
               Some (fi_datasource info) = datasource)
           /\ (PyStr.truthy market = true -> fi_market info = market)).
Proof.
  intros w files ticker datasource market listed. subst listed.
  unfold list_downloaded_files.
  assert (K : forall f,
             keeps ticker datasource market f = true
             <-> PyStr.endswith (e_name f) ".csv" = true
                 /\ (5 <= List.length (split "_" (stem (e_name f))))%nat
                 /\ (PyStr.truthy ticker = true ->
                     Some (read_ticker f) = ticker)
                 /\ (PyStr.truthy datasource = true ->
                     Some (read_datasource f) = datasource)
                 /\ (PyStr.truthy market = true -> read_market f = market)
                 /\ exists size mtime, e_stat f = Some (size, mtime)).
  { intros f. unfold keeps. rewrite !andb_true_iff, !passes_spec.
    fold (parts_of f). rewrite Nat.leb_le.
    destruct (e_stat f) as [[size mtime]|].
    - split.
      + intros (((((A & B) & C) & D) & E) & _). eauto 10.
      + intros (A & B & C & D & E & _). auto 10.
    - split.
      + intros (_ & F). discriminate F.
      + intros (_ & _ & _ & _ & _ & size & mtime & F). discriminate F. }
  assert (L : forall f size mtime,
             e_stat f = Some (size, mtime) ->
             let parts := split "_" (stem (e_name f)) in
             let n := List.length parts in
             listing_of (datasets_dir w) f
             = FileInfo (e_name f) (datasets_dir w ++ "/" ++ e_name f)
                        (nth 0 parts "")
                        (if (6 <=? n)%nat then Some (nth 1 parts "")
                         else None)
                        (nth (if (6 <=? n)%nat then 2 else 1)%nat parts "")
                        (nth (n - 3) parts "") (nth (n - 2) parts "")
                        (nth (n - 1) parts "") size mtime).
  { intros f size mtime E. cbv zeta.
    unfold listing_of, read_ticker, read_market, read_datasource, has_market,
      parts_of.
    rewrite E. reflexivity. }
  destruct files as [fs|].
  - rewrite records_of_kept.
    assert (P : Permutation
                  (sort_newest_first
                     (map (listing_of (datasets_dir w))
                          (filter (keeps ticker datasource market) fs)))
                  (map (listing_of (datasets_dir w))
                       (filter (keeps ticker datasource market) fs)))
      by (apply Permutation_sym, sort_newest_first_perm).
    assert (I : forall info,
               In info
                  (sort_newest_first
                     (map (listing_of (datasets_dir w))
                          (filter (keeps ticker datasource market) fs)))
               <-> exists f,
                   In f fs
                   /\ keeps ticker datasource market f = true
                   /\ info = listing_of (datasets_dir w) f).
    { intros info. split.
      - intros H. apply (Permutation_in _ P) in H.
        apply in_map_iff in H. destruct H as (f & <- & G).
        apply filter_In in G. exists f. tauto.
      - intros (f & G & E & ->).
        apply (Permutation_in _ (Permutation_sym P)).
        apply in_map. apply filter_In. auto. }
    split; [apply sort_newest_first_sorted|].
    split; [discriminate|].
    split; [|split; [exact K|split; [exact L|]]].
    + intros fs0 [= <-]. split; [exact P|]. split; [|split; [|exact I]].
      * rewrite (Permutation_length P), length_map. apply filter_length_le.
      * intros N.
        apply (Permutation_NoDup (Permutation_sym (Permutation_map filename P))).
        rewrite map_map. cbn [listing_of filename].
        apply (NoDup_map_filter e_name). exact N.
    + intros info H. apply I in H. destruct H as (f & _ & E & ->).
      apply K in E. destruct E as (_ & _ & E1 & E2 & E3 & _).
      cbn [listing_of path filename fi_ticker fi_datasource fi_market].
      auto.
  - split; [constructor|]. split; [reflexivity|].
    split; [discriminate|]. split; [exact K|]. split; [exact L|].
    intros info [].
Qed.

End ListingFacts.

Section NamesReadBack.
Import Effects Service Listing.

(** No underscore occurs in [s]. *)
Definition plain (s : string) : Prop := ~ PyStr.In_str "_" s.

Lemma split_plain (s : string) : plain s -> split "_" s = [s].
Proof.
  unfold plain. induction s as [|c r IH]; [reflexivity|].
  cbn [split PyStr.In_str]. intros N.
  destruct (Ascii.eqb_spec c "_") as [->|_]; [exfalso; apply N; auto|].
  rewrite IH by (intros I; apply N; auto). reflexivity.
Qed.

Lemma split_app (a b : string) :
  plain a -> split "_" (a ++ String "_" b) = a :: split "_" b.
Proof.
  unfold plain. induction a as [|c r IH]; cbn [String.append split].
  - intros _. reflexivity.
  - cbn [PyStr.In_str]. intros N.
    destruct (Ascii.eqb_spec c "_") as [->|_]; [exfalso; apply N; auto|].
    rewrite IH by (intros I; apply N; auto). reflexivity.
Qed.

Lemma before_last_dot_csv (base : string) :
  before_last_dot (base ++ ".csv") = Some base.
Proof.
  induction base as [|c r IH]; [reflexivity|].
  cbn [String.append before_last_dot]. rewrite IH. reflexivity.
Qed.

Lemma length_append (a b : string) :
  String.length (a ++ b) = (String.length a + String.length b)%nat.
Proof.
  induction a as [|c r IH]; [reflexivity|].
  cbn [String.append String.length]. rewrite IH. reflexivity.
Qed.

Lemma stem_csv (base : string) :
  PyStr.nonempty base = true -> stem (base ++ ".csv") = base.
Proof.
  intros N. unfold stem. rewrite before_last_dot_csv, N.
  unfold PyStr.len. rewrite length_append. cbn [String.length andb].
  destruct (Z.ltb_spec (Z.of_nat (String.length base))
                       (Z.of_nat (String.length base + 4) - 1));
    [reflexivity|lia].
Qed.

Lemma replace_char_plain (x : ascii) (s : string) :
  plain s -> plain (PyStr.replace_char x "-" s).
Proof.
  unfold plain. induction s as [|c r IH]; [intros N []|].
  cbn [PyStr.replace_char PyStr.In_str]. intros N [E|I].
  - destruct (Ascii.eqb c x); [discriminate E|]. apply N. auto.
  - apply IH; [intros J; apply N; auto|exact I].
Qed.

Lemma nonempty_append_r (a b : string) :
  PyStr.nonempty b = true -> PyStr.nonempty (a ++ b) = true.
Proof. destruct a; [intros H; exact H|reflexivity]. Qed.

(** X26. The list of downloaded files reads back the names the download
    writes only when the datasource is part of the name. For a ticker
    without underscore, a datasource, dates and an interval without
    underscore and without '/', csv format and no timeframe and no
    exchange, the name written holds no '/', so that the file lies in the
    datasets directory itself, where the list looks. A file named with
    the datasource ([include_datasource]) and without a market is read as
    the ticker made safe, that datasource, the dates and the interval,
    with no market; named with the datasource and a market without
    underscore and '/' other than "america", it is read with that market
    as well. A file named in the default way, without datasource and
    market, has four parts only and is never listed. *)
Theorem generated_names_read_back :
  forall (w : world) (ticker datasource start end_ interval : string)
         (market : option string) (tr : trace) (size mtime : Z),
    plain ticker -> plain datasource -> plain start -> plain end_ ->
    plain interval ->
    slash_free datasource -> slash_free start -> slash_free end_ ->
    slash_free interval ->
    ensure_directory_exists w (datasets_dir w) = None ->
    let safe :=
      PyStr.replace_char ":" "-"
        (PyStr.replace_char "\" "-" (PyStr.replace_char "/" "-" ticker)) in
    let named include_datasource :=
      fst (_get_output_path_with_format
             w ticker datasource start end_ interval market "csv" None
             include_datasource None tr) in
    (PyStr.truthy market = false \/ market = Some "america" ->
     exists name,
       named true = inr (datasets_dir w, name)
       /\ slash_free name
       /\ file_record (datasets_dir w) None None None
                      (Entry name (Some (size, mtime)))
          = Some (FileInfo name (datasets_dir w ++ "/" ++ name) safe None
                           datasource start end_ interval size mtime))
    /\ (forall m,
           market = Some m -> m <> "" -> m <> "america" -> plain m ->
           slash_free m ->
           exists name,
             named true = inr (datasets_dir w, name)
             /\ slash_free name
             /\ file_record (datasets_dir w) None None None
                            (Entry name (Some (size, mtime)))
                = Some (FileInfo name (datasets_dir w ++ "/" ++ name) safe
                                 (Some m) datasource start end_ interval
                                 size mtime))
    /\ (PyStr.truthy market = false \/ market = Some "america" ->
        exists name,
          named false = inr (datasets_dir w, name)
          /\ slash_free name
          /\ forall t d m,
              file_record (datasets_dir w) t d m
                          (Entry name (Some (size, mtime)))
              = None).
Proof.
  intros w ticker datasource start end_ interval market tr size mtime
         Pt Pd Ps Pe Pi Sd Ss Se Si D safe named.
  assert (Ssafe : slash_free safe)
    by (unfold safe; apply safe_ticker_slash_free).
  assert (Psafe : plain safe).
  { subst safe. repeat apply replace_char_plain. exact Pt. }
  assert (Run : forall inc,
             named inc
             = inr (datasets_dir w,
                    if PyStr.truthy market
                       && negb (String.eqb (opt_str market) "america")
                    then
                      if inc
                      then safe ++ "_" ++ opt_str market ++ "_" ++ datasource
                           ++ "_" ++ (start ++ "_" ++ end_) ++ "_" ++ interval
                           ++ "." ++ "csv"
                      else safe ++ "_" ++ opt_str market ++ "_"
                           ++ (start ++ "_" ++ end_) ++ "_" ++ interval
                           ++ "." ++ "csv"
                    else
                      if inc
                      then safe ++ "_" ++ datasource ++ "_"
                           ++ (start ++ "_" ++ end_) ++ "_" ++ interval
                           ++ "." ++ "csv"
                      else safe ++ "_" ++ (start ++ "_" ++ end_) ++ "_"
                           ++ interval ++ "." ++ "csv")).
  { intros inc. subst named. cbv beta.
    unfold _get_output_path_with_format. rewrite D.
    unfold bind, emit, perform, ret. cbv zeta. cbn [fst PyStr.truthy andb].
    rewrite andb_false_r.
    destruct (PyStr.truthy market
              && negb (String.eqb (opt_str market) "america"));
      destruct inc; reflexivity. }
  assert (Assoc : forall a b c : string, (a ++ b) ++ c = a ++ b ++ c).
  { intros a b c. induction a as [|x a IH]; [reflexivity|].
    cbn [String.append]. rewrite IH. reflexivity. }
  assert (Five :
            forall dir,
              file_record dir None None None
                (Entry (safe ++ "_" ++ datasource ++ "_"
                        ++ (start ++ "_" ++ end_) ++ "_" ++ interval
                        ++ "." ++ "csv") (Some (size, mtime)))
              = Some (FileInfo
                        (safe ++ "_" ++ datasource ++ "_"
                         ++ (start ++ "_" ++ end_) ++ "_" ++ interval
                         ++ "." ++ "csv")
                        (dir ++ "/"
                         ++ (safe ++ "_" ++ datasource ++ "_"
                             ++ (start ++ "_" ++ end_) ++ "_" ++ interval
                             ++ "." ++ "csv"))
                        safe None datasource start end_ interval size mtime)).
  { intros dir. unfold file_record. cbn [e_name e_stat].
    replace (safe ++ "_" ++ datasource ++ "_" ++ (start ++ "_" ++ end_)
             ++ "_" ++ interval ++ "." ++ "csv")
      with ((safe ++ "_" ++ datasource ++ "_" ++ start ++ "_" ++ end_
             ++ "_" ++ interval) ++ ".csv")
      by (rewrite !Assoc; reflexivity).
    rewrite stem_csv
      by (apply nonempty_append_r; reflexivity).
    change (safe ++ "_" ++ datasource ++ "_" ++ start ++ "_" ++ end_
            ++ "_" ++ interval)
      with (safe ++ String "_" (datasource ++ String "_"
             (start ++ String "_" (end_ ++ String "_" interval)))).
    rewrite !split_app, split_plain by assumption.
    reflexivity. }
  split; [|split].
  - intros M. eexists. rewrite Run.
    assert (K : PyStr.truthy market
                && negb (String.eqb (opt_str market) "america") = false).
    { destruct M as [T| ->]; [rewrite T; reflexivity|reflexivity]. }
    rewrite K. cbn [andb]. split; [reflexivity|].
    split; [slash_solver|]. apply Five.
  - intros m -> Ne Na Pm Sm. eexists. rewrite Run.
    assert (K : PyStr.truthy (Some m)
                && negb (String.eqb (opt_str (Some m)) "america") = true).
    { cbn [PyStr.truthy opt_str].
      destruct m; [contradiction|]. cbn [PyStr.nonempty andb].
      destruct (String.eqb_spec (String a m) "america");
        [contradiction|reflexivity]. }
    rewrite K. cbn [andb]. split; [reflexivity|].
    split; [cbn [opt_str]; slash_solver|].
    unfold file_record. cbn [e_name e_stat opt_str].
    replace (safe ++ "_" ++ m ++ "_" ++ datasource ++ "_"
             ++ (start ++ "_" ++ end_) ++ "_" ++ interval ++ "." ++ "csv")
      with ((safe ++ "_" ++ m ++ "_" ++ datasource ++ "_" ++ start ++ "_"
             ++ end_ ++ "_" ++ interval) ++ ".csv")
      by (rewrite !Assoc; reflexivity).
    rewrite stem_csv by (apply nonempty_append_r; reflexivity).
    change (safe ++ "_" ++ m ++ "_" ++ datasource ++ "_" ++ start ++ "_"
            ++ end_ ++ "_" ++ interval)
      with (safe ++ String "_" (m ++ String "_" (datasource ++ String "_"
             (start ++ String "_" (end_ ++ String "_" interval))))).
    rewrite !split_app, split_plain by assumption.
    reflexivity.
  - intros M. eexists. rewrite Run.
    assert (K : PyStr.truthy market
                && negb (String.eqb (opt_str market) "america") = false).
    { destruct M as [T| ->]; [rewrite T; reflexivity|reflexivity]. }
    rewrite K. cbn [andb]. split; [reflexivity|].
    split; [slash_solver|].
    intros t d m0. unfold file_record. cbn [e_name e_stat].
    replace (safe ++ "_" ++ (start ++ "_" ++ end_) ++ "_" ++ interval
             ++ "." ++ "csv")
      with ((safe ++ "_" ++ start ++ "_" ++ end_ ++ "_" ++ interval)
            ++ ".csv")
      by (rewrite !Assoc; reflexivity).
    rewrite stem_csv by (apply nonempty_append_r; reflexivity).
    change (safe ++ "_" ++ start ++ "_" ++ end_ ++ "_" ++ interval)
      with (safe ++ String "_" (start ++ String "_"
             (end_ ++ String "_" interval))).
    rewrite !split_app, split_plain by assumption.
    reflexivity.
Qed.

End NamesReadBack.

(** A datasets directory for examples. The second file has the default
    name of a download; [stat] fails on the last one. *)
Definition demo_files : list Listing.dir_entry :=
  [ Listing.Entry "AAPL_yfinance_2024-01-01_2024-06-01_1d.csv" (Some (100, 5));
    Listing.Entry "AAPL_2024-01-01_2024-06-01_1d.csv" (Some (90, 9));
    Listing.Entry "BHP_australia_yfinance_2024-01-01_2024-06-01_1d.csv"
                  (Some (80, 7));
    Listing.Entry "notes_for_the_next_run_of_it.txt" (Some (10, 8));
    Listing.Entry "MSFT_polygon_2024-01-01_2024-06-01_1d.csv" None ].

Lemma listed_files_match_filters_witness :
  map Listing.filename
      (Listing.list_downloaded_files demo_world (Some demo_files) None None
                                     None)
  = [ "BHP_australia_yfinance_2024-01-01_2024-06-01_1d.csv";
      "AAPL_yfinance_2024-01-01_2024-06-01_1d.csv" ]
  /\ map Listing.fi_ticker
         (Listing.list_downloaded_files demo_world (Some demo_files) None
                                        None (Some "australia"))
     = ["BHP"]
  /\ Sorted (fun a b => Listing.modified b <= Listing.modified a)
            (Listing.list_downloaded_files demo_world (Some demo_files) None
                                           None None).
Proof.
  split; [reflexivity|]. split; [reflexivity|].
  exact (proj1 (listed_files_match_filters
                  demo_world (Some demo_files) None None None)).
Defined.

Lemma generated_names_read_back_witness :
  plain "BTC/USD" /\ plain "yfinance" /\ plain "2024-01-01"
  /\ plain "2024-06-01" /\ plain "1d"
  /\ slash_free "yfinance" /\ slash_free "2024-01-01"
  /\ slash_free "2024-06-01" /\ slash_free "1d"
  /\ Service.ensure_directory_exists demo_world
                                     (Service.datasets_dir demo_world) = None
  /\ (exists name,
         fst (Service._get_output_path_with_format
                demo_world "BTC/USD" "yfinance" "2024-01-01" "2024-06-01"
                "1d" None "csv" None true None [])
         = inr (Service.datasets_dir demo_world, name)
         /\ slash_free name
         /\ Listing.file_record (Service.datasets_dir demo_world) None None
                                None (Listing.Entry name (Some (100, 5)))
            = Some (Listing.FileInfo
                      name (Service.datasets_dir demo_world ++ "/" ++ name)
                      "BTC-USD" None "yfinance" "2024-01-01" "2024-06-01"
                      "1d" 100 5))
  /\ (exists name,
         fst (Service._get_output_path_with_format
                demo_world "BTC/USD" "yfinance" "2024-01-01" "2024-06-01"
                "1d" None "csv" None false None [])
         = inr (Service.datasets_dir demo_world, name)
         /\ slash_free name
         /\ forall t d m,
             Listing.file_record (Service.datasets_dir demo_world) t d m
                                 (Listing.Entry name (Some (100, 5)))
             = None).
Proof.
  assert (P : forall s,
             (forall c, PyStr.In_str c s -> c <> "_"%char) -> plain s).
  { intros s H I. exact (H _ I eq_refl). }
  assert (P1 : plain "BTC/USD").
  { apply P. cbn. intros c H.
    repeat (destruct H as [<-|H]; [discriminate|]). destruct H. }
  assert (P2 : plain "yfinance").
  { apply P. cbn. intros c H.
    repeat (destruct H as [<-|H]; [discriminate|]). destruct H. }
  assert (P3 : plain "2024-01-01").
  { apply P. cbn. intros c H.
    repeat (destruct H as [<-|H]; [discriminate|]). destruct H. }
  assert (P4 : plain "2024-06-01").
  { apply P. cbn. intros c H.
    repeat (destruct H as [<-|H]; [discriminate|]). destruct H. }
  assert (P5 : plain "1d").
  { apply P. cbn. intros c H.
    repeat (destruct H as [<-|H]; [discriminate|]). destruct H. }
  assert (S2 : slash_free "yfinance") by literal_slash_free.
  assert (S3 : slash_free "2024-01-01") by literal_slash_free.
  assert (S4 : slash_free "2024-06-01") by literal_slash_free.
  assert (S5 : slash_free "1d") by literal_slash_free.
  split; [exact P1|]. split; [exact P2|]. split; [exact P3|].
  split; [exact P4|]. split; [exact P5|].
  split; [exact S2|]. split; [exact S3|]. split; [exact S4|].
  split; [exact S5|]. split; [reflexivity|].
  destruct (generated_names_read_back
              demo_world "BTC/USD" "yfinance" "2024-01-01" "2024-06-01" "1d"
              None [] 100 5 P1 P2 P3 P4 P5 S2 S3 S4 S5 eq_refl)
    as (A & _ & C).
  split; [apply A|apply C]; left; reflexivity.
Defined.

(** ** The timeframe in the name of a file *)

Section TimeframeNames.
Import Service.

(** X27. The timespans the resolver knows are written into file names in
    lower case, and no two of them in the same way: files downloaded for
    different timeframes never share a name. All but "10D" are in the
    table of [_timeframe_to_filename]; "10D", like every code that is
    not in the table, is written as it is, in lower case. *)
Theorem timeframe_file_names_distinct :
  (forall a b,
      In a Timespan.get_available_timespans ->
      In b Timespan.get_available_timespans ->
      _timeframe_to_filename a = _timeframe_to_filename b -> a = b)
  /\ (forall t,
         In t Timespan.get_available_timespans ->
         PyStr.lower (_timeframe_to_filename t) = _timeframe_to_filename t
         /\ (t <> "10D" ->
             In t ["1D"; "2D"; "3D"; "5D"; "1W"; "2W"; "3W"; "1M"; "2M";
                   "3M"; "6M"; "1Y"; "2Y"; "3Y"; "5Y"; "YTD"; "MAX"]))
  /\ (forall t,
         ~ In t ["1D"; "2D"; "3D"; "5D"; "1W"; "2W"; "3W"; "1M"; "2M"; "3M";
                 "6M"; "1Y"; "2Y"; "3Y"; "5Y"; "YTD"; "MAX"] ->
         _timeframe_to_filename t = PyStr.lower t).
Proof.
  split; [|split].
  - intros a b Ia Ib. cbn in Ia, Ib.
    repeat (destruct Ia as [<-|Ia];
            [repeat (destruct Ib as [<-|Ib];
                     [intros E; vm_compute in E;
                      first [reflexivity|discriminate E]|]);
             contradiction|]).
    contradiction.
  - intros t It. cbn in It.
    repeat (destruct It as [<-|It];
            [split; [reflexivity|];
             intros N;
             first [exfalso; apply N; reflexivity|cbn; tauto]|]).
    contradiction.
  - intros t N. unfold _timeframe_to_filename.
    rewrite get_absent; [reflexivity|exact N].
Qed.

End TimeframeNames.

Lemma timeframe_file_names_distinct_witness :
  In "10D" Timespan.get_available_timespans
  /\ In "1D" Timespan.get_available_timespans
  /\ Service._timeframe_to_filename "10D" = "10d"
  /\ Service._timeframe_to_filename "1D" = "1day"
  /\ (Service._timeframe_to_filename "10D"
      = Service._timeframe_to_filename "1D" -> "10D" = "1D").
Proof.
  assert (A : In "10D" Timespan.get_available_timespans) by (cbn; tauto).
  assert (B : In "1D" Timespan.get_available_timespans) by (cbn; tauto).
  split; [exact A|]. split; [exact B|]. split; [reflexivity|].
  split; [reflexivity|].
  exact (proj1 timeframe_file_names_distinct "10D" "1D" A B).
Defined.
